(** * github-label-manager-plus: [src/js/apiCalls.js]

    A shallow embedding of the module that talks to the GitHub REST API:
    the entry codec ([formatDate], [serializeEntry], [packEntry]), the
    status interpreter ([composeStatusMessage]), the URL builders, the
    transport functions and the four public operations ([apiCallGet],
    [apiCallCreate], [apiCallUpdate], [apiCallDelete]).

    JavaScript objects live in an explicit heap of insertion-ordered
    property lists, so that aliasing and [delete] are visible.  The
    browser (log pane, alert boxes, console, network) is a [World] that
    every effectful function threads through. *)

From Stdlib Require Import ZArith Ascii String DecimalString List.
From Stdlib Require DecimalPos DecimalZ.
From stdpp Require Import base list strings.
Import ListNotations.

Set Warnings "-register-all".

(* String concatenation computes under [simpl] in this development. *)
#[local] Arguments String.append !_ _ / : simpl nomatch.

Local Open Scope string_scope.
Local Open Scope list_scope.
Local Open Scope Z_scope.

(** ** JavaScript values *)

Module Js.

(** Addresses of the heap. *)
Abbreviation loc := nat.

(** The fragment of the value universe that the module manipulates.
    Numbers are the integers; [VNaN] is the one non-integer that arises
    (from [+s] on a non-numeric string).  [VError] is an [Error] object,
    kept by value since the module never mutates one. *)
Inductive Value :=
| VUndefined
| VNull
| VNaN
| VNumber (z : Z)
| VString (s : string)
| VError (name message : string)
| VObject (l : loc).

#[global] Instance Value_eq_dec : EqDecision Value.
Proof. solve_decision. Defined.

(** Decimal rendering of an integer, as [Number.prototype.toString]
    gives it for integers below 10^21. *)
Definition numberToString (z : Z) : string :=
  NilZero.string_of_int (Z.to_int z).

(** [ToString], as used by template literals and string [+]. *)
Definition toString (v : Value) : string :=
  match v with
  | VUndefined => "undefined"
  | VNull => "null"
  | VNaN => "NaN"
  | VNumber z => numberToString z
  | VString s => s
  | VError name message =>
      if decide (name = "") then message
      else if decide (message = "") then name
      else name +:+ ": " +:+ message
  | VObject _ => "[object Object]"
  end.

(** [!v]'s operand test. *)
Definition truthy (v : Value) : bool :=
  match v with
  | VUndefined | VNull | VNaN => false
  | VNumber z => negb (z =? 0)
  | VString s => negb (String.eqb s "")
  | VError _ _ | VObject _ => true
  end.

(** What a JavaScript computation ends in: a value or an exception. *)
Inductive Outcome (A : Type) :=
| Return (a : A)
| Throw (e : Value).
Arguments Return {A} a.
Arguments Throw {A} e.

(** A settled promise. *)
Inductive Settled (A : Type) :=
| Resolved (a : A)
| Rejected (e : Value).
Arguments Resolved {A} a.
Arguments Rejected {A} e.

Definition TypeError (message : string) : Value := VError "TypeError" message.
Definition RangeError (message : string) : Value := VError "RangeError" message.
Definition SyntaxError (message : string) : Value := VError "SyntaxError" message.

End Js.
Import Js.

(** ** Strings *)

Module Str.

(** [s.slice(1)] *)
Definition slice1 (s : string) : string :=
  match s with
  | EmptyString => EmptyString
  | String _ rest => rest
  end.

(** [s.slice(0, -1)] *)
Fixpoint sliceInit (s : string) : string :=
  match s with
  | EmptyString => EmptyString
  | String _ EmptyString => EmptyString
  | String c rest => String c (sliceInit rest)
  end.

(** [s.split(sep)] for a one-character separator. *)
Fixpoint split (sep : ascii) (s : string) : list string :=
  match s with
  | EmptyString => [EmptyString]
  | String c rest =>
      if Ascii.eqb c sep then EmptyString :: split sep rest
      else match split sep rest with
           | [] => [String c EmptyString]
           | piece :: pieces => String c piece :: pieces
           end
  end.

(** [s.replace(pat, by)] with a string pattern: the first occurrence. *)
Fixpoint replace (pat by_ s : string) : string :=
  if String.prefix pat s
  then by_ +:+ String.substring (String.length pat)
                                (String.length s - String.length pat) s
  else match s with
       | EmptyString => EmptyString
       | String c rest => String c (replace pat by_ rest)
       end.

(** [s.includes(sub)] *)
Fixpoint includes (sub s : string) : bool :=
  String.prefix sub s ||
  match s with
  | EmptyString => false
  | String _ rest => includes sub rest
  end.

End Str.

(** ** Responses and the status interpreter *)

(** A parsed JSON document, as [response.json()] yields it. *)
Inductive Json :=
| JNull
| JBool (b : bool)
| JNum (z : Z)
| JStr (s : string)
| JArr (items : list Json)
| JObj (members : list (string * Json)).

(** The body of a response as the collector sees it: the list endpoints
    answer with a JSON array of records; [BodyUnparsable message] is a
    body on which [response.json()] rejects with a [SyntaxError]. *)
Inductive Body :=
| BodyArray (records : list Json)
| BodyUnparsable (message : string).

Record Response := mkResponse {
  status : Z;
  statusText : string;
  body : Body;
}.

(** [response.ok] is a getter of the Fetch API: true exactly for the
    statuses 200 to 299. *)
Definition ok (r : Response) : bool :=
  (200 <=? status r) && (status r <=? 299).

Definition composeStatusMessage (response : Response) : string :=
  if ok response then
    numberToString (status response) +:+ " status OK."
  else if status response =? 401 then
    (numberToString (status response) +:+ " " +:+ statusText response +:+ ".")
    +:+ " Please check the input values of your login information."
  else if status response =? 403 then
    (numberToString (status response) +:+ " " +:+ statusText response +:+ ".")
    +:+ " The GitHub server refused to your request."
    +:+ " Maybe you have exceeded your rate limit."
    +:+ " Please wait for a little while."
  else if status response =? 404 then
    (numberToString (status response) +:+ " " +:+ statusText response +:+ ".")
    +:+ " Repository not found. Please check the input values of your"
    +:+ " login information."
  else
    (numberToString (status response) +:+ " " +:+ statusText response +:+ ".")
    +:+ " Error occurred.".

(** ** Objects and the heap *)

Module Obj.

(** An object is its own properties in insertion order. *)
Definition Props := list (string * Value).

Fixpoint getProp (k : string) (o : Props) : Value :=
  match o with
  | [] => VUndefined
  | (k', v) :: rest => if String.eqb k k' then v else getProp k rest
  end.

Definition hasProp (k : string) (o : Props) : bool :=
  existsb (fun kv => String.eqb k kv.1) o.

(** [o[k] = v]: an existing key keeps its place, a new one goes last. *)
Fixpoint setProp (k : string) (v : Value) (o : Props) : Props :=
  match o with
  | [] => [(k, v)]
  | (k', v') :: rest =>
      if String.eqb k k' then (k, v) :: rest else (k', v') :: setProp k v rest
  end.

(** [delete o[k]] *)
Definition deleteProp (k : string) (o : Props) : Props :=
  List.filter (fun kv => negb (String.eqb k kv.1)) o.

(** An object literal [{k1: v1, ..., kn: vn}]. *)
Definition literal (members : list (string * Value)) : Props :=
  fold_left (fun o kv => setProp kv.1 kv.2 o) members [].

(** The heap: objects by address. *)
Abbreviation Heap := (list Props).

End Obj.
Import Obj.

(** ** The form *)

(** A form control: its attributes and its current [value]. *)
Record Element := mkElement {
  attributes : list (string * string);
  value : string;
}.

(** An entry node: its own attributes and the controls below it, in
    document order. *)
Record EntryNode := mkEntryNode {
  nodeAttributes : list (string * string);
  descendants : list Element;
}.

Fixpoint lookupAttribute (name : string) (attrs : list (string * string))
  : option string :=
  match attrs with
  | [] => None
  | (k, v) :: rest =>
      if String.eqb k name then Some v else lookupAttribute name rest
  end.

(** [getAttribute] answers [null] for a missing attribute. *)
Definition attributeValue (name : string) (attrs : list (string * string))
  : Value :=
  match lookupAttribute name attrs with
  | Some v => VString v
  | None => VNull
  end.

(** [node.querySelector('[name="n"]')]: the first control whose [name]
    attribute is [n], or [null]. *)
Definition querySelectorByName (node : EntryNode) (n : string)
  : option Element :=
  List.find
    (fun el => match lookupAttribute "name" (attributes el) with
               | Some v => String.eqb v n
               | None => false
               end)
    (descendants node).

(** ** The browser *)

Record LoginInfo := mkLoginInfo {
  gitHubUsername : string;
  personalAccessToken : string;
  homeRepoOwner : string;
  homeRepoName : string;
  templateRepoOwner : string;
  templateRepoName : string;
}.

Record Request := mkRequest {
  url : string;
  method : string;
  headers : list (string * string);
  requestBody : option string;
}.

(** What the network does with a request: it answers, or the request
    fails below HTTP (DNS, TLS, connection reset) and [fetch] rejects
    with a [TypeError]. *)
Inductive Delivery :=
| Answered (response : Response)
| Failed (message : string).

Definition settle (d : Delivery) : Settled Response :=
  match d with
  | Answered response => Resolved response
  | Failed message => Rejected (TypeError message)
  end.

(** The state every operation runs in.  [network] is what the network
    will deliver, in order: each [fetch] records its request and takes
    the next delivery; when none is left the promise stays pending.
    [localTZA] is the host's offset from UTC, in milliseconds, at a given
    local time.  [loginInfo] is what the credential provider answers. *)
Record World := mkWorld {
  heap : Heap;
  network : list Delivery;
  requests : list Request;
  logPane : list string;
  alerts : list string;
  consoleErrors : list Value;
  localTZA : Z -> Z;
  loginInfo : Outcome LoginInfo;
}.

Definition withHeap (h : Heap) (w : World) : World :=
  mkWorld h (network w) (requests w) (logPane w) (alerts w)
          (consoleErrors w) (localTZA w) (loginInfo w).

(** Stateful computations that may throw. *)
Definition M (A : Type) : Type := World -> Outcome A * World.

Definition ret {A} (a : A) : M A := fun w => (Return a, w).
Definition throw {A} (e : Value) : M A := fun w => (Throw e, w).
Definition bind {A B} (c : M A) (k : A -> M B) : M B :=
  fun w => match c w with
           | (Return a, w') => k a w'
           | (Throw e, w') => (Throw e, w')
           end.
(** [try { c } catch (err) { handler(err) }] *)
Definition tryCatch {A} (c : M A) (handler : Value -> M A) : M A :=
  fun w => match c w with
           | (Return a, w') => (Return a, w')
           | (Throw e, w') => handler e w'
           end.

Notation "'let*' x ':=' c 'in' k" := (bind c (fun x => k))
  (at level 10, x name, c at level 100, k at level 200).
Notation "c ';;' k" := (bind c (fun _ => k))
  (at level 100, k at level 200, right associativity).

(** Allocation of a fresh object. *)
Definition alloc (o : Props) : M Value :=
  fun w => (Return (VObject (List.length (heap w))), withHeap (heap w ++ [o]) w).

(** [v.k] *)
Definition getField (v : Value) (k : string) : M Value :=
  fun w =>
    match v with
    | VUndefined | VNull =>
        (Throw (TypeError ("Cannot read properties of " +:+ toString v)), w)
    | VObject l =>
        (Return (match heap w !! l with
                 | Some o => getProp k o
                 | None => VUndefined
                 end), w)
    | VError name message =>
        (Return (if String.eqb k "name" then VString name
                 else if String.eqb k "message" then VString message
                 else VUndefined), w)
    | _ => (Return VUndefined, w)
    end.

(** [delete v.k] *)
Definition deleteField (v : Value) (k : string) : M unit :=
  fun w =>
    match v with
    | VUndefined | VNull =>
        (Throw (TypeError ("Cannot convert undefined or null to object")), w)
    | VObject l =>
        (Return tt, withHeap (alter (deleteProp k) l (heap w)) w)
    | _ => (Return tt, w)
    end.

(** [writeLog]: a paragraph with the text is appended to the committing
    modal, which the page always has. *)
Definition writeLog (v : Value) : M unit :=
  fun w => (Return tt,
            mkWorld (heap w) (network w) (requests w)
                    (logPane w ++ [toString v]) (alerts w)
                    (consoleErrors w) (localTZA w) (loginInfo w)).

Definition alert (v : Value) : M unit :=
  fun w => (Return tt,
            mkWorld (heap w) (network w) (requests w) (logPane w)
                    (alerts w ++ [toString v])
                    (consoleErrors w) (localTZA w) (loginInfo w)).

Definition console_error (v : Value) : M unit :=
  fun w => (Return tt,
            mkWorld (heap w) (network w) (requests w) (logPane w) (alerts w)
                    (consoleErrors w ++ [v]) (localTZA w) (loginInfo w)).

(** [fetch]: the request goes out; the promise settles with the next
    delivery, if there is one. *)
Definition fetch (req : Request) : M (option (Settled Response)) :=
  fun w =>
    let out := requests w ++ [req] in
    match network w with
    | [] =>
        (Return None,
         mkWorld (heap w) [] out (logPane w) (alerts w)
                 (consoleErrors w) (localTZA w) (loginInfo w))
    | d :: rest =>
        (Return (Some (settle d)),
         mkWorld (heap w) rest out (logPane w) (alerts w)
                 (consoleErrors w) (localTZA w) (loginInfo w))
    end.

(** Modelled from the spec: [getLoginInfo] of [dataValidation.js], the
    credential provider, which supplies the credentials or fails. *)
Definition getLoginInfo : M LoginInfo := fun w => (loginInfo w, w).

(** Modelled from the spec: [validateKind] of [dataValidation.js], which
    fails with a [ValidationError] when the kind is neither labels nor
    milestones.  The spec does not give the message; the model puts the
    offending kind there. *)
Definition validateKind (kind : string) : M unit :=
  if String.eqb kind "labels" || String.eqb kind "milestones"
  then ret tt
  else throw (VError "ValidationError" kind).

(** ** Numbers and dates *)

Module Num.

Definition isWhiteSpace (c : ascii) : bool :=
  let n := Z.of_nat (nat_of_ascii c) in
  (n =? 32) || ((9 <=? n) && (n <=? 13)).

Fixpoint trimStart (s : string) : string :=
  match s with
  | String c rest => if isWhiteSpace c then trimStart rest else s
  | EmptyString => EmptyString
  end.

Definition trim (s : string) : string :=
  String.rev (trimStart (String.rev (trimStart s))).

Definition digitValue (c : ascii) : option Z :=
  let n := Z.of_nat (nat_of_ascii c) in
  if (48 <=? n) && (n <=? 57) then Some (n - 48) else None.

Fixpoint digitsValue (acc : Z) (s : string) : option Z :=
  match s with
  | EmptyString => Some acc
  | String c rest =>
      match digitValue c with
      | Some d => digitsValue (10 * acc + d) rest
      | None => None
      end
  end.

Definition unsignedValue (s : string) : option Z :=
  match s with
  | EmptyString => None
  | _ => digitsValue 0 s
  end.

(** [ToNumber] on a string, for the literals a form produces: white
    space is trimmed, the empty string is 0, a run of decimal digits
    with an optional sign is that integer, and anything else counts as
    [NaN] ([None]).  The integer is the number the code computes as
    long as its magnitude is at most 2^53; beyond that a JavaScript
    number rounds, and numerals with a fraction, an exponent or a radix
    prefix, which a date or number control does not produce, are not
    read here.  A property that depends on the value read states that
    range. *)
Definition stringToNumber (s : string) : option Z :=
  match trim s with
  | EmptyString => Some 0
  | String "+"%char rest => unsignedValue rest
  | String "-"%char rest => Z.opp <$> unsignedValue rest
  | t => unsignedValue t
  end.

(** [ToNumber]; [None] is [NaN]. *)
Definition toNumber (v : Value) : option Z :=
  match v with
  | VUndefined | VNaN => None
  | VNull => Some 0
  | VNumber z => Some z
  | VString s => stringToNumber s
  | VError _ _ | VObject _ => None
  end.

Definition ofNumber (n : option Z) : Value :=
  match n with
  | Some z => VNumber z
  | None => VNaN
  end.

(** [+v] *)
Definition unaryPlus (v : Value) : Value := ofNumber (toNumber v).

(** [v - 1] *)
Definition minusOne (v : Value) : Value :=
  ofNumber ((fun z => z - 1) <$> toNumber v).

End Num.

Module JsDate.

Definition msPerDay : Z := 86400000.
Definition msPerHour : Z := 3600000.
Definition msPerMinute : Z := 60000.
Definition msPerSecond : Z := 1000.

(** Day number (days since 1970-01-01) of a civil date of the proleptic
    Gregorian calendar; [m] is 1 to 12. *)
Definition daysFromCivil (y m d : Z) : Z :=
  let y' := if m <=? 2 then y - 1 else y in
  let era := y' / 400 in
  let yoe := y' - era * 400 in
  let mp := (m + 9) mod 12 in
  let doy := (153 * mp + 2) / 5 + d - 1 in
  let doe := yoe * 365 + yoe / 4 - yoe / 100 + doy in
  era * 146097 + doe - 719468.

(** The civil date (year, month 1 to 12, day of month) of a day number:
    [YearFromTime], [MonthFromTime] + 1 and [DateFromTime]. *)
Definition civilFromDays (day : Z) : Z * Z * Z :=
  let z := day + 719468 in
  let era := z / 146097 in
  let doe := z - era * 146097 in
  let yoe := (doe - doe / 1460 + doe / 36524 - doe / 146096) / 365 in
  let doy := doe - (365 * yoe + yoe / 4 - yoe / 100) in
  let mp := (5 * doy + 2) / 153 in
  let d := doy - (153 * mp + 2) / 5 + 1 in
  let m := if mp <? 10 then mp + 3 else mp - 9 in
  let y := yoe + era * 400 in
  (if m <=? 2 then y + 1 else y, m, d).

(** [MakeDay(year, month, date)], [month] counted from 0 and free to
    overflow into the years. *)
Definition MakeDay (year month date : Z) : Z :=
  let ym := year + month / 12 in
  let mn := month mod 12 in
  daysFromCivil ym (mn + 1) 1 + date - 1.

Definition MakeTime (hour min sec ms : Z) : Z :=
  hour * msPerHour + min * msPerMinute + sec * msPerSecond + ms.

Definition MakeDate (day time : Z) : Z := day * msPerDay + time.

(** Years 0 to 99 mean 1900 to 1999 in the [Date] constructor. *)
Definition MakeFullYear (year : Z) : Z :=
  if (0 <=? year) && (year <=? 99) then 1900 + year else year.

Definition TimeClip (t : Z) : option Z :=
  if Z.abs t <=? 8640000000000000 then Some t else None.

(** [new Date(year, month, date, hours, minutes, seconds)]: the
    components are read in the host's local time; the time value of the
    date is the UTC instant, or [None] for an invalid date. *)
Definition construct (tza : Z -> Z)
    (year month date hours minutes seconds : Value) : option Z :=
  y ← Num.toNumber year;
  m ← Num.toNumber month;
  dt ← Num.toNumber date;
  h ← Num.toNumber hours;
  mi ← Num.toNumber minutes;
  s ← Num.toNumber seconds;
  let local := MakeDate (MakeDay (MakeFullYear y) m dt) (MakeTime h mi s 0) in
  TimeClip (local - tza local).

Definition zeros (n : nat) : string :=
  string_of_list_ascii (repeat "0"%char n).

Definition padStart (width : nat) (z : Z) : string :=
  let s := numberToString z in
  zeros (width - String.length s) +:+ s.

Definition isoYear (y : Z) : string :=
  if (0 <=? y) && (y <=? 9999) then padStart 4 y
  else (if y <? 0 then "-" else "+") +:+ padStart 6 (Z.abs y).

(** [toISOString] *)
Definition toISOString (tv : option Z) : Outcome string :=
  match tv with
  | None => Throw (RangeError "Invalid time value")
  | Some t =>
      let '(y, m, d) := civilFromDays (t / msPerDay) in
      let inDay := t mod msPerDay in
      Return (isoYear y +:+ "-" +:+ padStart 2 m +:+ "-" +:+ padStart 2 d
              +:+ "T" +:+ padStart 2 (inDay / msPerHour)
              +:+ ":" +:+ padStart 2 ((inDay / msPerMinute) mod 60)
              +:+ ":" +:+ padStart 2 ((inDay / msPerSecond) mod 60)
              +:+ "." +:+ padStart 3 (inDay mod msPerSecond) +:+ "Z")
  end.

End JsDate.

(** ** Entry codec *)

(** Destructuring from an array: a missing item is [undefined]. *)
Definition item (i : nat) (l : list Value) : Value := nth i l VUndefined.

Definition formatDate (node : option Element) : M Value :=
  match node with
  | None => throw (TypeError "Cannot read properties of null")
  | Some node =>
      let date := VString (value node) in
      let time := attributeValue "data-orig-time" (attributes node) in
      if negb (truthy date) then ret VNull
      else
        let ymd := map (fun e => Num.unaryPlus (VString e))
                       (Str.split "-" (value node)) in
        let hms := if truthy time
                   then map VString (Str.split ":" (toString time))
                   else [VNumber 0; VNumber 0; VNumber 0] in
        fun w =>
          let dateObject :=
            JsDate.construct (localTZA w)
              (item 0 ymd) (Num.minusOne (item 1 ymd)) (item 2 ymd)
              (item 0 hms) (item 1 hms) (item 2 hms) in
          match JsDate.toISOString dateObject with
          | Return iso => (Return (VString (Str.replace ".000Z" "Z" iso)), w)
          | Throw e => (Throw e, w)
          end
  end.

(** [node.querySelector('[name="n"]')[prop]]: reading a property of
    [null] throws; a control has [value], every other property name read
    here is [undefined]. *)
Definition controlProperty (node : EntryNode) (n prop : string) : M Value :=
  match querySelectorByName node n with
  | None => throw (TypeError "Cannot read properties of null")
  | Some el =>
      ret (if String.eqb prop "value" then VString (value el) else VUndefined)
  end.

(** [node.querySelector('[name="n"]').getAttribute(attr)] *)
Definition controlAttribute (node : EntryNode) (n attr : string) : M Value :=
  match querySelectorByName node n with
  | None => throw (TypeError "Cannot read properties of null")
  | Some el => ret (attributeValue attr (attributes el))
  end.

(** [v.slice(1)] on a control's value. *)
Definition slice1 (v : Value) : Value := VString (Str.slice1 (toString v)).

Definition serializeEntry (node : EntryNode) (kind : string) : M Value :=
  let* valid :=
    tryCatch (validateKind kind ;; ret true)
             (fun err => console_error err ;; alert err ;; ret false) in
  if negb valid then ret VUndefined
  else if String.eqb kind "labels" then
    let* name := controlProperty node "name" "value" in
    let* originalName := controlAttribute node "name" "data-orig-val" in
    let* color := controlProperty node "color" "value" in
    let* description := controlProperty node "description" "value" in
    alloc (literal [("name", name);
                    ("originalName", originalName);
                    ("color", slice1 color);
                    ("description", description)])
  else
    (* milestones *)
    if negb (bool_decide (attributeValue "data-number" (nodeAttributes node)
                          = VString "null")) then
      let* title := controlProperty node "title" "value" in
      let* originalTitle := controlAttribute node "title" "data-orig-val" in
      let* state := controlProperty node "state" "value" in
      let* description := controlProperty node "description" "value" in
      let* due_on := formatDate (querySelectorByName node "due-date") in
      let number :=
        Num.unaryPlus (attributeValue "data-number" (nodeAttributes node)) in
      alloc (literal [("title", title);
                      ("originalTitle", originalTitle);
                      ("state", state);
                      ("description", description);
                      ("due_on", due_on);
                      ("number", number)])
    else
      let* dueDate := controlProperty node "due-date" "value" in
      if negb (bool_decide (dueDate = VString "")) then
        let* title := controlProperty node "title" "value" in
        let* state := controlProperty node "state" "value" in
        let* description := controlProperty node "description" "value" in
        let* due_on := formatDate (querySelectorByName node "due-date") in
        alloc (literal [("title", title);
                        ("state", state);
                        ("description", description);
                        ("due_on", due_on)])
      else
        let* title := controlProperty node "title" "value" in
        let* state := controlProperty node "state" "valie" in
        let* description := controlProperty node "description" "value" in
        alloc (literal [("title", title);
                        ("state", state);
                        ("description", description)]).

Record Names := mkNames {
  originalName : Value;
  newName : Value;
  apiCallSign : Value;
}.

(** The package keeps a reference to its body, not a copy. *)
Record EntryPackage := mkEntryPackage {
  entryBody : Value;
  names : Names;
}.

Definition packEntry (serializedEntry : Value) (kind : string)
  : M EntryPackage :=
  let entryObjectCopy := serializedEntry in
  if String.eqb kind "labels" then
    let* originalName := getField entryObjectCopy "originalName" in
    let* newName := getField entryObjectCopy "name" in
    let* apiCallSign := getField entryObjectCopy "originalName" in
    deleteField entryObjectCopy "originalName" ;;
    ret (mkEntryPackage entryObjectCopy
                        (mkNames originalName newName apiCallSign))
  else
    (* Milestone *)
    let* originalName := getField entryObjectCopy "originalTitle" in
    let* newName := getField entryObjectCopy "title" in
    let* apiCallSign := getField entryObjectCopy "number" in
    deleteField entryObjectCopy "originalTitle" ;;
    ret (mkEntryPackage entryObjectCopy
                        (mkNames originalName newName apiCallSign)).

(** ** JSON.stringify and Base64 *)

Module JSON.

Definition hexDigit (n : Z) : string :=
  match String.get (Z.to_nat n) "0123456789abcdef" with
  | Some c => String c EmptyString
  | None => EmptyString
  end.

(** The escape of one character inside a JSON string. *)
Definition quoteChar (c : ascii) : string :=
  let n := Z.of_nat (nat_of_ascii c) in
  if n =? 34 then String "\"%char (String c EmptyString)
  else if n =? 92 then "\\"
  else if n =? 8 then "\b"
  else if n =? 9 then "\t"
  else if n =? 10 then "\n"
  else if n =? 12 then "\f"
  else if n =? 13 then "\r"
  else if n <? 32 then "\u00" +:+ hexDigit (n / 16) +:+ hexDigit (n mod 16)
  else String c EmptyString.

Fixpoint quoteChars (s : string) : string :=
  match s with
  | EmptyString => EmptyString
  | String c rest => quoteChar c +:+ quoteChars rest
  end.

Definition quote (s : string) : string :=
  String "034"%char (quoteChars s +:+ String "034"%char EmptyString).

Definition joinComma (parts : list string) : string := String.concat "," parts.

(** Serialization of a value; [None] is [undefined], which a property
    list leaves out.  [path] holds the objects being serialized around
    the value: meeting one of them again is a cycle. *)
Fixpoint serialize (fuel : nat) (h : Heap) (path : list loc) (v : Value)
  : Outcome (option string) :=
  match v with
  | VUndefined => Return None
  | VNull | VNaN => Return (Some "null")
  | VNumber z => Return (Some (numberToString z))
  | VString s => Return (Some (quote s))
  | VError _ _ => Return (Some "{}")
  | VObject l =>
      if bool_decide (l ∈ path)
      then Throw (TypeError "Converting circular structure to JSON")
      else
        match fuel with
        | O => Throw (TypeError "Converting circular structure to JSON")
        | S fuel' =>
            let members :=
              fold_right
                (fun kv acc =>
                   match acc with
                   | Throw e => Throw e
                   | Return done =>
                       match serialize fuel' h (l :: path) kv.2 with
                       | Throw e => Throw e
                       | Return None => Return done
                       | Return (Some s) =>
                           Return ((quote kv.1 +:+ ":" +:+ s) :: done)
                       end
                   end)
                (Return [])
                (default [] (h !! l)) in
            match members with
            | Throw e => Throw e
            | Return parts => Return (Some ("{" +:+ joinComma parts +:+ "}"))
            end
        end
  end.

(** [JSON.stringify(v)]; the objects on a path are distinct cells of the
    heap, so the heap's size bounds the depth. *)
Definition stringify (v : Value) : M (option string) :=
  fun w => (serialize (S (List.length (heap w))) (heap w) [] v, w).

End JSON.

Module base64.

Definition alphabet : string :=
  "ABCDEFGHIJKLMNOPQRSTUVWXYZabcdefghijklmnopqrstuvwxyz0123456789+/".

Definition sextet (n : Z) : string :=
  match String.get (Z.to_nat n) alphabet with
  | Some c => String c EmptyString
  | None => EmptyString
  end.

Fixpoint encodeBytes (bytes : list Z) : string :=
  match bytes with
  | [] => EmptyString
  | [a] => sextet (a / 4) +:+ sextet ((a mod 4) * 16) +:+ "=="
  | [a; b] =>
      sextet (a / 4) +:+ sextet ((a mod 4) * 16 + b / 16)
      +:+ sextet ((b mod 16) * 4) +:+ "="
  | a :: b :: c :: rest =>
      sextet (a / 4) +:+ sextet ((a mod 4) * 16 + b / 16)
      +:+ sextet ((b mod 16) * 4 + c / 64) +:+ sextet (c mod 64)
      +:+ encodeBytes rest
  end.

(** Modelled from the spec: [encode] of [base64.js], the Base64 encoding
    of the credentials' bytes. *)
Definition encode (s : string) : string :=
  encodeBytes (map (fun c => Z.of_nat (nat_of_ascii c)) (list_ascii_of_string s)).

End base64.

(** ** URL builders and transport *)

Definition makeBasicAuth (loginInfo : LoginInfo) : string :=
  "Basic " +:+
  base64.encode (gitHubUsername loginInfo +:+ ":" +:+ personalAccessToken loginInfo).

Definition urlForGet (loginInfo : LoginInfo) (kind : string) (pageNum : Z)
    (mode : string) : string :=
  let owner := if String.eqb mode "list" then homeRepoOwner loginInfo
               else templateRepoOwner loginInfo in
  let repo := if String.eqb mode "list" then homeRepoName loginInfo
              else templateRepoName loginInfo in
  let url := "https://api.github.com/repos/"
             +:+ (owner +:+ "/" +:+ repo +:+ "/" +:+ kind)
             +:+ "?per_page=20"
             +:+ ("&page=" +:+ numberToString pageNum) in
  if String.eqb kind "milestones" then url +:+ "&state=all" else url.

Definition authHeaders (loginInfo : LoginInfo) : list (string * string) :=
  [("Authorization", makeBasicAuth loginInfo);
   ("Accept", "application/vnd.github.v3+json")].

Definition fetchGet (getUrl : LoginInfo -> string -> Z -> string -> string)
    (loginInfo : LoginInfo) (kind : string) (pageNum : Z) (mode : string)
  : M (option (Settled Response)) :=
  fetch (mkRequest (getUrl loginInfo kind pageNum mode) "GET"
                   (authHeaders loginInfo) None).

Definition urlForCreate (loginInfo : LoginInfo) (kind : string) : string :=
  ("https://api.github.com/repos/" +:+ homeRepoOwner loginInfo +:+ "/")
  +:+ (homeRepoName loginInfo +:+ "/" +:+ kind).

Definition fetchCreate (getUrl : LoginInfo -> string -> string)
    (loginInfo : LoginInfo) (kind : string) (entryPackage : EntryPackage)
  : M (option (Settled Response)) :=
  let* json := JSON.stringify (entryBody entryPackage) in
  fetch (mkRequest (getUrl loginInfo kind) "POST" (authHeaders loginInfo) json).

Definition urlForUpdate (loginInfo : LoginInfo) (kind : string)
    (apiCallSign : Value) : string :=
  ("https://api.github.com/repos/" +:+ homeRepoOwner loginInfo +:+ "/")
  +:+ (homeRepoName loginInfo +:+ "/" +:+ kind +:+ "/" +:+ toString apiCallSign).

Definition fetchUpdate (getUrl : LoginInfo -> string -> Value -> string)
    (loginInfo : LoginInfo) (kind : string) (entryPackage : EntryPackage)
  : M (option (Settled Response)) :=
  let* json := JSON.stringify (entryBody entryPackage) in
  fetch (mkRequest (getUrl loginInfo kind (apiCallSign (names entryPackage)))
                   "PATCH" (authHeaders loginInfo) json).

Definition urlForDelete (loginInfo : LoginInfo) (kind : string)
    (apiCallSign : Value) : string :=
  ("https://api.github.com/repos/" +:+ homeRepoOwner loginInfo +:+ "/")
  +:+ (homeRepoName loginInfo +:+ "/" +:+ kind +:+ "/" +:+ toString apiCallSign).

Definition fetchDelete (getUrl : LoginInfo -> string -> Value -> string)
    (loginInfo : LoginInfo) (kind : string) (entryPackage : EntryPackage)
  : M (option (Settled Response)) :=
  fetch (mkRequest (getUrl loginInfo kind (apiCallSign (names entryPackage)))
                   "DELETE" (authHeaders loginInfo) None).

(** ** Operations *)

(** The [catch] of the collector. *)
Definition collectFailed {A} (err : Value) : M (option (Settled A)) :=
  alert err ;; console_error err ;; ret (Some (Rejected err)).

(** One level of [apiCallGet] per unit of fuel.  [None] is a promise
    that has not settled. *)
Fixpoint apiCallGet_rec (fuel : nat) (loginInfo : LoginInfo) (kind : string)
    (pageNum : Z) (mode : string) : M (option (Settled (list Json))) :=
  match fuel with
  | O => ret None
  | S fuel' =>
      let pageNum := if pageNum =? 1 then 1 else pageNum in
      let* fetched := fetchGet urlForGet loginInfo kind pageNum mode in
      match fetched with
      | None => ret None
      | Some (Rejected err) => collectFailed err
      | Some (Resolved response) =>
          if negb (ok response)
          then collectFailed (VError "Error" (composeStatusMessage response))
          else
            match body response with
            | BodyUnparsable message => collectFailed (SyntaxError message)
            | BodyArray records =>
                if (List.length records =? 0)%nat then
                  if pageNum =? 1 then
                    let msg := "No " +:+ kind +:+ " exist in this repository." in
                    ret (Some (Rejected (VString msg)))
                  else ret (Some (Resolved records))
                else
                  let* rest :=
                    apiCallGet_rec fuel' loginInfo kind (pageNum + 1) mode in
                  match rest with
                  | None => ret None
                  | Some (Rejected err) => collectFailed err
                  | Some (Resolved more) =>
                      ret (Some (Resolved (records ++ more)))
                  end
            end
      end
  end.

(** Every level takes one delivery from the network before it recurses,
    so one more level than there are deliveries is all that can run. *)
Definition apiCallGet (loginInfo : LoginInfo) (kind : string) (pageNum : Z)
    (mode : string) : M (option (Settled (list Json))) :=
  fun w =>
    apiCallGet_rec (S (List.length (network w))) loginInfo kind pageNum mode w.

(** What a public write operation hands back: nothing, or its promise. *)
Inductive CallResult :=
| ReturnedUndefined
| ReturnedPromise (p : option (Settled Value)).

(** [try { validateKind(kind); } catch (err) { writeLog(err); return; }] *)
Definition kindAccepted (kind : string) : M bool :=
  tryCatch (validateKind kind ;; ret true)
           (fun err => writeLog err ;; ret false).

Definition apiCallCreate (entryNode : EntryNode) (kind : string)
  : M CallResult :=
  let* accepted := kindAccepted kind in
  if negb accepted then ret ReturnedUndefined
  else
    let* loginInfo := getLoginInfo in
    let* serializedEntry := serializeEntry entryNode kind in
    let* entryPackage := packEntry serializedEntry kind in
    let kindSingular := Str.sliceInit kind in
    let* fetched := fetchCreate urlForCreate loginInfo kind entryPackage in
    match fetched with
    | None => ret (ReturnedPromise None)
    | Some (Resolved response) =>
        (* the status message of a failed response is computed and dropped *)
        let _ := if negb (ok response) then composeStatusMessage response
                 else EmptyString in
        writeLog (VString ("Created " +:+ kindSingular +:+ ": "
                           +:+ toString (newName (names entryPackage)) +:+ ".")) ;;
        ret (ReturnedPromise (Some (Resolved VUndefined)))
    | Some (Rejected err) =>
        writeLog (VString (("Creation of " +:+ kindSingular +:+ " "
                            +:+ toString (newName (names entryPackage)))
                           +:+ (" failed due to error: " +:+ toString err +:+ "."))) ;;
        console_error err ;;
        ret (ReturnedPromise (Some (Resolved VUndefined)))
    end.

Definition apiCallUpdate (entryNode : EntryNode) (kind : string)
  : M CallResult :=
  let* accepted := kindAccepted kind in
  if negb accepted then ret ReturnedUndefined
  else
    let* loginInfo := getLoginInfo in
    let* serializedEntry := serializeEntry entryNode kind in
    let* entryPackage := packEntry serializedEntry kind in
    let kindSingular := Str.sliceInit kind in
    let* fetched := fetchUpdate urlForUpdate loginInfo kind entryPackage in
    match fetched with
    | None => ret (ReturnedPromise None)
    | Some (Resolved response) =>
        let _ := if negb (ok response) then composeStatusMessage response
                 else EmptyString in
        writeLog (VString (("Updated " +:+ kindSingular +:+ ": "
                            +:+ toString (originalName (names entryPackage)))
                           +:+ (" &#8680; "
                                +:+ toString (newName (names entryPackage)) +:+ "."))) ;;
        ret (ReturnedPromise (Some (Resolved VUndefined)))
    | Some (Rejected err) =>
        writeLog (VString (("Update of " +:+ kindSingular +:+ " "
                            +:+ toString (originalName (names entryPackage)))
                           +:+ (" &#8680; "
                                +:+ toString (newName (names entryPackage))
                                +:+ " failed due to error: "
                                +:+ toString err +:+ "."))) ;;
        console_error err ;;
        ret (ReturnedPromise (Some (Resolved VUndefined)))
    end.

Definition apiCallDelete (entryNode : EntryNode) (kind : string)
  : M CallResult :=
  let* accepted := kindAccepted kind in
  if negb accepted then ret ReturnedUndefined
  else
    let* loginInfo := getLoginInfo in
    let* serializedEntry := serializeEntry entryNode kind in
    let* entryPackage := packEntry serializedEntry kind in
    let kindSingular := Str.sliceInit kind in
    let* fetched := fetchDelete urlForDelete loginInfo kind entryPackage in
    match fetched with
    | None => ret (ReturnedPromise None)
    | Some (Resolved response) =>
        let _ := if negb (ok response) then composeStatusMessage response
                 else EmptyString in
        writeLog (VString ("Deleted " +:+ kindSingular +:+ ": "
                           +:+ toString (originalName (names entryPackage))
                           +:+ ".")) ;;
        ret (ReturnedPromise (Some (Resolved VUndefined)))
    | Some (Rejected err) =>
        writeLog (VString (("Deletion of " +:+ kindSingular +:+ " "
                            +:+ toString (originalName (names entryPackage))
                            +:+ " ")
                           +:+ ("failed due to error: " +:+ toString err +:+ "."))) ;;
        console_error err ;;
        ret (ReturnedPromise (Some (Resolved VUndefined)))
    end.

(** ** Vocabulary of the properties *)

(** The branch of the status interpreter a response falls in. *)
Inductive StatusClass := IsOk | Is401 | Is403 | Is404 | IsOther.

Definition classify (r : Response) : StatusClass :=
  if ok r then IsOk
  else if status r =? 401 then Is401
  else if status r =? 403 then Is403
  else if status r =? 404 then Is404
  else IsOther.

(** A delivery that answers ok with the given page of records. *)
Definition answers (d : Delivery) (records : list Json) : Prop :=
  exists r, d = Answered r /\ ok r = true /\ body r = BodyArray records.

(** The GET that the collector issues for a page. *)
Definition getRequest (loginInfo : LoginInfo) (kind mode : string)
    (pageNum : Z) : Request :=
  mkRequest (urlForGet loginInfo kind pageNum mode) "GET"
            (authHeaders loginInfo) None.

(** The GETs for [n] consecutive pages from [pageNum] on. *)
Fixpoint getRequests (loginInfo : LoginInfo) (kind mode : string)
    (pageNum : Z) (n : nat) : list Request :=
  match n with
  | O => []
  | S n' => getRequest loginInfo kind mode pageNum
            :: getRequests loginInfo kind mode (pageNum + 1) n'
  end.

(** The world after requests went out and the network is left with
    [rest]; nothing else has changed. *)
Definition afterRequests (sent : list Request) (rest : list Delivery)
    (w : World) : World :=
  mkWorld (heap w) rest (requests w ++ sent) (logPane w) (alerts w)
          (consoleErrors w) (localTZA w) (loginInfo w).

(** What the collector rejects with on an empty first page. *)
Definition emptyResult (kind : string) : Value :=
  VString ("No " +:+ kind +:+ " exist in this repository.").

(** What [serializeEntry] builds from an entry node, branch by branch. *)
Inductive Serialized (node : EntryNode) : string -> Props -> Prop :=
| SerializedLabel nameEl colorEl descriptionEl :
    querySelectorByName node "name" = Some nameEl ->
    querySelectorByName node "color" = Some colorEl ->
    querySelectorByName node "description" = Some descriptionEl ->
    Serialized node "labels"
      [("name", VString (value nameEl));
       ("originalName", attributeValue "data-orig-val" (attributes nameEl));
       ("color", VString (Str.slice1 (value colorEl)));
       ("description", VString (value descriptionEl))]
| SerializedExisting titleEl stateEl descriptionEl due :
    attributeValue "data-number" (nodeAttributes node) <> VString "null" ->
    querySelectorByName node "title" = Some titleEl ->
    querySelectorByName node "state" = Some stateEl ->
    querySelectorByName node "description" = Some descriptionEl ->
    (due = VNull \/ exists iso, due = VString iso) ->
    Serialized node "milestones"
      [("title", VString (value titleEl));
       ("originalTitle", attributeValue "data-orig-val" (attributes titleEl));
       ("state", VString (value stateEl));
       ("description", VString (value descriptionEl));
       ("due_on", due);
       ("number",
        Num.unaryPlus (attributeValue "data-number" (nodeAttributes node)))]
| SerializedDated titleEl stateEl descriptionEl dueEl due :
    attributeValue "data-number" (nodeAttributes node) = VString "null" ->
    querySelectorByName node "due-date" = Some dueEl ->
    value dueEl <> "" ->
    querySelectorByName node "title" = Some titleEl ->
    querySelectorByName node "state" = Some stateEl ->
    querySelectorByName node "description" = Some descriptionEl ->
    (due = VNull \/ exists iso, due = VString iso) ->
    Serialized node "milestones"
      [("title", VString (value titleEl));
       ("state", VString (value stateEl));
       ("description", VString (value descriptionEl));
       ("due_on", due)]
| SerializedUndated titleEl stateEl descriptionEl dueEl :
    attributeValue "data-number" (nodeAttributes node) = VString "null" ->
    querySelectorByName node "due-date" = Some dueEl ->
    value dueEl = "" ->
    querySelectorByName node "title" = Some titleEl ->
    querySelectorByName node "state" = Some stateEl ->
    querySelectorByName node "description" = Some descriptionEl ->
    Serialized node "milestones"
      [("title", VString (value titleEl));
       ("state", VUndefined);
       ("description", VString (value descriptionEl))].

(** The identity field that [packEntry] moves out of the body. *)
Definition identityKey (kind : string) : string :=
  if String.eqb kind "labels" then "originalName" else "originalTitle".

(** The field that carries the new name. *)
Definition nameKey (kind : string) : string :=
  if String.eqb kind "labels" then "name" else "title".

(** The field that [apiCallSign] is read from. *)
Definition signKey (kind : string) : string :=
  if String.eqb kind "labels" then "originalName" else "number".

(** URL path escaping as the spec words it for [apiCallSign], written
    from the spec and not from the code: the escaping of
    [encodeURIComponent], which keeps letters, digits and
    [- _ . ! ~ * ' ( )] and writes every other byte as [%XX]. *)
Module Spec.

Definition unreserved (c : ascii) : bool :=
  let n := Z.of_nat (nat_of_ascii c) in
  ((48 <=? n) && (n <=? 57)) || ((65 <=? n) && (n <=? 90))
  || ((97 <=? n) && (n <=? 122))
  || (n =? 45) || (n =? 95) || (n =? 46) || (n =? 33) || (n =? 126)
  || (n =? 42) || (n =? 39) || (n =? 40) || (n =? 41).

Definition upperHexDigit (n : Z) : string :=
  match String.get (Z.to_nat n) "0123456789ABCDEF" with
  | Some c => String c EmptyString
  | None => EmptyString
  end.

Definition percentEncode (c : ascii) : string :=
  let n := Z.of_nat (nat_of_ascii c) in
  "%" +:+ upperHexDigit (n / 16) +:+ upperHexDigit (n mod 16).

Fixpoint pathEscape (s : string) : string :=
  match s with
  | EmptyString => EmptyString
  | String c rest =>
      (if unreserved c then String c EmptyString else percentEncode c)
      +:+ pathEscape rest
  end.

End Spec.

(** The JSON text of a primitive value and of one member of an object. *)
Definition jsonPrimitive (v : Value) : string :=
  match v with
  | VString s => JSON.quote s
  | VNumber z => numberToString z
  | _ => "null"
  end.

Definition member (k : string) (v : Value) : string :=
  JSON.quote k +:+ ":" +:+ jsonPrimitive v.

(** The JSON text of the body of an existing milestone after packing. *)
Definition existingMilestoneBody (title state description : string)
    (due number : Value) : string :=
  "{" +:+ JSON.joinComma [member "title" (VString title);
                          member "state" (VString state);
                          member "description" (VString description);
                          member "due_on" due;
                          member "number" number] +:+ "}".

(** ** Sample data *)

Definition sampleLogin : LoginInfo :=
  mkLoginInfo "octocat" "token" "octocat" "hello-world" "octocat" "template".

(** A fresh page on a host in zone [tz] (milliseconds east of UTC), with
    the given deliveries ahead. *)
Definition sampleWorld (tz : Z) (deliveries : list Delivery) : World :=
  mkWorld [] deliveries [] [] [] [] (fun _ => tz) (Return sampleLogin).

Definition okPage (records : list Json) : Delivery :=
  Answered (mkResponse 200 "OK" (BodyArray records)).

Definition control (name val : string) (extra : list (string * string))
  : Element :=
  mkElement (("name", name) :: extra) val.

(** The row of the label [bug], unchanged since it was loaded. *)
Definition sampleLabelNode : EntryNode :=
  mkEntryNode []
    [control "name" "bug" [("data-orig-val", "bug")];
     control "color" "#d73a4a" [];
     control "description" "Something is not working" []].

(** The row of a milestone that the server does not know yet. *)
Definition sampleNewMilestone (dueDate : string) : EntryNode :=
  mkEntryNode [("data-number", "null")]
    [control "title" "v1.0" [];
     control "state" "open" [];
     control "description" "First release" [];
     control "due-date" dueDate []].

(** The row of milestone number 7, renamed from [v0.9] to [v1.0]. *)
Definition sampleExistingMilestone : EntryNode :=
  mkEntryNode [("data-number", "7")]
    [control "title" "v1.0" [("data-orig-val", "v0.9")];
     control "state" "open" [];
     control "description" "First release" [];
     control "due-date" "" []].

(** A caller's label entry, as [serializeEntry] would have built it. *)
Definition sampleLabelEntry : Props :=
  [("name", VString "bug");
   ("originalName", VString "bug");
   ("color", VString "d73a4a");
   ("description", VString "Something is not working")].

(** A caller's entry for milestone number 7. *)
Definition sampleMilestoneEntry : Props :=
  [("title", VString "v1.0");
   ("originalTitle", VString "v0.9");
   ("state", VString "open");
   ("description", VString "First release");
   ("due_on", VNull);
   ("number", VNumber 7)].

(** ** Vocabulary of the further properties *)

(** What the collector has done to the world after [n] GETs from page
    [pageNum] on that reported the errors [errs]: the requests went out
    in page order, [n] deliveries at most were taken, every error was
    alerted and written to the console, and nothing else changed. *)
Definition collected (loginInfo : LoginInfo) (kind mode : string)
    (pageNum : Z) (n : nat) (errs : list Value) (w w' : World) : Prop :=
  requests w' = requests w ++ getRequests loginInfo kind mode pageNum n
  /\ network w' = drop n (network w)
  /\ consoleErrors w' = consoleErrors w ++ errs
  /\ alerts w' = alerts w ++ map toString errs
  /\ heap w' = heap w
  /\ logPane w' = logPane w.

(** The error a delivery makes the collector fail with, if any: a
    failure below HTTP, a status that is not ok, or a body that does not
    parse. *)
Definition failure (d : Delivery) : option Value :=
  match d with
  | Failed message => Some (TypeError message)
  | Answered r =>
      if ok r then
        match body r with
        | BodyArray _ => None
        | BodyUnparsable message => Some (SyntaxError message)
        end
      else Some (VError "Error" (composeStatusMessage r))
  end.

(** A value that JSON writes as a literal: no object, no [Error]. *)
Definition plain (v : Value) : bool :=
  match v with
  | VObject _ | VError _ _ => false
  | _ => true
  end.

(** The JSON members of an object of plain values: insertion order,
    [undefined] values left out. *)
Fixpoint jsonMembers (o : Props) : list string :=
  match o with
  | [] => []
  | (k, VUndefined) :: rest => jsonMembers rest
  | (k, v) :: rest => member k v :: jsonMembers rest
  end.

Definition jsonObject (o : Props) : string :=
  "{" +:+ JSON.joinComma (jsonMembers o) +:+ "}".

(** The world after a write operation got as far as its request: the
    packed body sits in the heap, the request is out, one delivery (if
    any) is taken, and the log pane and the console have grown by the
    given lines. *)
Definition written (req : Request) (logged : list string)
    (errs : list Value) (body : Props) (w : World) : World :=
  mkWorld (heap w ++ [body]) (tail (network w)) (requests w ++ [req])
          (logPane w ++ logged) (alerts w) (consoleErrors w ++ errs)
          (localTZA w) (loginInfo w).

(** The package that [packEntry] builds from a serialized entry [o]
    stored at address [l]. *)
Definition packageOf (kind : string) (l : loc) (o : Props) : EntryPackage :=
  mkEntryPackage (VObject l)
    (mkNames (getProp (identityKey kind) o)
             (getProp (nameKey kind) o)
             (getProp (signKey kind) o)).

(** A world-preserving step: it returns or throws in the world it was
    given, and what it throws is a [TypeError] or a [RangeError]. *)
Definition quiet {A} (c : M A) : Prop :=
  forall w,
    (exists a, c w = (Return a, w))
    \/ (exists name message,
          c w = (Throw (VError name message), w)
          /\ (name = "TypeError" \/ name = "RangeError")).


(** No white space anywhere in the string. *)
Fixpoint noWhiteSpace (s : string) : bool :=
  match s with
  | EmptyString => true
  | String c rest => negb (Num.isWhiteSpace c) && noWhiteSpace rest
  end.

(** Leap years and month lengths of the Gregorian calendar. *)
Definition leapYear (y : Z) : bool :=
  (y mod 4 =? 0) && (negb (y mod 100 =? 0) || (y mod 400 =? 0)).

Definition daysInMonth (y m : Z) : Z :=
  if m =? 2 then (if leapYear y then 29 else 28)
  else if (m =? 4) || (m =? 6) || (m =? 9) || (m =? 11) then 30
  else 31.

(** A date of the calendar. *)
Definition validDate (y m d : Z) : Prop :=
  1 <= m <= 12 /\ 1 <= d <= daysInMonth y m.

(** A time of day, to the second. *)
Definition validTime (h mi s : Z) : Prop :=
  0 <= h <= 23 /\ 0 <= mi <= 59 /\ 0 <= s <= 59.

(** Decimal digits and nothing else. *)
Fixpoint allDigits (s : string) : bool :=
  match s with
  | EmptyString => true
  | String c rest =>
      match Num.digitValue c with
      | Some _ => allDigits rest
      | None => false
      end
  end.

(** The text of a date and of a time as a date control holds them. *)
Definition dateText (y m d : Z) : string :=
  JsDate.padStart 4 y +:+ "-" +:+ JsDate.padStart 2 m
  +:+ "-" +:+ JsDate.padStart 2 d.

Definition timeText (h mi s : Z) : string :=
  JsDate.padStart 2 h +:+ ":" +:+ JsDate.padStart 2 mi
  +:+ ":" +:+ JsDate.padStart 2 s.

(** The host is [east] minutes east of UTC throughout the local day
    [y]-[m]-[d]. *)
Definition offsetOn (w : World) (y m d east : Z) : Prop :=
  forall t,
    JsDate.MakeDate (JsDate.daysFromCivil y m d) 0 <= t
    < JsDate.MakeDate (JsDate.daysFromCivil y m d + 1) 0 ->
    localTZA w t = east * JsDate.msPerMinute.

(** The UTC text of a minute counted from the midnight that starts
    [y]-[m]-[d]; the minute may fall in a neighbouring day of the month. *)
Definition utcMinute (y m d minute : Z) : string :=
  dateText y m (d + minute / 1440) +:+ "T"
  +:+ timeText (minute mod 1440 / 60) (minute mod 60) 0 +:+ "Z".

(** The integers that a JavaScript number holds exactly and that
    [ToNumber] reads back from their decimal text: up to 2^53 in
    magnitude. *)
Definition exactInteger (n : Z) : Prop := Z.abs n <= 2 ^ 53.

(** * Properties *)

(** ** Worked examples *)

Example split_date : Str.split "-" "2024-03-05" = ["2024"; "03"; "05"].
Proof. reflexivity. Qed.

Example split_trailing : Str.split ":" "14:30:" = ["14"; "30"; ""].
Proof. reflexivity. Qed.

Example replace_first : Str.replace ".000Z" "Z" "a.000Z.000Z" = "aZ.000Z".
Proof. reflexivity. Qed.

Example sliceInit_kind : Str.sliceInit "milestones" = "milestone".
Proof. reflexivity. Qed.

Example stringToNumber_cases :
  map Num.stringToNumber ["03"; ""; " 7 "; "-12"; "null"; "1x"]
  = [Some 3; Some 0; Some 7; Some (-12); None; None].
Proof. reflexivity. Qed.

Example civil_days :
  JsDate.daysFromCivil 1970 1 1 = 0
  /\ JsDate.daysFromCivil 1969 12 31 = -1
  /\ JsDate.daysFromCivil 2000 2 29 = 11016
  /\ JsDate.daysFromCivil 2024 3 5 = 19787
  /\ JsDate.civilFromDays 0 = (1970, 1, 1)
  /\ JsDate.civilFromDays (-1) = (1969, 12, 31)
  /\ JsDate.civilFromDays 11016 = (2000, 2, 29)
  /\ JsDate.civilFromDays 19787 = (2024, 3, 5).
Proof. repeat split. Qed.

Example date_overflow :
  (* new Date(2023, 13, 31): month 13 is February 2024, day 31 is March 2 *)
  JsDate.toISOString
    (JsDate.construct (fun _ => 0) (VNumber 2023) (VNumber 13) (VNumber 31)
                      (VNumber 0) (VNumber 0) (VNumber 0))
  = Return "2024-03-02T00:00:00.000Z".
Proof. reflexivity. Qed.

Example date_invalid :
  JsDate.toISOString
    (JsDate.construct (fun _ => 0) (VNumber 2024) VNaN (VNumber 1)
                      (VNumber 0) (VNumber 0) (VNumber 0))
  = Throw (RangeError "Invalid time value").
Proof. reflexivity. Qed.

Example base64_cases :
  map base64.encode ["Man"; "Ma"; "M"; "octocat:token"]
  = ["TWFu"; "TWE="; "TQ=="; "b2N0b2NhdDp0b2tlbg=="].
Proof. reflexivity. Qed.

Example composeStatusMessage_cases :
  map composeStatusMessage
      [mkResponse 200 "OK" (BodyArray []);
       mkResponse 401 "Unauthorized" (BodyArray []);
       mkResponse 500 "Internal Server Error" (BodyArray [])]
  = ["200 status OK.";
     "401 Unauthorized. Please check the input values of your login information.";
     "500 Internal Server Error. Error occurred."].
Proof. reflexivity. Qed.

Example urlForGet_cases :
  urlForGet sampleLogin "labels" 1 "list"
  = "https://api.github.com/repos/octocat/hello-world/labels?per_page=20&page=1"
  /\ urlForGet sampleLogin "milestones" 2 "copy"
     = "https://api.github.com/repos/octocat/template/milestones?per_page=20&page=2&state=all".
Proof. split; reflexivity. Qed.

(** Creating the sample label: one POST, the body without
    [originalName], one line in the log. *)
Example apiCallCreate_label :
  apiCallCreate sampleLabelNode "labels"
                (sampleWorld 0 [Answered (mkResponse 201 "Created" (BodyArray []))])
  = (Return (ReturnedPromise (Some (Resolved VUndefined))),
     mkWorld
       [[("name", VString "bug"); ("color", VString "d73a4a");
         ("description", VString "Something is not working")]]
       []
       [mkRequest "https://api.github.com/repos/octocat/hello-world/labels"
          "POST" (authHeaders sampleLogin)
          (Some ("{" +:+ JSON.joinComma
                           [member "name" (VString "bug");
                            member "color" (VString "d73a4a");
                            member "description"
                                   (VString "Something is not working")]
                 +:+ "}"))]
       ["Created label: bug."] [] []
       (fun _ => 0) (Return sampleLogin)).
Proof. reflexivity. Qed.

(** A failure on the second page discards the first page's records; the
    error is alerted once per level it passes through. *)
Example apiCallGet_later_page_fails :
  let w := sampleWorld 0 [okPage [JStr "a"];
                          Answered (mkResponse 403 "Forbidden" (BodyArray []))] in
  let err := VError "Error"
    "403 Forbidden. The GitHub server refused to your request. Maybe you have exceeded your rate limit. Please wait for a little while." in
  (apiCallGet sampleLogin "labels" 1 "list" w).1 = Return (Some (Rejected err))
  /\ consoleErrors (apiCallGet sampleLogin "labels" 1 "list" w).2 = [err; err].
Proof. split; reflexivity. Qed.

(** With nothing left to deliver the promise stays pending. *)
Example apiCallGet_pending :
  (apiCallGet sampleLogin "labels" 1 "list"
     (sampleWorld 0 [okPage [JStr "a"]])).1 = Return None.
Proof. reflexivity. Qed.

(** ** Strings *)

Lemma append_assoc (a b c : string) : (a +:+ b) +:+ c = a +:+ (b +:+ c).
Proof. induction a as [|x a IH]; simpl; [reflexivity | now rewrite IH]. Qed.

Lemma length_append (a b : string) :
  String.length (a +:+ b) = (String.length a + String.length b)%nat.
Proof. induction a as [|x a IH]; simpl; [reflexivity | now rewrite IH]. Qed.

(** Two equal strings that end in tails of one length end in one tail. *)
Lemma append_inj_tail (a b s t : string) :
  String.length s = String.length t -> a +:+ s = b +:+ t -> s = t.
Proof.
  revert b. induction a as [|x a IH]; intros [|y b] Hlen Heq; simpl in Heq.
  - exact Heq.
  - apply (f_equal String.length) in Heq. simpl in Heq.
    rewrite length_append in Heq. lia.
  - apply (f_equal String.length) in Heq. simpl in Heq.
    rewrite length_append in Heq. lia.
  - injection Heq as _ Heq. eauto.
Qed.

Lemma prefix_append (p s : string) : String.prefix p (p +:+ s) = true.
Proof.
  induction p as [|x p IH]; simpl; [now destruct s |].
  destruct (ascii_dec x x); [exact IH | congruence].
Qed.

Lemma includes_unfold (sub s : string) :
  Str.includes sub s =
  String.prefix sub s || match s with
                         | EmptyString => false
                         | String _ rest => Str.includes sub rest
                         end.
Proof. destruct s; reflexivity. Qed.

Lemma includes_here (sub s : string) : Str.includes sub (sub +:+ s) = true.
Proof. rewrite includes_unfold, prefix_append. reflexivity. Qed.

Lemma includes_append_r (sub a s : string) :
  Str.includes sub s = true -> Str.includes sub (a +:+ s) = true.
Proof.
  intros H. induction a as [|x a IH]; [exact H |].
  rewrite includes_unfold. simpl String.append. cbv iota. rewrite IH.
  apply orb_true_r.
Qed.

(** ** Status interpreter *)

Lemma ok_false_outside (r : Response) :
  status r < 200 \/ 299 < status r -> ok r = false.
Proof. unfold ok. intros H. apply andb_false_iff. lia. Qed.

Lemma message_tail_split (n st a b : string) :
  (n +:+ " " +:+ st +:+ ".") +:+ (a +:+ b)
  = (n +:+ " " +:+ st +:+ "." +:+ a) +:+ b.
Proof. rewrite !append_assoc. reflexivity. Qed.

(** Every message ends in the two characters of its branch. *)
Lemma composeStatusMessage_tail (r : Response) :
  exists front,
    composeStatusMessage r =
    front +:+ match classify r with
              | IsOk => "K."
              | Is401 | Is404 => "n."
              | Is403 => "e."
              | IsOther => "d."
              end.
Proof.
  unfold composeStatusMessage, classify.
  destruct (ok r).
  { exists (numberToString (status r) +:+ " status O").
    now rewrite append_assoc. }
  destruct (status r =? 401).
  { eexists.
    exact (message_tail_split _ _
             " Please check the input values of your login informatio" "n."). }
  destruct (status r =? 403).
  { eexists.
    exact (message_tail_split _ _
             " The GitHub server refused to your request. Maybe you have exceeded your rate limit. Please wait for a little whil" "e."). }
  destruct (status r =? 404).
  { eexists.
    exact (message_tail_split _ _
             " Repository not found. Please check the input values of your login informatio" "n."). }
  eexists. exact (message_tail_split _ _ " Error occurre" "d.").
Qed.

(** Every message of a failed response starts with the status and the
    status text. *)
Lemma composeStatusMessage_front (r : Response) :
  ok r = false ->
  exists rest,
    composeStatusMessage r
    = numberToString (status r) +:+ " " +:+ statusText r +:+ "." +:+ rest.
Proof.
  intros Hok. unfold composeStatusMessage. rewrite Hok.
  repeat match goal with |- context [if ?b then _ else _] => destruct b end;
    eexists; rewrite !append_assoc; reflexivity.
Qed.

(** Responses in different branches never get the same message. *)
Lemma composeStatusMessage_distinct (r1 r2 : Response) :
  classify r1 <> classify r2 ->
  composeStatusMessage r1 <> composeStatusMessage r2.
Proof.
  intros Hcls Heq.
  destruct (composeStatusMessage_tail r1) as [f1 H1].
  destruct (composeStatusMessage_tail r2) as [f2 H2].
  assert (Htail :
    match classify r1 with
    | IsOk => "K." | Is401 | Is404 => "n." | Is403 => "e." | IsOther => "d."
    end
    = match classify r2 with
      | IsOk => "K." | Is401 | Is404 => "n." | Is403 => "e." | IsOther => "d."
      end).
  { apply (append_inj_tail f1 f2); [| congruence].
    destruct (classify r1), (classify r2); reflexivity. }
  (* only 401 against 404 share a tail; their statuses differ *)
  assert (Hpair : (classify r1 = Is401 /\ classify r2 = Is404)
                  \/ (classify r1 = Is404 /\ classify r2 = Is401)).
  { destruct (classify r1), (classify r2);
      try discriminate Htail; try congruence; auto. }
  clear H1 H2 Htail.
  assert (Hst : forall r c, classify r = c ->
            (c = Is401 -> ok r = false /\ status r = 401)
            /\ (c = Is404 -> ok r = false /\ status r = 404)).
  { intros r c Hc. unfold classify in Hc.
    destruct (ok r); [subst c; split; discriminate |].
    destruct (Z.eqb_spec (status r) 401);
      [subst c; split; [auto | discriminate] |].
    destruct (Z.eqb_spec (status r) 403); [subst c; split; discriminate |].
    destruct (Z.eqb_spec (status r) 404);
      [subst c; split; [discriminate | auto] |].
    subst c; split; discriminate. }
  destruct Hpair as [[Ha Hb] | [Ha Hb]].
  - destruct (proj1 (Hst _ _ Ha) eq_refl) as [Hok1 Hs1].
    destruct (proj2 (Hst _ _ Hb) eq_refl) as [Hok2 Hs2].
    destruct (composeStatusMessage_front r1 Hok1) as [t1 E1].
    destruct (composeStatusMessage_front r2 Hok2) as [t2 E2].
    rewrite E1, E2, Hs1, Hs2 in Heq. discriminate Heq.
  - destruct (proj2 (Hst _ _ Ha) eq_refl) as [Hok1 Hs1].
    destruct (proj1 (Hst _ _ Hb) eq_refl) as [Hok2 Hs2].
    destruct (composeStatusMessage_front r1 Hok1) as [t1 E1].
    destruct (composeStatusMessage_front r2 Hok2) as [t2 E2].
    rewrite E1, E2, Hs1, Hs2 in Heq. discriminate Heq.
Qed.

(** C9. The status interpreter is a function of the response alone.  An
    ok response gets [{status} status OK.]; status 401, 403 and 404 get
    their own messages, the one of 404 containing [Repository not
    found]; every other failed response gets the generic message; and
    responses in different branches never get the same message. *)
Theorem composeStatusMessage_mapping (r : Response) :
  (ok r = true ->
   composeStatusMessage r = numberToString (status r) +:+ " status OK.")
  /\ (status r = 401 ->
      composeStatusMessage r
      = "401 " +:+ statusText r
        +:+ ". Please check the input values of your login information.")
  /\ (status r = 403 ->
      composeStatusMessage r
      = "403 " +:+ statusText r
        +:+ ". The GitHub server refused to your request. Maybe you have exceeded your rate limit. Please wait for a little while.")
  /\ (status r = 404 ->
      composeStatusMessage r
      = "404 " +:+ statusText r
        +:+ ". Repository not found. Please check the input values of your login information."
      /\ Str.includes "Repository not found" (composeStatusMessage r) = true)
  /\ (ok r = false -> status r <> 401 -> status r <> 403 -> status r <> 404 ->
      composeStatusMessage r
      = numberToString (status r) +:+ " " +:+ statusText r
        +:+ ". Error occurred.")
  /\ (forall r', classify r <> classify r' ->
      composeStatusMessage r <> composeStatusMessage r').
Proof.
  repeat split.
  - intros Hok. unfold composeStatusMessage. now rewrite Hok.
  - intros Hs. unfold composeStatusMessage.
    rewrite ok_false_outside by lia. rewrite Hs. simpl.
    now rewrite append_assoc.
  - intros Hs. unfold composeStatusMessage.
    rewrite ok_false_outside by lia. rewrite Hs. simpl.
    now rewrite append_assoc.
  - unfold composeStatusMessage.
    rewrite ok_false_outside by lia. rewrite H. simpl.
    now rewrite append_assoc.
  - unfold composeStatusMessage.
    rewrite ok_false_outside by lia. rewrite H.
    change (404 =? 401) with false. change (404 =? 403) with false.
    change (404 =? 404) with true. cbv iota.
    rewrite !append_assoc. do 4 apply includes_append_r. reflexivity.
  - intros Hok H1 H3 H4. unfold composeStatusMessage. rewrite Hok.
    destruct (Z.eqb_spec (status r) 401); [contradiction |].
    destruct (Z.eqb_spec (status r) 403); [contradiction |].
    destruct (Z.eqb_spec (status r) 404); [contradiction |].
    now rewrite !append_assoc.
  - intros r'. apply composeStatusMessage_distinct.
Qed.

(** The mapping at a response with status 404. *)
Lemma composeStatusMessage_mapping_witness :
  composeStatusMessage (mkResponse 404 "Not Found" (BodyArray []))
  = "404 Not Found. Repository not found. Please check the input values of your login information."
  /\ Str.includes "Repository not found"
       (composeStatusMessage (mkResponse 404 "Not Found" (BodyArray []))) = true.
Proof.
  apply (proj1 (proj2 (proj2 (proj2
           (composeStatusMessage_mapping
              (mkResponse 404 "Not Found" (BodyArray []))))))).
  reflexivity.
Defined.

(** ** Paginated collector *)

Lemma afterRequests_app (a b : list Request) (mid rest : list Delivery)
    (w : World) :
  afterRequests b rest (afterRequests a mid w) = afterRequests (a ++ b) rest w.
Proof. unfold afterRequests. simpl. now rewrite <- app_assoc. Qed.

(** One level of the collector on an ok page: an empty page settles the
    promise, a page with records hands over to the next level. *)
Lemma apiCallGet_rec_page fuel li kind p mode w r rest records :
  network w = Answered r :: rest ->
  ok r = true ->
  body r = BodyArray records ->
  apiCallGet_rec (S fuel) li kind p mode w =
  let w1 := afterRequests [getRequest li kind mode p] rest w in
  match records with
  | [] => if p =? 1 then (Return (Some (Rejected (emptyResult kind))), w1)
          else (Return (Some (Resolved [])), w1)
  | _ :: _ =>
      match apiCallGet_rec fuel li kind (p + 1) mode w1 with
      | (Return None, w2) => (Return None, w2)
      | (Return (Some (Rejected err)), w2) => collectFailed err w2
      | (Return (Some (Resolved more)), w2) =>
          (Return (Some (Resolved (records ++ more))), w2)
      | (Throw e, w2) => (Throw e, w2)
      end
  end.
Proof.
  intros Hnet Hok Hbody.
  assert (Hp : (if p =? 1 then 1 else p) = p)
    by (destruct (Z.eqb_spec p 1); congruence).
  cbn [apiCallGet_rec]. rewrite Hp.
  unfold bind at 1. unfold fetchGet, fetch. rewrite Hnet.
  cbn [settle]. rewrite Hok, Hbody. cbn [negb].
  destruct records as [|rec records]; cbn [List.length Nat.eqb].
  - destruct (p =? 1); reflexivity.
  - unfold bind, ret, getRequest, afterRequests.
    destruct (apiCallGet_rec fuel li kind (p + 1) mode _) as [[[[more|err]|]|e] w2];
      reflexivity.
Qed.

(** Non-empty pages followed by an empty one, read from page [p] on:
    the promise resolves with the pages' records in order, after one GET
    per page. *)
Lemma collect_pages li kind mode pages :
  Forall (fun pg => pg <> []) pages ->
  forall fuel p w ds rest,
    network w = ds ++ rest ->
    Forall2 answers ds (pages ++ [[]]) ->
    (List.length pages < fuel)%nat ->
    1 <= p ->
    pages <> [] \/ p <> 1 ->
    apiCallGet_rec fuel li kind p mode w
    = (Return (Some (Resolved (concat pages))),
       afterRequests (getRequests li kind mode p (S (List.length pages)))
                     rest w).
Proof.
  induction 1 as [|pg pages Hpg _ IH];
    intros fuel p w ds rest Hnet Hds Hfuel Hp Hne.
  - destruct fuel as [|fuel]; [simpl in Hfuel; lia |].
    apply Forall2_cons_inv_r in Hds as (d & ds' & (r & -> & Hok & Hbody) & Hnil & ->).
    apply Forall2_nil_inv_r in Hnil as ->.
    rewrite (apiCallGet_rec_page _ _ _ _ _ _ r rest []) by assumption.
    cbv zeta. destruct (Z.eqb_spec p 1) as [->|_]; [now destruct Hne |].
    reflexivity.
  - destruct fuel as [|fuel]; [simpl in Hfuel; lia |].
    simpl in Hds.
    apply Forall2_cons_inv_r in Hds as (d & ds' & (r & -> & Hok & Hbody) & Hds & ->).
    rewrite (apiCallGet_rec_page _ _ _ _ _ _ r (ds' ++ rest) pg) by assumption.
    cbv zeta. destruct pg as [|rec pg]; [congruence |].
    rewrite (IH fuel (p + 1) _ ds' rest);
      [ | reflexivity | assumption | simpl in Hfuel; lia | lia | right; lia].
    rewrite afterRequests_app. reflexivity.
Qed.

(** The collector never runs out of levels: with more fuel than there
    are deliveries, it does what it does with one level per delivery
    and one to spare. *)
Lemma apiCallGet_rec_fuel li kind mode fuel :
  forall p w,
    (List.length (network w) < fuel)%nat ->
    apiCallGet_rec fuel li kind p mode w = apiCallGet li kind p mode w.
Proof.
  unfold apiCallGet.
  induction fuel as [|fuel IH]; intros p w Hfuel; [lia |].
  cbn [apiCallGet_rec]. unfold bind at 1 3. unfold fetchGet, fetch.
  destruct (network w) as [|d rest] eqn:Hnet; [reflexivity |].
  cbn [List.length] in *.
  destruct (settle d) as [r|err]; [| reflexivity].
  destruct (negb (ok r)); [reflexivity |].
  destruct (body r) as [records|m]; [| reflexivity].
  destruct (List.length records =? 0)%nat; [reflexivity |].
  unfold bind. rewrite IH by (simpl; lia). reflexivity.
Qed.

Lemma answers_okPage (records : list Json) : answers (okPage records) records.
Proof. exists (mkResponse 200 "OK" (BodyArray records)). auto. Qed.

(** The collector from page 1, on at least one non-empty page. *)
Lemma collect_from_first_page li kind mode w pages ds rest :
  pages <> [] ->
  Forall (fun pg => pg <> []) pages ->
  Forall2 answers ds (pages ++ [[]]) ->
  network w = ds ++ rest ->
  apiCallGet li kind 1 mode w
  = (Return (Some (Resolved (concat pages))),
     afterRequests (getRequests li kind mode 1 (S (List.length pages))) rest w).
Proof.
  intros Hne Hpages Hds Hnet. unfold apiCallGet.
  apply (collect_pages li kind mode pages Hpages _ 1 w ds rest);
    [assumption | assumption | | lia | now left].
  rewrite Hnet, length_app. apply Forall2_length in Hds.
  rewrite Hds, length_app. simpl. lia.
Qed.

(** C1 (amended).  When the server returns at least one non-empty page
    and then an empty one, [apiCallGet] from page 1 issues one GET per
    page, the empty one included, and resolves with the records of page
    1, then page 2, and so on, each page in the server's order. *)
Theorem apiCallGet_concatenates li kind mode w pages ds rest :
  pages <> [] ->
  Forall (fun pg => pg <> []) pages ->
  Forall2 answers ds (pages ++ [[]]) ->
  network w = ds ++ rest ->
  apiCallGet li kind 1 mode w
  = (Return (Some (Resolved (concat pages))),
     afterRequests (getRequests li kind mode 1 (S (List.length pages))) rest w).
Proof.
  intros Hne Hpages Hds Hnet.
  rewrite <- (apiCallGet_rec_fuel li kind mode (S (List.length ds + List.length rest)))
    by (rewrite Hnet, length_app; lia).
  apply (collect_pages li kind mode pages Hpages _ 1 w ds rest);
    [assumption | assumption | | lia | now left].
  apply Forall2_length in Hds. rewrite length_app in Hds. simpl in Hds. lia.
Qed.

(** Pages [[a,b],[c],[]]: three GETs, and [a,b,c] comes back. *)
Lemma apiCallGet_concatenates_witness :
  let a := JStr "a" in
  let b := JStr "b" in
  let c := JStr "c" in
  let w := sampleWorld 0 [okPage [a; b]; okPage [c]; okPage []] in
  apiCallGet sampleLogin "labels" 1 "list" w
  = (Return (Some (Resolved [a; b; c])),
     afterRequests
       [getRequest sampleLogin "labels" "list" 1;
        getRequest sampleLogin "labels" "list" 2;
        getRequest sampleLogin "labels" "list" 3] [] w).
Proof.
  intros a b c w.
  apply (apiCallGet_concatenates sampleLogin "labels" "list" w
           [[a; b]; [c]] [okPage [a; b]; okPage [c]; okPage []] []).
  - discriminate.
  - repeat constructor; discriminate.
  - repeat constructor; apply answers_okPage.
  - reflexivity.
Defined.

(** C1 as stated also covers the sequence whose only page is the empty
    one; there the promise is rejected instead of resolved with the
    empty concatenation. *)
Lemma apiCallGet_concatenates_counterexample :
  let pages : list (list Json) := [] in
  let w := sampleWorld 0 [okPage []] in
  Forall (fun pg => pg <> []) pages
  /\ Forall2 answers (network w) (pages ++ [[]])
  /\ (apiCallGet sampleLogin "labels" 1 "list" w).1
     = Return (Some (Rejected (VString "No labels exist in this repository.")))
  /\ (apiCallGet sampleLogin "labels" 1 "list" w).1
     <> Return (Some (Resolved (concat pages))).
Proof.
  repeat split.
  - constructor.
  - repeat constructor. apply answers_okPage.
  - discriminate.
Qed.

(** From page 2 on, the collector only ever rejects with an [Error]
    object. *)
Lemma apiCallGet_rec_rejects_error li kind mode fuel :
  forall p w e w',
    2 <= p ->
    apiCallGet_rec fuel li kind p mode w = (Return (Some (Rejected e)), w') ->
    exists name message, e = VError name message.
Proof.
  induction fuel as [|fuel IH]; intros p w e w' Hp Hrun; [discriminate |].
  cbn [apiCallGet_rec] in Hrun.
  replace (if p =? 1 then 1 else p) with p in Hrun
    by (destruct (Z.eqb_spec p 1); congruence).
  unfold bind at 1 in Hrun. unfold fetchGet, fetch in Hrun.
  destruct (network w) as [|[r|m] rest]; cbn [settle] in Hrun.
  - discriminate.
  - destruct (ok r); cbn [negb] in Hrun.
    + destruct (body r) as [records|m].
      * destruct records as [|rec records]; cbn [List.length Nat.eqb] in Hrun.
        -- destruct (Z.eqb_spec p 1); [lia | discriminate].
        -- unfold bind in Hrun.
           destruct (apiCallGet_rec fuel li kind (p + 1) mode _)
             as [[[[more|err]|]|e0] w2] eqn:Hrec; try discriminate.
           apply IH in Hrec; [| lia].
           injection Hrun as <- _. exact Hrec.
      * injection Hrun as <- _. unfold SyntaxError. eauto.
    + injection Hrun as <- _. eauto.
  - injection Hrun as <- _. unfold TypeError. eauto.
Qed.

(** C2. From page 1, [apiCallGet] rejects with the empty-result message
    exactly when the first response is an ok empty array; when the empty
    array arrives after non-empty pages, the promise resolves with the
    records of those pages and nothing is reported as an error. *)
Theorem apiCallGet_empty_result li kind mode w :
  ((apiCallGet li kind 1 mode w).1 = Return (Some (Rejected (emptyResult kind)))
   <-> exists r rest,
         network w = Answered r :: rest /\ ok r = true /\ body r = BodyArray [])
  /\ (forall pages ds rest,
        pages <> [] ->
        Forall (fun pg => pg <> []) pages ->
        Forall2 answers ds (pages ++ [[]]) ->
        network w = ds ++ rest ->
        exists w',
          apiCallGet li kind 1 mode w
          = (Return (Some (Resolved (concat pages))), w')
          /\ alerts w' = alerts w /\ consoleErrors w' = consoleErrors w).
Proof.
  split; [split |].
  - unfold apiCallGet. intros Hrun.
    destruct (apiCallGet_rec _ li kind 1 mode w) as [res w'] eqn:Hrec.
    simpl in Hrun. subst res.
    cbn [apiCallGet_rec] in Hrec. change (1 =? 1) with true in Hrec.
    cbv iota in Hrec.
    unfold bind at 1 in Hrec. unfold fetchGet, fetch in Hrec.
    destruct (network w) as [|[r|m] rest]; cbn [settle] in Hrec;
      [discriminate | | discriminate].
    exists r, rest. split; [reflexivity |].
    destruct (ok r); cbn [negb] in Hrec; [| discriminate].
    destruct (body r) as [records|m]; [| discriminate].
    destruct records as [|rec records]; [auto |].
    exfalso. cbn [List.length Nat.eqb] in Hrec. unfold bind in Hrec.
    destruct (apiCallGet_rec _ li kind (1 + 1) mode _)
      as [[[[more|err]|]|e0] w2] eqn:Hdeep; try discriminate.
    apply apiCallGet_rec_rejects_error in Hdeep as (name & message & ->);
      [| lia].
    discriminate.
  - intros (r & rest & Hnet & Hok & Hbody). unfold apiCallGet.
    rewrite (apiCallGet_rec_page _ _ _ _ _ _ r rest []) by assumption.
    reflexivity.
  - intros pages ds rest Hne Hpages Hds Hnet. eexists. split.
    + apply (collect_from_first_page li kind mode w pages ds rest);
        assumption.
    + split; reflexivity.
Qed.

(** An empty first page is rejected; an empty second page ends a
    successful collection of the first page's records. *)
Lemma apiCallGet_empty_result_witness :
  (apiCallGet sampleLogin "milestones" 1 "list"
     (sampleWorld 0 [okPage []])).1
  = Return (Some (Rejected (VString "No milestones exist in this repository.")))
  /\ (apiCallGet sampleLogin "milestones" 1 "list"
        (sampleWorld 0 [okPage [JStr "a"]; okPage []])).1
     = Return (Some (Resolved [JStr "a"])).
Proof.
  split.
  - apply (proj1 (apiCallGet_empty_result sampleLogin "milestones" "list"
                    (sampleWorld 0 [okPage []]))).
    exists (mkResponse 200 "OK" (BodyArray [])), []. auto.
  - destruct (proj2 (apiCallGet_empty_result sampleLogin "milestones" "list"
                       (sampleWorld 0 [okPage [JStr "a"]; okPage []]))
                [[JStr "a"]] [okPage [JStr "a"]; okPage []] [])
      as (w' & Hrun & _).
    + discriminate.
    + repeat constructor; discriminate.
    + repeat constructor; apply answers_okPage.
    + reflexivity.
    + rewrite Hrun. reflexivity.
Defined.

(** ** Entry codec *)

Lemma bind_inv {A B} (c : M A) (k : A -> M B) w b w' :
  bind c k w = (Return b, w') ->
  exists a w1, c w = (Return a, w1) /\ k a w1 = (Return b, w').
Proof.
  unfold bind. destruct (c w) as [[a|e] w1]; [eauto | discriminate].
Qed.

Lemma controlProperty_inv node n prop w v w' :
  controlProperty node n prop w = (Return v, w') ->
  w' = w
  /\ exists el, querySelectorByName node n = Some el
               /\ v = if String.eqb prop "value" then VString (value el)
                      else VUndefined.
Proof.
  unfold controlProperty. destruct (querySelectorByName node n) as [el|].
  - intros [= <- <-]. eauto.
  - discriminate.
Qed.

Lemma controlAttribute_inv node n attr w v w' :
  controlAttribute node n attr w = (Return v, w') ->
  w' = w
  /\ exists el, querySelectorByName node n = Some el
               /\ v = attributeValue attr (attributes el).
Proof.
  unfold controlAttribute. destruct (querySelectorByName node n) as [el|].
  - intros [= <- <-]. eauto.
  - discriminate.
Qed.

(** [formatDate] reads the world and leaves it alone; what it returns is
    [null] or a string. *)
Lemma formatDate_inv node w v w' :
  formatDate node w = (Return v, w') ->
  w' = w /\ (v = VNull \/ exists iso, v = VString iso).
Proof.
  unfold formatDate. destruct node as [el|]; [| discriminate].
  destruct (negb (truthy (VString (value el)))).
  - intros [= <- <-]. auto.
  - destruct (JsDate.toISOString _) as [iso|e]; [| discriminate].
    intros [= <- <-]. eauto.
Qed.

Ltac show_literal :=
  cbv [literal fold_left setProp fst snd String.eqb Ascii.eqb Bool.eqb
       slice1 toString].

Ltac invert_run H :=
  repeat
    match type of H with
    | bind (controlProperty _ _ _) _ _ = (Return _, _) =>
        let Hc := fresh "Hc" in
        apply bind_inv in H as (? & ? & Hc & H);
        apply controlProperty_inv in Hc as (-> & ? & ? & ->)
    | bind (controlAttribute _ _ _) _ _ = (Return _, _) =>
        let Hc := fresh "Hc" in
        apply bind_inv in H as (? & ? & Hc & H);
        apply controlAttribute_inv in Hc as (-> & ? & ? & ->)
    | bind (formatDate _) _ _ = (Return _, _) =>
        let Hc := fresh "Hc" in
        apply bind_inv in H as (? & ? & Hc & H);
        apply formatDate_inv in Hc as (-> & ?)
    end.

(** When [serializeEntry] returns for a valid kind, it returns a fresh
    object, built as its branch says, and the rest of the world is as it
    was. *)
Lemma serializeEntry_inv node kind w v w' :
  kind = "labels" \/ kind = "milestones" ->
  serializeEntry node kind w = (Return v, w') ->
  exists o,
    Serialized node kind o
    /\ v = VObject (List.length (heap w))
    /\ w' = withHeap (heap w ++ [o]) w.
Proof.
  intros [-> | ->] Hrun; unfold serializeEntry in Hrun;
    apply bind_inv in Hrun as (valid & w1 & Hvalid & Hrun);
    injection Hvalid as <- <-; cbn [negb String.eqb Ascii.eqb Bool.eqb] in Hrun.
  - invert_run Hrun. injection Hrun as <- <-.
    eexists. split; [| split; reflexivity].
    simplify_eq. show_literal. eapply SerializedLabel; eassumption.
  - destruct (bool_decide _) eqn:Hnum in Hrun; cbn [negb] in Hrun.
    + apply bool_decide_eq_true in Hnum.
      apply bind_inv in Hrun as (dueDate & w1 & Hc & Hrun).
      apply controlProperty_inv in Hc as (-> & dueEl & Hdue & ->).
      cbn [String.eqb Ascii.eqb Bool.eqb] in Hrun.
      destruct (bool_decide _) eqn:Hempty in Hrun; cbn [negb] in Hrun.
      * apply bool_decide_eq_true in Hempty. injection Hempty as Hempty.
        invert_run Hrun. injection Hrun as <- <-.
        eexists. split; [| split; reflexivity].
        show_literal. eapply SerializedUndated; eassumption.
      * apply bool_decide_eq_false in Hempty.
        invert_run Hrun. injection Hrun as <- <-.
        eexists. split; [| split; reflexivity].
        show_literal. eapply SerializedDated; try eassumption. congruence.
    + apply bool_decide_eq_false in Hnum.
      invert_run Hrun. injection Hrun as <- <-.
      eexists. split; [| split; reflexivity].
      simplify_eq. show_literal. eapply SerializedExisting; eassumption.
Qed.

Lemma hasProp_deleteProp_same k o : hasProp k (deleteProp k o) = false.
Proof.
  induction o as [|[k' v] o IH]; [reflexivity |].
  unfold deleteProp, hasProp in *. simpl.
  destruct (String.eqb k k') eqn:E; simpl; [exact IH |].
  now rewrite E.
Qed.

Lemma hasProp_deleteProp_other k k' o :
  k <> k' -> hasProp k' (deleteProp k o) = hasProp k' o.
Proof.
  intros Hne. induction o as [|[k0 v] o IH]; [reflexivity |].
  unfold deleteProp, hasProp in *. simpl.
  destruct (String.eqb_spec k k0) as [<-|_]; simpl.
  - rewrite IH. destruct (String.eqb_spec k' k); [congruence | reflexivity].
  - now rewrite IH.
Qed.

Lemma getProp_deleteProp_other k k' o :
  k <> k' -> getProp k' (deleteProp k o) = getProp k' o.
Proof.
  intros Hne. induction o as [|[k0 v] o IH]; [reflexivity |].
  unfold deleteProp in *. simpl.
  destruct (String.eqb_spec k k0) as [<-|_]; simpl.
  - rewrite IH. destruct (String.eqb_spec k' k); [congruence | reflexivity].
  - now rewrite IH.
Qed.

(** [packEntry] on an object of the heap: the body of the package is the
    very object it was given, and that object has lost its identity
    field. *)
Lemma packEntry_object w l o kind :
  heap w !! l = Some o ->
  packEntry (VObject l) kind w
  = (Return (mkEntryPackage (VObject l)
               (mkNames (getProp (identityKey kind) o)
                        (getProp (nameKey kind) o)
                        (getProp (signKey kind) o))),
     withHeap (alter (deleteProp (identityKey kind)) l (heap w)) w).
Proof.
  intros Hl. unfold packEntry, identityKey, nameKey, signKey.
  destruct (String.eqb kind "labels");
    unfold bind, getField, deleteField, ret; rewrite Hl; reflexivity.
Qed.

Lemma heap_withHeap h w : heap (withHeap h w) = h.
Proof. reflexivity. Qed.

Lemma lookup_fresh (h : Heap) (o : Props) :
  (h ++ [o]) !! List.length h = Some o.
Proof. now rewrite list_lookup_middle. Qed.

(** C3, at a label entry of the caller's: the code aliases the entry
    where its comment promises a copy, so after packing the caller's
    object no longer has [originalName]. *)
Theorem packEntry_mutates_caller :
  let w := withHeap [sampleLabelEntry] (sampleWorld 0 []) in
  let caller := VObject 0%nat in
  exists pkg w',
    packEntry caller "labels" w = (Return pkg, w')
    /\ entryBody pkg = caller
    /\ (hasProp "originalName" <$> heap w !! 0%nat) = Some true
    /\ (hasProp "originalName" <$> heap w' !! 0%nat) = Some false.
Proof.
  intros w caller. do 2 eexists.
  split; [apply (packEntry_object w 0%nat sampleLabelEntry); reflexivity |].
  repeat split.
Qed.

(** The same for every entry: whatever object the caller passes, that
    object is the one the identity field is deleted from. *)
Lemma packEntry_deletes_in_place w l o kind :
  heap w !! l = Some o ->
  exists pkg w',
    packEntry (VObject l) kind w = (Return pkg, w')
    /\ entryBody pkg = VObject l
    /\ heap w' !! l = Some (deleteProp (identityKey kind) o).
Proof.
  intros Hl. do 2 eexists.
  split; [apply packEntry_object; eassumption |].
  split; [reflexivity |].
  rewrite heap_withHeap, list_lookup_alter_eq, Hl. reflexivity.
Qed.

(** C7. For every form node and every valid kind, whenever serializing
    and then packing returns a package, the body of the package has
    neither an [originalName] nor an [originalTitle] field. *)
Theorem packed_body_has_no_identity node kind w v w1 pkg w2 :
  kind = "labels" \/ kind = "milestones" ->
  serializeEntry node kind w = (Return v, w1) ->
  packEntry v kind w1 = (Return pkg, w2) ->
  exists l o,
    entryBody pkg = VObject l
    /\ heap w2 !! l = Some o
    /\ hasProp "originalName" o = false
    /\ hasProp "originalTitle" o = false.
Proof.
  intros Hkind Hser Hpack.
  destruct (serializeEntry_inv _ _ _ _ _ Hkind Hser) as (o & Hshape & -> & ->).
  rewrite (packEntry_object _ _ o) in Hpack by apply lookup_fresh.
  injection Hpack as <- <-.
  exists (List.length (heap w)), (deleteProp (identityKey kind) o).
  split; [reflexivity |]. split.
  - rewrite !heap_withHeap, list_lookup_alter_eq, lookup_fresh. reflexivity.
  - destruct Hshape; split; reflexivity.
Qed.

(** Serializing and packing the row of an existing milestone. *)
Lemma packed_body_has_no_identity_witness :
  exists l o,
    heap (packEntry (VObject 0%nat) "milestones"
            (serializeEntry sampleExistingMilestone "milestones"
               (sampleWorld 0 [])).2).2 !! l = Some o
    /\ hasProp "originalName" o = false
    /\ hasProp "originalTitle" o = false.
Proof.
  destruct (packed_body_has_no_identity
              sampleExistingMilestone "milestones" (sampleWorld 0 [])
              (VObject 0%nat)
              (serializeEntry sampleExistingMilestone "milestones"
                 (sampleWorld 0 [])).2
              (mkEntryPackage (VObject 0%nat)
                 (mkNames (VString "v0.9") (VString "v1.0") (VNumber 7)))
              (packEntry (VObject 0%nat) "milestones"
                 (serializeEntry sampleExistingMilestone "milestones"
                    (sampleWorld 0 [])).2).2)
    as (l & o & Hbody & Hl & Hname & Htitle).
  - right. reflexivity.
  - reflexivity.
  - reflexivity.
  - exists l, o. auto.
Defined.

(** The branch without a due date reads [valie] where its sibling reads
    [value]: whenever it returns, [state] is [undefined], whatever the
    form says. *)
Lemma serializeEntry_undated_state node w v w' stateEl :
  attributeValue "data-number" (nodeAttributes node) = VString "null" ->
  value <$> querySelectorByName node "due-date" = Some "" ->
  querySelectorByName node "state" = Some stateEl ->
  serializeEntry node "milestones" w = (Return v, w') ->
  exists o,
    v = VObject (List.length (heap w))
    /\ heap w' !! List.length (heap w) = Some o
    /\ map fst o = ["title"; "state"; "description"]
    /\ getProp "state" o = VUndefined.
Proof.
  intros Hnum Hdue Hstate Hrun.
  destruct (serializeEntry_inv _ _ _ _ _ (or_intror eq_refl) Hrun)
    as (o & Hshape & -> & ->).
  exists o. split; [reflexivity |].
  split; [rewrite heap_withHeap; apply lookup_fresh |].
  inversion Hshape as [ | ? ? ? ? Hn | ? ? ? dueEl ? _ Hq Hv | ];
    subst; try (split; reflexivity).
  - congruence.
  - rewrite Hq in Hdue. injection Hdue as Hdue. contradiction.
Qed.

(** The branch with a due date takes [state] from the form. *)
Lemma serializeEntry_dated_state node w v w' stateEl dueEl :
  attributeValue "data-number" (nodeAttributes node) = VString "null" ->
  querySelectorByName node "due-date" = Some dueEl ->
  value dueEl <> "" ->
  querySelectorByName node "state" = Some stateEl ->
  serializeEntry node "milestones" w = (Return v, w') ->
  exists o,
    v = VObject (List.length (heap w))
    /\ heap w' !! List.length (heap w) = Some o
    /\ map fst o = ["title"; "state"; "description"; "due_on"]
    /\ getProp "state" o = VString (value stateEl).
Proof.
  intros Hnum Hdue Hval Hstate Hrun.
  destruct (serializeEntry_inv _ _ _ _ _ (or_intror eq_refl) Hrun)
    as (o & Hshape & -> & ->).
  exists o. split; [reflexivity |].
  split; [rewrite heap_withHeap; apply lookup_fresh |].
  inversion Hshape as [ | ? ? ? ? Hn | ? st ? ? ? _ _ _ _ Hq | ? ? ? d _ Hq Hv];
    subst.
  - congruence.
  - split; [reflexivity |]. simpl. congruence.
  - congruence.
Qed.

(** C6, at a new milestone with state [open] and no due date: the
    record has [state], but its value is [undefined] instead of the
    form's [open], and the JSON body loses the field. *)
Theorem serializeEntry_new_milestone_loses_state :
  let node := sampleNewMilestone "" in
  let w := sampleWorld 0 [] in
  value <$> querySelectorByName node "state" = Some "open"
  /\ exists w',
       serializeEntry node "milestones" w = (Return (VObject 0%nat), w')
       /\ heap w' !! 0%nat
          = Some [("title", VString "v1.0");
                  ("state", VUndefined);
                  ("description", VString "First release")]
       /\ (JSON.stringify (VObject 0%nat) w').1
          = Return (Some ("{" +:+ JSON.quote "title" +:+ ":"
                          +:+ JSON.quote "v1.0" +:+ ","
                          +:+ JSON.quote "description" +:+ ":"
                          +:+ JSON.quote "First release" +:+ "}")).
Proof.
  split; [reflexivity |]. eexists. repeat split.
Qed.

(** ** Public write operations *)

(** C8. With a kind that is neither labels nor milestones, each of
    create, update and delete writes the validation error to the log and
    returns at once: no request goes out, no delivery is consumed, and
    nothing else in the world changes. *)
Theorem unsupported_kind_never_reaches_network node kind w :
  kind <> "labels" ->
  kind <> "milestones" ->
  let w' := mkWorld (heap w) (network w) (requests w)
                    (logPane w ++ [toString (VError "ValidationError" kind)])
                    (alerts w) (consoleErrors w) (localTZA w) (loginInfo w) in
  (validateKind kind w).1 = Throw (VError "ValidationError" kind)
  /\ apiCallCreate node kind w = (Return ReturnedUndefined, w')
  /\ apiCallUpdate node kind w = (Return ReturnedUndefined, w')
  /\ apiCallDelete node kind w = (Return ReturnedUndefined, w')
  /\ requests w' = requests w
  /\ network w' = network w.
Proof.
  intros Hl Hm w'.
  assert (Hv : validateKind kind = throw (VError "ValidationError" kind)).
  { unfold validateKind.
    destruct (String.eqb_spec kind "labels"); [contradiction |].
    destruct (String.eqb_spec kind "milestones"); [contradiction |].
    reflexivity. }
  unfold apiCallCreate, apiCallUpdate, apiCallDelete, kindAccepted.
  rewrite Hv. repeat split.
Qed.

(** The three operations with kind [issues]. *)
Lemma unsupported_kind_never_reaches_network_witness :
  let w := sampleWorld 0 [okPage []] in
  apiCallCreate sampleLabelNode "issues" w
  = (Return ReturnedUndefined,
     mkWorld [] [okPage []] [] ["ValidationError: issues"] [] []
             (localTZA w) (loginInfo w))
  /\ requests (apiCallUpdate sampleLabelNode "issues" w).2 = []
  /\ requests (apiCallDelete sampleLabelNode "issues" w).2 = [].
Proof.
  intros w.
  destruct (unsupported_kind_never_reaches_network sampleLabelNode "issues" w)
    as (_ & Hc & Hu & Hd & _); [discriminate | discriminate |].
  rewrite Hc, Hu, Hd. repeat split.
Defined.

(** ** URL builders *)

Lemma pathEscape_uint (u : Decimal.uint) :
  Spec.pathEscape (NilEmpty.string_of_uint u) = NilEmpty.string_of_uint u.
Proof. induction u; simpl; [reflexivity | now rewrite IHu ..]. Qed.

(** Escaping leaves the decimal form of an integer as it is. *)
Lemma pathEscape_number (z : Z) :
  Spec.pathEscape (numberToString z) = numberToString z.
Proof.
  unfold numberToString, NilZero.string_of_int.
  destruct (Z.to_int z) as [u|u]; unfold NilZero.string_of_uint.
  - destruct u; try reflexivity; apply (pathEscape_uint (_ u)).
  - destruct u; try reflexivity;
      change (Spec.pathEscape (String "-" ?s)) with (String "-" (Spec.pathEscape s));
      f_equal; apply (pathEscape_uint (_ u)).
Qed.

(** C5 (amended).  The update and delete URLs are the create URL, a
    slash, and the string form of [apiCallSign] as it stands: the
    builders escape nothing.  The last segment is the escaped
    [apiCallSign] whenever escaping would leave it unchanged, which is
    the case of every milestone number. *)
Theorem mutateUrl_segment_verbatim li kind sign :
  urlForUpdate li kind sign = urlForCreate li kind +:+ "/" +:+ toString sign
  /\ urlForDelete li kind sign = urlForUpdate li kind sign
  /\ (Spec.pathEscape (toString sign) = toString sign ->
      urlForUpdate li kind sign
      = urlForCreate li kind +:+ "/" +:+ Spec.pathEscape (toString sign))
  /\ (forall n, sign = VNumber n ->
      urlForUpdate li kind sign
      = urlForCreate li kind +:+ "/" +:+ Spec.pathEscape (toString sign)).
Proof.
  assert (Hurl : urlForUpdate li kind sign
                 = urlForCreate li kind +:+ "/" +:+ toString sign).
  { unfold urlForUpdate, urlForCreate. now rewrite !append_assoc. }
  repeat split.
  - exact Hurl.
  - intros Hesc. now rewrite Hesc.
  - intros n ->. rewrite Hurl. simpl toString. now rewrite pathEscape_number.
Qed.

(** The URL for milestone number 7. *)
Lemma mutateUrl_segment_verbatim_witness :
  urlForUpdate sampleLogin "milestones" (VNumber 7)
  = urlForCreate sampleLogin "milestones" +:+ "/"
    +:+ Spec.pathEscape (toString (VNumber 7)).
Proof.
  apply (proj1 (proj2 (proj2
           (mutateUrl_segment_verbatim sampleLogin "milestones" (VNumber 7))))).
  reflexivity.
Defined.

(** C5 as stated fails on a label name with a space or a slash: the
    name goes into the URL as it is. *)
Lemma mutateUrl_segment_counterexample :
  let sign := VString "help wanted" in
  Spec.pathEscape (toString sign) = "help%20wanted"
  /\ Spec.pathEscape "area/ui" = "area%2Fui"
  /\ urlForUpdate sampleLogin "labels" sign
     = "https://api.github.com/repos/octocat/hello-world/labels/help wanted"
  /\ urlForDelete sampleLogin "labels" (VString "area/ui")
     = "https://api.github.com/repos/octocat/hello-world/labels/area/ui"
  /\ urlForUpdate sampleLogin "labels" sign
     <> urlForCreate sampleLogin "labels" +:+ "/"
        +:+ Spec.pathEscape (toString sign)
  /\ urlForDelete sampleLogin "labels" sign
     <> urlForCreate sampleLogin "labels" +:+ "/"
        +:+ Spec.pathEscape (toString sign).
Proof. repeat split; discriminate. Qed.

(** ** Date formatting *)

Lemma formatDate_world node w : (formatDate node w).2 = w.
Proof.
  unfold formatDate. destruct node as [el|]; [| reflexivity].
  destruct (negb _); [reflexivity |].
  destruct (JsDate.toISOString _); reflexivity.
Qed.

(** ** The number of a milestone *)

Lemma controlProperty_found node n prop el w :
  querySelectorByName node n = Some el ->
  controlProperty node n prop w
  = (Return (if String.eqb prop "value" then VString (value el) else VUndefined), w).
Proof. intros H. unfold controlProperty. now rewrite H. Qed.

Lemma controlAttribute_found node n attr el w :
  querySelectorByName node n = Some el ->
  controlAttribute node n attr w = (Return (attributeValue attr (attributes el)), w).
Proof. intros H. unfold controlAttribute. now rewrite H. Qed.

Lemma bind_Return {A B} (c : M A) (k : A -> M B) w a w1 :
  c w = (Return a, w1) -> bind c k w = k a w1.
Proof. intros H. unfold bind. now rewrite H. Qed.

Lemma serializeEntry_existing node w titleEl stateEl descriptionEl due :
  attributeValue "data-number" (nodeAttributes node) <> VString "null" ->
  querySelectorByName node "title" = Some titleEl ->
  querySelectorByName node "state" = Some stateEl ->
  querySelectorByName node "description" = Some descriptionEl ->
  formatDate (querySelectorByName node "due-date") w = (Return due, w) ->
  serializeEntry node "milestones" w
  = (Return (VObject (List.length (heap w))),
     withHeap (heap w ++
       [[("title", VString (value titleEl));
         ("originalTitle", attributeValue "data-orig-val" (attributes titleEl));
         ("state", VString (value stateEl));
         ("description", VString (value descriptionEl));
         ("due_on", due);
         ("number",
          Num.unaryPlus (attributeValue "data-number" (nodeAttributes node)))]]) w).
Proof.
  intros Hnum Ht Hs Hd Hdue. unfold serializeEntry.
  erewrite bind_Return by reflexivity.
  cbn [negb String.eqb Ascii.eqb Bool.eqb].
  rewrite bool_decide_eq_false_2 by assumption. cbn [negb].
  erewrite bind_Return by (apply controlProperty_found; eassumption).
  erewrite bind_Return by (apply controlAttribute_found; eassumption).
  erewrite bind_Return by (apply controlProperty_found; eassumption).
  erewrite bind_Return by (apply controlProperty_found; eassumption).
  erewrite bind_Return by eassumption.
  reflexivity.
Qed.

Lemma serialize_primitive fuel h path v :
  (forall l, v <> VObject l) ->
  JSON.serialize fuel h path v
  = Return match v with
           | VUndefined => None
           | VError _ _ => Some "{}"
           | _ => Some (jsonPrimitive v)
           end.
Proof. intros Hv. destruct fuel, v; try reflexivity; now destruct (Hv l). Qed.

Lemma stringify_existing (w : World) l title state description due number :
  heap w !! l = Some [("title", VString title); ("state", VString state);
                      ("description", VString description);
                      ("due_on", due); ("number", number)] ->
  (due = VNull \/ exists iso, due = VString iso) ->
  (number = VNaN \/ exists z, number = VNumber z) ->
  JSON.stringify (VObject l) w
  = (Return (Some (existingMilestoneBody title state description due number)), w).
Proof.
  intros Hl Hdue Hnum. unfold JSON.stringify. f_equal.
  cbn [JSON.serialize]. rewrite Hl.
  rewrite bool_decide_eq_false_2 by apply not_elem_of_nil.
  cbn [default from_option id fold_right fst snd].
  rewrite !serialize_primitive
    by (intros ?; destruct Hdue as [-> | [? ->]], Hnum as [-> | [? ->]];
        discriminate).
  destruct Hdue as [-> | [iso ->]], Hnum as [-> | [z ->]]; reflexivity.
Qed.

Lemma includes_here_assoc (a b c : string) :
  Str.includes (a +:+ b) (a +:+ b +:+ c) = true.
Proof. rewrite <- append_assoc. apply includes_here. Qed.

Lemma existingMilestoneBody_number title state description due number :
  Str.includes (JSON.quote "number" +:+ ":")
    (existingMilestoneBody title state description due number) = true.
Proof.
  unfold existingMilestoneBody, member, JSON.joinComma.
  cbn [String.concat]. rewrite !append_assoc.
  repeat first [apply includes_here_assoc | apply includes_append_r].
Qed.

Lemma bind_assoc {A B C} (c : M A) (k : A -> M B) (k' : B -> M C) w :
  bind (bind c k) k' w = bind c (fun a => bind (k a) k') w.
Proof. unfold bind. destruct (c w) as [[a|e] w1]; reflexivity. Qed.

Lemma fetch_spec req w :
  fetch req w
  = (Return (settle <$> head (network w)),
     afterRequests [req] (tail (network w)) w).
Proof. unfold fetch, afterRequests. destruct (network w); reflexivity. Qed.

Lemma apiCallUpdate_existing node w li titleEl stateEl descriptionEl due :
  loginInfo w = Return li ->
  attributeValue "data-number" (nodeAttributes node) <> VString "null" ->
  querySelectorByName node "title" = Some titleEl ->
  querySelectorByName node "state" = Some stateEl ->
  querySelectorByName node "description" = Some descriptionEl ->
  formatDate (querySelectorByName node "due-date") w = (Return due, w) ->
  let number :=
    Num.unaryPlus (attributeValue "data-number" (nodeAttributes node)) in
  requests (apiCallUpdate node "milestones" w).2
  = requests w ++
    [mkRequest (urlForUpdate li "milestones" number) "PATCH" (authHeaders li)
       (Some (existingMilestoneBody (value titleEl) (value stateEl)
                (value descriptionEl) due number))].
Proof.
  intros Hli Hnum Ht Hs Hd Hdue number.
  unfold apiCallUpdate.
  erewrite bind_Return by reflexivity. cbn [negb].
  erewrite bind_Return by (unfold getLoginInfo; rewrite Hli; reflexivity).
  erewrite bind_Return by (eapply serializeEntry_existing; eassumption).
  erewrite bind_Return by (apply packEntry_object, lookup_fresh).
  unfold fetchUpdate. rewrite bind_assoc.
  erewrite bind_Return.
  2:{ apply stringify_existing with (title := value titleEl).
      - rewrite !heap_withHeap, list_lookup_alter_eq, lookup_fresh. reflexivity.
      - apply formatDate_inv in Hdue. tauto.
      - unfold Num.unaryPlus, Num.ofNumber.
        destruct (Num.toNumber _); eauto. }
  erewrite bind_Return by apply fetch_spec.
  cbn [network withHeap afterRequests].
  destruct (network w) as [|[r|m] rest]; reflexivity.
Qed.

(** The PATCH for the sample row of milestone number 7. *)
Example apiCallUpdate_sample_request :
  requests (apiCallUpdate sampleExistingMilestone "milestones"
              (sampleWorld 0 [okPage []])).2
  = [mkRequest "https://api.github.com/repos/octocat/hello-world/milestones/7"
       "PATCH" (authHeaders sampleLogin)
       (Some (existingMilestoneBody "v1.0" "open" "First release"
                VNull (VNumber 7)))].
Proof. reflexivity. Qed.

(** C10. Packing an existing milestone hands back the entry it was
    given with [number] still in it, at its value: [originalTitle] is
    the only field that goes (for a label, [originalName]).  So the
    PATCH that update sends for a row with a server number carries a
    [number] member in its JSON body. *)
Theorem packEntry_keeps_number w l o :
  heap w !! l = Some o ->
  hasProp "number" o = true ->
  (exists pkg w',
      packEntry (VObject l) "milestones" w = (Return pkg, w')
      /\ entryBody pkg = VObject l
      /\ exists body,
           heap w' !! l = Some body
           /\ hasProp "number" body = true
           /\ getProp "number" body = getProp "number" o
           /\ hasProp "originalTitle" body = false
           /\ forall k, k <> "originalTitle" ->
                hasProp k body = hasProp k o /\ getProp k body = getProp k o)
  /\ (forall wl ll ol,
        heap wl !! ll = Some ol ->
        exists pkg w',
          packEntry (VObject ll) "labels" wl = (Return pkg, w')
          /\ exists body,
               heap w' !! ll = Some body
               /\ hasProp "originalName" body = false
               /\ forall k, k <> "originalName" ->
                    hasProp k body = hasProp k ol
                    /\ getProp k body = getProp k ol)
  /\ (forall node wu li titleEl stateEl descriptionEl due,
        loginInfo wu = Return li ->
        attributeValue "data-number" (nodeAttributes node) <> VString "null" ->
        querySelectorByName node "title" = Some titleEl ->
        querySelectorByName node "state" = Some stateEl ->
        querySelectorByName node "description" = Some descriptionEl ->
        formatDate (querySelectorByName node "due-date") wu = (Return due, wu) ->
        let number :=
          Num.unaryPlus (attributeValue "data-number" (nodeAttributes node)) in
        exists json,
          requests (apiCallUpdate node "milestones" wu).2
          = requests wu ++
            [mkRequest (urlForUpdate li "milestones" number) "PATCH"
                       (authHeaders li) (Some json)]
          /\ json = existingMilestoneBody (value titleEl) (value stateEl)
                      (value descriptionEl) due number
          /\ Str.includes (JSON.quote "number" +:+ ":") json = true).
Proof.
  intros Hl Hnum. split; [| split].
  - destruct (packEntry_deletes_in_place w l o "milestones" Hl)
      as (pkg & w' & Hrun & Hbody & Hheap).
    exists pkg, w'. split; [exact Hrun |]. split; [exact Hbody |].
    exists (deleteProp "originalTitle" o). split; [exact Hheap |].
    rewrite hasProp_deleteProp_other, getProp_deleteProp_other by discriminate.
    split; [exact Hnum |]. split; [reflexivity |].
    split; [apply hasProp_deleteProp_same |].
    intros k Hk.
    now rewrite hasProp_deleteProp_other, getProp_deleteProp_other
      by congruence.
  - intros wl ll ol Hll.
    destruct (packEntry_deletes_in_place wl ll ol "labels" Hll)
      as (pkg & w' & Hrun & Hbody & Hheap).
    exists pkg, w'. split; [exact Hrun |].
    exists (deleteProp "originalName" ol). split; [exact Hheap |].
    split; [apply hasProp_deleteProp_same |].
    intros k Hk.
    now rewrite hasProp_deleteProp_other, getProp_deleteProp_other
      by congruence.
  - intros node wu li titleEl stateEl descriptionEl due
           Hli Hn Ht Hs Hd Hdue number.
    eexists. split; [| split; [reflexivity |]].
    + apply apiCallUpdate_existing; assumption.
    + apply existingMilestoneBody_number.
Qed.

(** Packing the sample entry of milestone number 7. *)
Lemma packEntry_keeps_number_witness :
  let w := withHeap [sampleMilestoneEntry] (sampleWorld 0 []) in
  exists pkg w',
    packEntry (VObject 0%nat) "milestones" w = (Return pkg, w')
    /\ getProp "number" <$> heap w' !! 0%nat = Some (VNumber 7).
Proof.
  intros w.
  destruct (packEntry_keeps_number w 0%nat sampleMilestoneEntry
              eq_refl eq_refl)
    as [(pkg & w' & Hrun & _ & body & Hheap & _ & Hget & _) _].
  exists pkg, w'. split; [exact Hrun |].
  rewrite Hheap. simpl. now rewrite Hget.
Defined.

(** * Further properties *)

(** ** The collector on every network *)

Lemma append_inj_front (a b s : string) : a +:+ s = b +:+ s -> a = b.
Proof.
  revert b. induction a as [|x a IH]; intros [|y b] H; simpl in H.
  - reflexivity.
  - apply (f_equal String.length) in H. simpl in H.
    rewrite length_append in H. lia.
  - apply (f_equal String.length) in H. simpl in H.
    rewrite length_append in H. lia.
  - injection H as -> H. f_equal. eauto.
Qed.

Lemma numberToString_inj (a b : Z) :
  numberToString a = numberToString b -> a = b.
Proof.
  unfold numberToString. intros H.
  assert (Hnorm : forall z, Z.to_int z <> Decimal.Pos Decimal.Nil
                            /\ Z.to_int z <> Decimal.Neg Decimal.Nil).
  { intros z. destruct z as [|q|q]; simpl; split; try discriminate;
      intros [= Hq]; apply (DecimalPos.Unsigned.to_uint_nonnil q Hq). }
  apply DecimalZ.to_int_inj.
  assert (Some (Z.to_int a) = Some (Z.to_int b)) as [= ->]; [| reflexivity].
  rewrite <- (NilZero.isi (Z.to_int a)), <- (NilZero.isi (Z.to_int b));
    try apply Hnorm.
  now rewrite H.
Qed.

Lemma append_inj_back (a s t : string) : a +:+ s = a +:+ t -> s = t.
Proof. induction a as [|x a IH]; simpl; [auto | intros [= H]; auto]. Qed.

Lemma urlForGet_page li kind mode (p q : Z) :
  urlForGet li kind p mode = urlForGet li kind q mode -> p = q.
Proof.
  unfold urlForGet. intros H.
  destruct (String.eqb kind "milestones");
    [apply append_inj_front in H |];
    do 4 apply append_inj_back in H;
    now apply numberToString_inj.
Qed.

(** X1. Within one listing, two GETs have the same URL exactly when
    they ask for the same page; so no two of the GETs for consecutive
    pages are the same request. *)
Theorem urlForGet_page_inj li kind mode (p q : Z) :
  (urlForGet li kind p mode = urlForGet li kind q mode <-> p = q)
  /\ (forall n i j,
        getRequests li kind mode p n !! i
        = Some (getRequest li kind mode q) ->
        getRequests li kind mode p n !! j
        = Some (getRequest li kind mode q) ->
        i = j).
Proof.
  split; [split; [apply urlForGet_page | now intros ->] |].
  intros n. revert p.
  assert (Hpage : forall n p i r,
            getRequests li kind mode p n !! i = Some r ->
            r = getRequest li kind mode (p + Z.of_nat i)).
  { clear. intros n. induction n as [|n IH]; intros p i r Hr; [discriminate |].
    destruct i as [|i]; cbn in Hr.
    - injection Hr as <-. f_equal. lia.
    - apply IH in Hr as ->. f_equal. lia. }
  intros p i j Hi Hj.
  apply Hpage, (f_equal url) in Hi. apply Hpage, (f_equal url) in Hj.
  cbn [url getRequest] in Hi, Hj.
  apply urlForGet_page in Hi. apply urlForGet_page in Hj. lia.
Qed.

Lemma getRequests_pages li kind mode n :
  forall p r,
    r ∈ getRequests li kind mode p n ->
    exists i, p <= i /\ r = getRequest li kind mode i.
Proof.
  induction n as [|n IH]; intros p r Hr; simpl in Hr.
  - now apply elem_of_nil in Hr.
  - apply elem_of_cons in Hr as [-> | Hr].
    + exists p. split; [lia | reflexivity].
    + apply IH in Hr as (i & Hi & ->). exists i. split; [lia | reflexivity].
Qed.

(** The GETs of consecutive pages are pairwise different. *)
Lemma getRequests_NoDup li kind mode n :
  forall p, NoDup (getRequests li kind mode p n).
Proof.
  induction n as [|n IH]; intros p; simpl; constructor; [| apply IH].
  intros Hin. apply getRequests_pages in Hin as (i & Hi & Heq).
  apply (f_equal url) in Heq. simpl in Heq.
  apply urlForGet_page in Heq. lia.
Qed.

Lemma getRequests_snoc li kind mode n :
  forall p,
    getRequest li kind mode p :: getRequests li kind mode (p + 1) n
    = getRequests li kind mode p (S n).
Proof. reflexivity. Qed.

(** One level of the collector on a delivery that fails. *)
Lemma apiCallGet_rec_failure fuel li kind p mode w bad rest err :
  network w = bad :: rest ->
  failure bad = Some err ->
  apiCallGet_rec (S fuel) li kind p mode w
  = collectFailed err (afterRequests [getRequest li kind mode p] rest w).
Proof.
  intros Hnet Hbad.
  assert (Hp : (if p =? 1 then 1 else p) = p)
    by (destruct (Z.eqb_spec p 1); congruence).
  cbn [apiCallGet_rec]. rewrite Hp.
  unfold bind at 1. unfold fetchGet, fetch. rewrite Hnet.
  destruct bad as [r|m]; cbn [settle failure] in *.
  - destruct (ok r); cbn [negb].
    + destruct (body r); [discriminate |]. now injection Hbad as <-.
    + now injection Hbad as <-.
  - now injection Hbad as <-.
Qed.

(** One level of the collector when nothing is left to deliver. *)
Lemma apiCallGet_rec_pending fuel li kind p mode w :
  network w = [] ->
  apiCallGet_rec (S fuel) li kind p mode w
  = (Return None, afterRequests [getRequest li kind mode p] [] w).
Proof.
  intros Hnet.
  assert (Hp : (if p =? 1 then 1 else p) = p)
    by (destruct (Z.eqb_spec p 1); congruence).
  cbn [apiCallGet_rec]. rewrite Hp.
  unfold bind at 1. unfold fetchGet, fetch. now rewrite Hnet.
Qed.

(** Every delivery either fails or answers ok with a page. *)
Lemma failure_or_page (d : Delivery) :
  (exists err, failure d = Some err)
  \/ (exists r records, d = Answered r /\ ok r = true
                        /\ body r = BodyArray records).
Proof.
  destruct d as [r|m]; simpl; [| eauto].
  destruct (ok r) eqn:Hok; [| eauto].
  destruct (body r) eqn:Hbody; [right | left]; eauto.
Qed.

Lemma collected_step li kind mode p n errs rest w w1 w' d :
  network w = d :: rest ->
  w1 = afterRequests [getRequest li kind mode p] rest w ->
  collected li kind mode (p + 1) n errs w1 w' ->
  collected li kind mode p (S n) errs w w'.
Proof.
  intros Hnet -> (Hreq & Hn & Hc & Ha & Hh & Hl).
  unfold collected, afterRequests in *. cbn in *.
  rewrite Hnet. cbn [drop]. rewrite <- app_assoc in Hreq. auto 10.
Qed.

Lemma collected_one li kind mode p errs rest w w' :
  requests w' = requests w ++ [getRequest li kind mode p] ->
  network w' = rest ->
  rest = drop 1 (network w) ->
  consoleErrors w' = consoleErrors w ++ errs ->
  alerts w' = alerts w ++ map toString errs ->
  heap w' = heap w -> logPane w' = logPane w ->
  collected li kind mode p 1 errs w w'.
Proof. unfold collected. simpl. intros. subst. auto 10. Qed.

Lemma collected_more li kind mode p n errs err w w1 w' :
  collected li kind mode p n errs w w1 ->
  collectFailed (A := list Json) err w1 = (Return (Some (Rejected err)), w') ->
  collected li kind mode p n (errs ++ [err]) w w'.
Proof.
  intros (Hreq & Hn & Hc & Ha & Hh & Hl) [= <-].
  unfold collected. cbn. rewrite Hreq, Hn, Hc, Ha, Hh, Hl, map_app.
  rewrite <- !app_assoc. auto 10.
Qed.

(** The collector at any depth: it returns, after GETs for consecutive
    pages, and it is pending exactly when it asked for more than the
    network had. *)
Lemma apiCallGet_rec_trace li kind mode fuel :
  forall p w,
    (List.length (network w) < fuel)%nat ->
    exists res n errs,
      (apiCallGet_rec fuel li kind p mode w).1 = Return res
      /\ (1 <= n <= S (List.length (network w)))%nat
      /\ collected li kind mode p n errs w
                   (apiCallGet_rec fuel li kind p mode w).2
      /\ (res = None <-> (List.length (network w) < n)%nat)
      /\ (forall rs, res = Some (Resolved rs) -> errs = []).
Proof.
  induction fuel as [|fuel IH]; intros p w Hfuel; [lia |].
  destruct (network w) as [|d rest] eqn:Hnet.
  { rewrite apiCallGet_rec_pending by assumption.
    exists None, 1%nat, []. cbn [fst snd List.length].
    split; [reflexivity |]. split; [lia |].
    split; [apply (collected_one _ _ _ _ _ []); cbn; rewrite ?Hnet, ?app_nil_r; auto |].
    split; [split; [lia | reflexivity] | discriminate]. }
  cbn [List.length] in *.
  destruct (failure_or_page d) as [[err Herr] | (r & records & -> & Hok & Hbody)].
  { rewrite (apiCallGet_rec_failure _ _ _ _ _ _ d rest err) by assumption.
    exists (Some (Rejected err)), 1%nat, [err]. cbn [fst snd].
    split; [reflexivity |]. split; [lia |].
    split; [apply (collected_one _ _ _ _ _ rest); cbn; rewrite ?Hnet; auto |].
    split; [split; [discriminate | lia] | discriminate]. }
  rewrite (apiCallGet_rec_page _ _ _ _ _ _ r rest records) by assumption.
  cbv zeta. destruct records as [|rec records].
  { exists (if p =? 1 then Some (Rejected (emptyResult kind))
            else Some (Resolved [])), 1%nat, [].
    destruct (p =? 1); cbn [fst snd];
      (split; [reflexivity |]; split; [lia |];
       split; [apply (collected_one _ _ _ _ _ rest); cbn;
               rewrite ?Hnet, ?app_nil_r; auto |];
       split; [split; [discriminate | lia] | reflexivity]). }
  set (w1 := afterRequests [getRequest li kind mode p] rest w).
  destruct (IH (p + 1) w1) as (res & n & errs & Hres & Hn & Hcol & Hpend & Hok');
    [cbn; lia |].
  change (network w1) with rest in *.
  destruct (apiCallGet_rec fuel li kind (p + 1) mode w1) as [out w2].
  cbn [fst snd] in Hres, Hcol. subst out.
  destruct res as [[more|err]|].
  - exists (Some (Resolved ((rec :: records) ++ more))), (S n), errs.
    cbn [fst snd]. split; [reflexivity |]. split; [lia |].
    split; [eapply collected_step; eauto |].
    split; [split; [discriminate | intros Hlt; assert (Hx : Some (Resolved more) = None) by (apply Hpend; lia); discriminate Hx] |].
    intros _ _. eauto.
  - exists (Some (Rejected err)), (S n), (errs ++ [err]).
    cbn [fst snd]. split; [reflexivity |]. split; [lia |].
    split; [eapply collected_more; [eapply collected_step; eauto | reflexivity] |].
    split; [split; [discriminate | intros Hlt; assert (Hx : Some (Rejected err) = None) by (apply Hpend; lia); discriminate Hx] | discriminate].
  - exists None, (S n), errs.
    cbn [fst snd]. split; [reflexivity |]. split; [lia |].
    split; [eapply collected_step; eauto |].
    split; [split; [intros _; assert (Hx : (List.length rest < n)%nat) by (now apply Hpend); lia | reflexivity] | discriminate].
Qed.

(** X2. On every network and from every page, [apiCallGet] returns
    without throwing, after GETs for consecutive pages that are pairwise
    different; it takes one delivery per GET, is still pending exactly
    when it asked for one page more than the network delivered, alerts
    every error it writes to the console, and leaves the heap and the
    log pane alone. *)
Theorem apiCallGet_trace li kind p mode w :
  exists res n errs,
    (apiCallGet li kind p mode w).1 = Return res
    /\ (1 <= n <= S (List.length (network w)))%nat
    /\ collected li kind mode p n errs w (apiCallGet li kind p mode w).2
    /\ NoDup (getRequests li kind mode p n)
    /\ (res = None <-> (List.length (network w) < n)%nat)
    /\ (forall rs, res = Some (Resolved rs) -> errs = []).
Proof.
  unfold apiCallGet.
  destruct (apiCallGet_rec_trace li kind mode (S (List.length (network w))) p w)
    as (res & n & errs & Hres & Hn & Hcol & Hpend & Hok); [lia |].
  exists res, n, errs.
  split; [exact Hres |]. split; [exact Hn |]. split; [exact Hcol |].
  split; [apply getRequests_NoDup |]. split; [exact Hpend | exact Hok].
Qed.

(** The collector resolves only on non-empty ok pages closed by an empty
    ok page. *)
Lemma apiCallGet_rec_resolved li kind mode fuel :
  forall p w rs w',
    apiCallGet_rec fuel li kind p mode w = (Return (Some (Resolved rs)), w') ->
    exists pages ds rest,
      network w = ds ++ rest
      /\ Forall2 answers ds (pages ++ [[]])
      /\ Forall (fun pg => pg <> []) pages
      /\ (p = 1 -> pages <> [])
      /\ rs = concat pages
      /\ w' = afterRequests
                (getRequests li kind mode p (S (List.length pages))) rest w.
Proof.
  induction fuel as [|fuel IH]; intros p w rs w' Hrun; [discriminate |].
  destruct (network w) as [|d rest] eqn:Hnet.
  { rewrite apiCallGet_rec_pending in Hrun by assumption. discriminate. }
  destruct (failure_or_page d) as [[err Herr] | (r & records & -> & Hok & Hbody)].
  { rewrite (apiCallGet_rec_failure _ _ _ _ _ _ d rest err) in Hrun
      by assumption.
    discriminate. }
  rewrite (apiCallGet_rec_page _ _ _ _ _ _ r rest records) in Hrun
    by assumption.
  cbv zeta in Hrun. destruct records as [|rec records].
  - destruct (Z.eqb_spec p 1) as [->|Hp]; [discriminate |].
    injection Hrun as <- <-.
    exists [], [Answered r], rest.
    split; [reflexivity |].
    split; [repeat constructor; exists r; auto |].
    split; [constructor |].
    split; [intros ->; contradiction |].
    split; reflexivity.
  - destruct (apiCallGet_rec fuel li kind (p + 1) mode _)
      as [[[[more|err]|]|e] w2] eqn:Hrec; try discriminate.
    injection Hrun as <- <-.
    apply IH in Hrec as (pages & ds & rest' & Hn & Hds & Hpages & _ & -> & ->).
    cbn in Hn. subst rest.
    exists ((rec :: records) :: pages), (Answered r :: ds), rest'.
    split; [reflexivity |].
    split; [constructor; [exists r; auto | assumption] |].
    split; [constructor; [discriminate | assumption] |].
    split; [discriminate |].
    split; [reflexivity |].
    rewrite afterRequests_app. reflexivity.
Qed.

(** X3. [apiCallGet] resolves only when the deliveries it took were ok
    pages, all of them non-empty but the last, which is empty (and which
    is not page 1); what it resolves with is the concatenation of those
    pages, never a part of it, and no error is alerted or written to
    the console on the way. *)
Theorem apiCallGet_resolved_only_on_pages li kind p mode w rs w' :
  apiCallGet li kind p mode w = (Return (Some (Resolved rs)), w') ->
  exists pages ds rest,
    network w = ds ++ rest
    /\ Forall2 answers ds (pages ++ [[]])
    /\ Forall (fun pg => pg <> []) pages
    /\ (p = 1 -> pages <> [])
    /\ rs = concat pages
    /\ network w' = rest
    /\ requests w'
       = requests w ++ getRequests li kind mode p (S (List.length pages))
    /\ alerts w' = alerts w
    /\ consoleErrors w' = consoleErrors w.
Proof.
  unfold apiCallGet. intros Hrun.
  apply apiCallGet_rec_resolved in Hrun
    as (pages & ds & rest & Hnet & Hds & Hpages & Hp & -> & ->).
  exists pages, ds, rest. repeat split; assumption.
Qed.

Lemma apiCallGet_resolved_only_on_pages_witness :
  exists pages,
    Forall (fun pg => pg <> []) pages
    /\ [JStr "a"; JStr "b"] = concat pages.
Proof.
  destruct (apiCallGet_resolved_only_on_pages sampleLogin "labels" 1 "list"
              (sampleWorld 0 [okPage [JStr "a"]; okPage [JStr "b"]; okPage []])
              [JStr "a"; JStr "b"]
              (apiCallGet sampleLogin "labels" 1 "list"
                 (sampleWorld 0 [okPage [JStr "a"]; okPage [JStr "b"];
                                 okPage []])).2 eq_refl)
    as (pages & ds & rest & _ & _ & Hpages & _ & Hrs & _).
  exists pages. auto.
Defined.

(** A collection that fails after [pages]: the world it leaves. *)
Lemma apiCallGet_rec_fails li kind mode pages :
  Forall (fun pg => pg <> []) pages ->
  forall fuel p w ds bad rest err,
    Forall2 answers ds pages ->
    failure bad = Some err ->
    network w = ds ++ bad :: rest ->
    (List.length pages < fuel)%nat ->
    apiCallGet_rec fuel li kind p mode w
    = (Return (Some (Rejected err)),
       mkWorld (heap w) rest
         (requests w ++ getRequests li kind mode p (S (List.length pages)))
         (logPane w)
         (alerts w ++ repeat (toString err) (S (List.length pages)))
         (consoleErrors w ++ repeat err (S (List.length pages)))
         (localTZA w) (loginInfo w)).
Proof.
  induction 1 as [|pg pages Hpg _ IH];
    intros fuel p w ds bad rest err Hds Hbad Hnet Hfuel;
    (destruct fuel as [|fuel]; [simpl in Hfuel; lia |]).
  - apply Forall2_nil_inv_r in Hds as ->. simpl in Hnet.
    rewrite (apiCallGet_rec_failure _ _ _ _ _ _ bad rest err) by assumption.
    reflexivity.
  - apply Forall2_cons_inv_r in Hds
      as (d & ds' & (r & -> & Hok & Hbody) & Hds & ->).
    rewrite (apiCallGet_rec_page _ _ _ _ _ _ r (ds' ++ bad :: rest) pg)
      by assumption.
    cbv zeta. destruct pg as [|rec pg]; [congruence |].
    rewrite (IH fuel (p + 1) _ ds' bad rest err);
      [ | assumption | assumption | reflexivity | simpl in Hfuel; lia].
    unfold collectFailed, bind, alert, console_error, ret, afterRequests.
    cbn [heap network requests logPane alerts consoleErrors localTZA
         loginInfo List.length].
    rewrite <- !app_assoc.
    rewrite <- (repeat_cons (S (List.length pages)) err).
    rewrite <- (repeat_cons (S (List.length pages)) (toString err)).
    reflexivity.
Qed.

(** X4. When a delivery fails after any number of non-empty ok pages,
    [apiCallGet] rejects with that delivery's error and hands over none
    of the records collected so far; the error has been alerted and
    written to the console once by every level of the recursion, that
    is once per page requested. *)
Theorem apiCallGet_failure_discards li kind p mode w pages ds bad rest err :
  Forall (fun pg => pg <> []) pages ->
  Forall2 answers ds pages ->
  failure bad = Some err ->
  network w = ds ++ bad :: rest ->
  apiCallGet li kind p mode w
  = (Return (Some (Rejected err)),
     mkWorld (heap w) rest
       (requests w ++ getRequests li kind mode p (S (List.length pages)))
       (logPane w)
       (alerts w ++ repeat (toString err) (S (List.length pages)))
       (consoleErrors w ++ repeat err (S (List.length pages)))
       (localTZA w) (loginInfo w)).
Proof.
  intros Hpages Hds Hbad Hnet. unfold apiCallGet.
  apply (apiCallGet_rec_fails li kind mode pages Hpages _ p w ds bad rest err);
    try assumption.
  rewrite Hnet, length_app. apply Forall2_length in Hds. simpl. lia.
Qed.

Lemma apiCallGet_failure_discards_witness :
  let bad := Answered (mkResponse 500 "Internal Server Error" (BodyArray [])) in
  let err := VError "Error" "500 Internal Server Error. Error occurred." in
  let w := sampleWorld 0 [okPage [JStr "a"]; okPage [JStr "b"]; bad] in
  (apiCallGet sampleLogin "labels" 1 "list" w).1 = Return (Some (Rejected err))
  /\ consoleErrors (apiCallGet sampleLogin "labels" 1 "list" w).2
     = [err; err; err].
Proof.
  intros bad err w.
  rewrite (apiCallGet_failure_discards sampleLogin "labels" 1 "list" w
             [[JStr "a"]; [JStr "b"]] [okPage [JStr "a"]; okPage [JStr "b"]]
             bad [] err).
  - split; reflexivity.
  - repeat constructor; discriminate.
  - repeat constructor; apply answers_okPage.
  - reflexivity.
  - reflexivity.
Defined.
(** ** The write operations *)

Lemma serialize_members fuel (h : Heap) path (o : Props) :
  forallb (fun kv => plain kv.2) o = true ->
  fold_right
    (fun (kv : string * Value) (acc : Outcome (list string)) =>
       match acc with
       | Throw e => Throw e
       | Return done =>
           match JSON.serialize fuel h path kv.2 with
           | Throw e => Throw e
           | Return None => Return done
           | Return (Some s) => Return ((JSON.quote kv.1 +:+ ":" +:+ s) :: done)
           end
       end)
    (Return []) o
  = Return (jsonMembers o).
Proof.
  induction o as [|[k v] o IH]; [reflexivity |].
  cbn [forallb fold_right fst snd]. intros [Hv Ho]%andb_true_iff.
  rewrite (IH Ho).
  rewrite serialize_primitive by (intros l ->; discriminate).
  destruct v; try discriminate; reflexivity.
Qed.

(** [JSON.stringify] of an object of plain values. *)
Lemma stringify_plain (w : World) l (o : Props) :
  heap w !! l = Some o ->
  forallb (fun kv => plain kv.2) o = true ->
  JSON.stringify (VObject l) w = (Return (Some (jsonObject o)), w).
Proof.
  intros Hl Ho. unfold JSON.stringify. f_equal.
  cbn [JSON.serialize]. unfold Props in *. rewrite Hl.
  rewrite bool_decide_eq_false_2 by apply not_elem_of_nil.
  cbn [default from_option id].
  now rewrite serialize_members.
Qed.

Lemma plain_attributeValue name attrs : plain (attributeValue name attrs) = true.
Proof. unfold attributeValue. now destruct (lookupAttribute name attrs). Qed.

Lemma plain_unaryPlus v : plain (Num.unaryPlus v) = true.
Proof. unfold Num.unaryPlus. now destruct (Num.toNumber v). Qed.

(** Everything [serializeEntry] puts into an entry is plain. *)
Lemma Serialized_plain node kind o :
  Serialized node kind o -> forallb (fun kv => plain kv.2) o = true.
Proof.
  intros []; cbn [forallb snd plain];
    rewrite ?plain_attributeValue, ?plain_unaryPlus;
    repeat match goal with
           | H : _ = VNull \/ _ |- _ => destruct H as [-> | [? ->]]
           end; reflexivity.
Qed.

Lemma plain_deleteProp k (o : Props) :
  forallb (fun kv => plain kv.2) o = true ->
  forallb (fun kv => plain kv.2) (deleteProp k o) = true.
Proof.
  unfold deleteProp. induction o as [|kv o IH]; [reflexivity |].
  cbn [forallb List.filter]. intros [Hv Ho]%andb_true_iff.
  destruct (negb _); cbn [forallb]; rewrite ?Hv; auto.
Qed.

Lemma kindAccepted_valid kind w :
  kind = "labels" \/ kind = "milestones" ->
  kindAccepted kind w = (Return true, w).
Proof. intros [-> | ->]; reflexivity. Qed.

Lemma kindAccepted_returns kind w :
  exists accepted w1, kindAccepted kind w = (Return accepted, w1)
    /\ (accepted = true -> w1 = w /\ (kind = "labels" \/ kind = "milestones")).
Proof.
  unfold kindAccepted, tryCatch, validateKind.
  destruct (String.eqb_spec kind "labels") as [-> | _]; cbn [orb].
  { do 2 eexists. split; [reflexivity | auto]. }
  destruct (String.eqb_spec kind "milestones") as [-> | _].
  { do 2 eexists. split; [reflexivity | auto]. }
  do 2 eexists. split; [reflexivity | discriminate].
Qed.

Lemma packed_heap (h : Heap) (o : Props) f w :
  withHeap (alter f (List.length h) (h ++ [o])) (withHeap (h ++ [o]) w)
  = withHeap (h ++ [f o]) w.
Proof.
  unfold withHeap. cbn. f_equal.
  replace (List.length h) with (List.length h + 0)%nat by lia.
  now rewrite alter_app_r.
Qed.

(** What the three write operations do before their request, when the
    whole of it returns: [rest] is the operation's own part. *)
Lemma write_prefix_inv {A} node kind (rest : LoginInfo -> EntryPackage -> M A)
    (w : World) (a : A) (w' : World) :
  kind = "labels" \/ kind = "milestones" ->
  (let* loginInfo := getLoginInfo in
   let* serializedEntry := serializeEntry node kind in
   let* entryPackage := packEntry serializedEntry kind in
   rest loginInfo entryPackage) w = (Return a, w') ->
  exists li o,
    loginInfo w = Return li
    /\ Serialized node kind o
    /\ rest li (packageOf kind (List.length (heap w)) o)
            (withHeap (heap w ++ [deleteProp (identityKey kind) o]) w)
       = (Return a, w').
Proof.
  intros Hkind Hrun.
  apply bind_inv in Hrun as (li & w1 & Hli & Hrun).
  unfold getLoginInfo in Hli. injection Hli as Hli <-.
  apply bind_inv in Hrun as (se & w2 & Hse & Hrun).
  apply (serializeEntry_inv _ _ _ _ _ Hkind) in Hse as (o & Hshape & -> & ->).
  apply bind_inv in Hrun as (pkg & w3 & Hpkg & Hrun).
  rewrite (packEntry_object _ _ o) in Hpkg by apply lookup_fresh.
  injection Hpkg as <- <-.
  pose proof (packed_heap (heap w) o (deleteProp (identityKey kind)) w) as Hh.
  unfold Props in *. rewrite ?heap_withHeap in Hrun. rewrite Hh in Hrun.
  exists li, o. auto.
Qed.

Lemma stringify_packed node kind o (w : World) :
  Serialized node kind o ->
  JSON.stringify (VObject (List.length (heap w)))
    (withHeap (heap w ++ [deleteProp (identityKey kind) o]) w)
  = (Return (Some (jsonObject (deleteProp (identityKey kind) o))),
     withHeap (heap w ++ [deleteProp (identityKey kind) o]) w).
Proof.
  intros Hshape. apply stringify_plain.
  - rewrite heap_withHeap. apply lookup_fresh.
  - now apply plain_deleteProp, (Serialized_plain node kind).
Qed.

(** X5. Whenever [apiCallCreate] returns for a valid kind, it has sent
    exactly one POST to the create URL with the packed entry as JSON
    body.  If the network answers, whatever the status of the answer,
    the log says the entry was created; if the request fails below
    HTTP, the log says so and the error goes to the console; either way
    the promise resolves, and it never rejects. *)
Theorem apiCallCreate_outcome node kind w res w' :
  kind = "labels" \/ kind = "milestones" ->
  apiCallCreate node kind w = (Return res, w') ->
  exists li o,
    loginInfo w = Return li
    /\ Serialized node kind o
    /\ let body := deleteProp (identityKey kind) o in
       let name := toString (getProp (nameKey kind) o) in
       let req := mkRequest (urlForCreate li kind) "POST" (authHeaders li)
                            (Some (jsonObject body)) in
       match head (network w) with
       | None =>
           res = ReturnedPromise None /\ w' = written req [] [] body w
       | Some (Answered r) =>
           res = ReturnedPromise (Some (Resolved VUndefined))
           /\ w' = written req
                     ["Created " +:+ Str.sliceInit kind +:+ ": " +:+ name +:+ "."]
                     [] body w
       | Some (Failed m) =>
           res = ReturnedPromise (Some (Resolved VUndefined))
           /\ w' = written req
                     [("Creation of " +:+ Str.sliceInit kind +:+ " " +:+ name)
                      +:+ (" failed due to error: "
                           +:+ toString (TypeError m) +:+ ".")]
                     [TypeError m] body w
       end.
Proof.
  intros Hkind Hrun. unfold apiCallCreate in Hrun.
  rewrite (bind_Return _ _ _ _ _ (kindAccepted_valid kind w Hkind)) in Hrun.
  cbn [negb] in Hrun.
  apply (write_prefix_inv _ _ _ _ _ _ Hkind) in Hrun
    as (li & o & Hli & Hshape & Hrun).
  exists li, o. split; [exact Hli |]. split; [exact Hshape |].
  cbv zeta in Hrun. unfold fetchCreate in Hrun.
  rewrite bind_assoc in Hrun.
  rewrite (bind_Return _ _ _ _ _ (stringify_packed node kind o w Hshape)) in Hrun.
  rewrite (bind_Return _ _ _ _ _ (fetch_spec _ _)) in Hrun.
  cbn [network withHeap] in Hrun. cbv zeta.
  destruct (network w) as [|[r|m] rest] eqn:Hnet; cbn in Hrun;
    injection Hrun as <- <-; split; try reflexivity;
    unfold written; rewrite Hnet; cbn; rewrite ?app_nil_r; reflexivity.
Qed.

Lemma apiCallCreate_outcome_witness :
  let w := sampleWorld 0 [Answered (mkResponse 422 "Unprocessable Entity" (BodyArray []))] in
  exists li o,
    loginInfo w = Return li
    /\ Serialized sampleLabelNode "labels" o
    /\ logPane (apiCallCreate sampleLabelNode "labels" w).2 = ["Created label: bug."].
Proof.
  intros w.
  destruct (apiCallCreate_outcome sampleLabelNode "labels" w
              (ReturnedPromise (Some (Resolved VUndefined)))
              (apiCallCreate sampleLabelNode "labels" w).2 (or_introl eq_refl) eq_refl)
    as (li & o & Hli & Hshape & Hout).
  exists li, o. split; [exact Hli |]. split; [exact Hshape |]. reflexivity.
Defined.

(** X6. Whenever [apiCallUpdate] returns for a valid kind, it has sent
    exactly one PATCH, with the packed entry as JSON body, to the URL
    that ends in the string form of the entry's [apiCallSign].  An answer
    of any status is logged as an update from the original to the new
    name; a failure below HTTP is logged as such and written to the
    console; the promise never rejects. *)
Theorem apiCallUpdate_outcome node kind w res w' :
  kind = "labels" \/ kind = "milestones" ->
  apiCallUpdate node kind w = (Return res, w') ->
  exists li o,
    loginInfo w = Return li
    /\ Serialized node kind o
    /\ let body := deleteProp (identityKey kind) o in
       let original := toString (getProp (identityKey kind) o) in
       let name := toString (getProp (nameKey kind) o) in
       let req := mkRequest (urlForUpdate li kind (getProp (signKey kind) o))
                            "PATCH" (authHeaders li)
                            (Some (jsonObject body)) in
       match head (network w) with
       | None =>
           res = ReturnedPromise None /\ w' = written req [] [] body w
       | Some (Answered r) =>
           res = ReturnedPromise (Some (Resolved VUndefined))
           /\ w' = written req
                     [("Updated " +:+ Str.sliceInit kind +:+ ": " +:+ original)
                      +:+ (" &#8680; " +:+ name +:+ ".")]
                     [] body w
       | Some (Failed m) =>
           res = ReturnedPromise (Some (Resolved VUndefined))
           /\ w' = written req
                     [("Update of " +:+ Str.sliceInit kind +:+ " " +:+ original)
                      +:+ (" &#8680; " +:+ name +:+ " failed due to error: "
                           +:+ toString (TypeError m) +:+ ".")]
                     [TypeError m] body w
       end.
Proof.
  intros Hkind Hrun. unfold apiCallUpdate in Hrun.
  rewrite (bind_Return _ _ _ _ _ (kindAccepted_valid kind w Hkind)) in Hrun.
  cbn [negb] in Hrun.
  apply (write_prefix_inv _ _ _ _ _ _ Hkind) in Hrun
    as (li & o & Hli & Hshape & Hrun).
  exists li, o. split; [exact Hli |]. split; [exact Hshape |].
  cbv zeta in Hrun. unfold fetchUpdate in Hrun.
  rewrite bind_assoc in Hrun.
  rewrite (bind_Return _ _ _ _ _ (stringify_packed node kind o w Hshape)) in Hrun.
  rewrite (bind_Return _ _ _ _ _ (fetch_spec _ _)) in Hrun.
  cbn [network withHeap] in Hrun. cbv zeta.
  destruct (network w) as [|[r|m] rest] eqn:Hnet; cbn in Hrun;
    injection Hrun as <- <-; split; try reflexivity;
    unfold written; rewrite Hnet; cbn; rewrite ?app_nil_r; reflexivity.
Qed.

Lemma apiCallUpdate_outcome_witness :
  let w := sampleWorld 0 [Failed "Failed to fetch"] in
  exists li o,
    loginInfo w = Return li
    /\ Serialized sampleExistingMilestone "milestones" o
    /\ logPane (apiCallUpdate sampleExistingMilestone "milestones" w).2 = ["Update of milestone v0.9 &#8680; v1.0 failed due to error: TypeError: Failed to fetch."].
Proof.
  intros w.
  destruct (apiCallUpdate_outcome sampleExistingMilestone "milestones" w
              (ReturnedPromise (Some (Resolved VUndefined)))
              (apiCallUpdate sampleExistingMilestone "milestones" w).2 (or_intror eq_refl) eq_refl)
    as (li & o & Hli & Hshape & Hout).
  exists li, o. split; [exact Hli |]. split; [exact Hshape |]. reflexivity.
Defined.

(** X7. Whenever [apiCallDelete] returns for a valid kind, it has sent
    exactly one DELETE, without a body, to the URL that ends in the
    string form of the entry's [apiCallSign].  An answer of any status
    is logged as a deletion of the original name; a failure below HTTP
    is logged as such and written to the console; the promise never
    rejects. *)
Theorem apiCallDelete_outcome node kind w res w' :
  kind = "labels" \/ kind = "milestones" ->
  apiCallDelete node kind w = (Return res, w') ->
  exists li o,
    loginInfo w = Return li
    /\ Serialized node kind o
    /\ let body := deleteProp (identityKey kind) o in
       let original := toString (getProp (identityKey kind) o) in
       let req := mkRequest (urlForDelete li kind (getProp (signKey kind) o))
                            "DELETE" (authHeaders li) None in
       match head (network w) with
       | None =>
           res = ReturnedPromise None /\ w' = written req [] [] body w
       | Some (Answered r) =>
           res = ReturnedPromise (Some (Resolved VUndefined))
           /\ w' = written req
                     ["Deleted " +:+ Str.sliceInit kind +:+ ": " +:+ original
                      +:+ "."]
                     [] body w
       | Some (Failed m) =>
           res = ReturnedPromise (Some (Resolved VUndefined))
           /\ w' = written req
                     [("Deletion of " +:+ Str.sliceInit kind +:+ " "
                       +:+ original +:+ " ")
                      +:+ ("failed due to error: "
                           +:+ toString (TypeError m) +:+ ".")]
                     [TypeError m] body w
       end.
Proof.
  intros Hkind Hrun. unfold apiCallDelete in Hrun.
  rewrite (bind_Return _ _ _ _ _ (kindAccepted_valid kind w Hkind)) in Hrun.
  cbn [negb] in Hrun.
  apply (write_prefix_inv _ _ _ _ _ _ Hkind) in Hrun
    as (li & o & Hli & Hshape & Hrun).
  exists li, o. split; [exact Hli |]. split; [exact Hshape |].
  cbv zeta in Hrun. unfold fetchDelete in Hrun.
  rewrite (bind_Return _ _ _ _ _ (fetch_spec _ _)) in Hrun.
  cbn [network withHeap] in Hrun. cbv zeta.
  destruct (network w) as [|[r|m] rest] eqn:Hnet; cbn in Hrun;
    injection Hrun as <- <-; split; try reflexivity;
    unfold written; rewrite Hnet; cbn; rewrite ?app_nil_r; reflexivity.
Qed.

Lemma apiCallDelete_outcome_witness :
  let w := sampleWorld 0 [Answered (mkResponse 404 "Not Found" (BodyArray []))] in
  exists li o,
    loginInfo w = Return li
    /\ Serialized sampleLabelNode "labels" o
    /\ logPane (apiCallDelete sampleLabelNode "labels" w).2 = ["Deleted label: bug."].
Proof.
  intros w.
  destruct (apiCallDelete_outcome sampleLabelNode "labels" w
              (ReturnedPromise (Some (Resolved VUndefined)))
              (apiCallDelete sampleLabelNode "labels" w).2 (or_introl eq_refl) eq_refl)
    as (li & o & Hli & Hshape & Hout).
  exists li, o. split; [exact Hli |]. split; [exact Hshape |]. reflexivity.
Defined.

(** ** Exceptions *)

Lemma bind_throw_inv {A B} (c : M A) (k : A -> M B) w e w' :
  bind c k w = (Throw e, w') ->
  c w = (Throw e, w')
  \/ exists a w1, c w = (Return a, w1) /\ k a w1 = (Throw e, w').
Proof.
  unfold bind. destruct (c w) as [[a|e0] w1]; intros H.
  - right. exists a, w1. auto.
  - left. injection H as <- <-. reflexivity.
Qed.

Lemma quiet_controlProperty node n prop : quiet (controlProperty node n prop).
Proof.
  intros w. unfold controlProperty.
  destruct (querySelectorByName node n); [left | right]; eauto.
Qed.

Lemma quiet_controlAttribute node n attr : quiet (controlAttribute node n attr).
Proof.
  intros w. unfold controlAttribute.
  destruct (querySelectorByName node n); [left | right]; eauto.
Qed.

Lemma quiet_formatDate node : quiet (formatDate node).
Proof.
  intros w. unfold formatDate.
  destruct node as [el|];
    [| right; do 2 eexists; split; [reflexivity | auto]].
  destruct (negb _); [left; eauto |].
  unfold JsDate.toISOString.
  destruct (JsDate.construct _ _ _ _ _ _ _) as [t|].
  - destruct (JsDate.civilFromDays _) as [[y m] d]. left. eauto.
  - right. do 2 eexists. split; [reflexivity | auto].
Qed.

(** A step that throws after quiet steps throws in the first world. *)
Lemma bind_quiet_throw {A B} (c : M A) (k : A -> M B) w e w' :
  quiet c ->
  bind c k w = (Throw e, w') ->
  (w' = w /\ exists name message,
      e = VError name message /\ (name = "TypeError" \/ name = "RangeError"))
  \/ exists a, c w = (Return a, w) /\ k a w = (Throw e, w').
Proof.
  intros Hq Hrun. unfold bind in Hrun.
  destruct (Hq w) as [[a Ha] | (name & message & Ha & Hname)];
    rewrite Ha in Hrun.
  - right. eauto.
  - injection Hrun as <- <-. left. eauto.
Qed.

Ltac throw_steps H :=
  repeat
    (first
       [ apply (bind_quiet_throw _ _ _ _ _ (quiet_controlProperty _ _ _)) in H
       | apply (bind_quiet_throw _ _ _ _ _ (quiet_controlAttribute _ _ _)) in H
       | apply (bind_quiet_throw _ _ _ _ _ (quiet_formatDate _)) in H ];
     destruct H as [H | (? & _ & H)]; [exact H |]).

(** A throwing [serializeEntry] leaves the world as it found it. *)
Lemma serializeEntry_throw_inv node kind w e w' :
  serializeEntry node kind w = (Throw e, w') ->
  w' = w
  /\ exists name message,
       e = VError name message /\ (name = "TypeError" \/ name = "RangeError").
Proof.
  intros Hrun. unfold serializeEntry in Hrun.
  apply bind_throw_inv in Hrun as [Hrun | (valid & w1 & Hvalid & Hrun)].
  { unfold tryCatch, bind, validateKind, console_error, alert, ret, throw
      in Hrun.
    destruct (_ || _); discriminate. }
  assert (Hw : valid = false \/ w1 = w).
  { unfold tryCatch, bind, validateKind, console_error, alert, ret, throw
      in Hvalid.
    destruct (_ || _); injection Hvalid as <- <-; auto. }
  destruct valid; cbn [negb] in Hrun; [| discriminate].
  destruct Hw as [Hw | ->]; [discriminate |].
  destruct (String.eqb kind "labels").
  { throw_steps Hrun. discriminate. }
  destruct (negb (bool_decide _)).
  { throw_steps Hrun. discriminate. }
  apply (bind_quiet_throw _ _ _ _ _ (quiet_controlProperty _ _ _)) in Hrun.
  destruct Hrun as [Hrun | (dueDate & _ & Hrun)]; [exact Hrun |].
  destruct (negb (bool_decide _)); throw_steps Hrun; discriminate.
Qed.

(** X8. [serializeEntry] throws only for a valid kind, and when it does
    it has changed nothing; what it throws is a [TypeError] (a control
    is missing) or a [RangeError] (the due date is not a date). *)
Theorem serializeEntry_throws_cleanly node kind w e w' :
  serializeEntry node kind w = (Throw e, w') ->
  w' = w
  /\ (kind = "labels" \/ kind = "milestones")
  /\ exists name message,
       e = VError name message /\ (name = "TypeError" \/ name = "RangeError").
Proof.
  intros Hrun.
  destruct (serializeEntry_throw_inv _ _ _ _ _ Hrun) as [Hw Herr].
  split; [exact Hw |]. split; [| exact Herr].
  destruct (String.eqb_spec kind "labels") as [| Hl]; [now left |].
  destruct (String.eqb_spec kind "milestones") as [| Hm]; [now right |].
  exfalso. unfold serializeEntry, tryCatch, validateKind in Hrun.
  unfold bind at 1 2 in Hrun.
  destruct (String.eqb_spec kind "labels"); [contradiction |].
  destruct (String.eqb_spec kind "milestones"); [contradiction |].
  discriminate Hrun.
Qed.

Lemma serializeEntry_throws_cleanly_witness :
  let node := mkEntryNode [] [control "name" "bug" []] in
  exists name message,
    (serializeEntry node "labels" (sampleWorld 0 [])).1
    = Throw (VError name message)
    /\ (name = "TypeError" \/ name = "RangeError").
Proof.
  intros node.
  destruct (serializeEntry_throws_cleanly node "labels" (sampleWorld 0 [])
              (TypeError "Cannot read properties of null")
              (sampleWorld 0 []) eq_refl)
    as (_ & _ & name & message & [= <- <-] & Hname).
  do 2 eexists. split; [reflexivity | exact Hname].
Defined.

Lemma write_prefix_throw_inv {A} node kind
    (rest : LoginInfo -> EntryPackage -> M A) (w : World) e (w' : World) :
  kind = "labels" \/ kind = "milestones" ->
  (let* loginInfo := getLoginInfo in
   let* serializedEntry := serializeEntry node kind in
   let* entryPackage := packEntry serializedEntry kind in
   rest loginInfo entryPackage) w = (Throw e, w') ->
  (w' = w /\ (loginInfo w = Throw e
              \/ serializeEntry node kind w = (Throw e, w)))
  \/ exists li o,
       Serialized node kind o
       /\ rest li (packageOf kind (List.length (heap w)) o)
               (withHeap (heap w ++ [deleteProp (identityKey kind) o]) w)
          = (Throw e, w').
Proof.
  intros Hkind Hrun.
  apply bind_throw_inv in Hrun as [Hrun | (li & w1 & Hli & Hrun)].
  { unfold getLoginInfo in Hrun. injection Hrun as Hli <-. auto. }
  unfold getLoginInfo in Hli. injection Hli as Hli <-.
  apply bind_throw_inv in Hrun as [Hrun | (se & w2 & Hse & Hrun)].
  { destruct (serializeEntry_throw_inv _ _ _ _ _ Hrun) as [-> _]. auto. }
  apply (serializeEntry_inv _ _ _ _ _ Hkind) in Hse as (o & Hshape & -> & ->).
  apply bind_throw_inv in Hrun as [Hrun | (pkg & w3 & Hpkg & Hrun)].
  { rewrite (packEntry_object _ _ o) in Hrun by apply lookup_fresh.
    discriminate. }
  rewrite (packEntry_object _ _ o) in Hpkg by apply lookup_fresh.
  injection Hpkg as <- <-.
  pose proof (packed_heap (heap w) o (deleteProp (identityKey kind)) w) as Hh.
  unfold Props in *. rewrite ?heap_withHeap in Hrun. rewrite Hh in Hrun.
  right. exists li, o. auto.
Qed.

(** X9. An exception escapes a write operation only from the credential
    provider or from [serializeEntry], and then nothing has happened: no
    request, no log line, no change to the world at all. *)
Theorem write_operations_throw_cleanly node kind w e w' :
  apiCallCreate node kind w = (Throw e, w')
  \/ apiCallUpdate node kind w = (Throw e, w')
  \/ apiCallDelete node kind w = (Throw e, w') ->
  w' = w
  /\ (loginInfo w = Throw e \/ serializeEntry node kind w = (Throw e, w)).
Proof.
  assert (Hpre : forall (k : bool -> M CallResult),
            bind (kindAccepted kind) k w = (Throw e, w') ->
            (kind = "labels" \/ kind = "milestones")
            /\ k true w = (Throw e, w') \/ k false
                 (mkWorld (heap w) (network w) (requests w)
                    (logPane w ++ [toString (VError "ValidationError" kind)])
                    (alerts w) (consoleErrors w) (localTZA w) (loginInfo w))
               = (Throw e, w')).
  { intros k Hrun. unfold bind, kindAccepted, tryCatch, validateKind in Hrun.
    destruct (String.eqb_spec kind "labels") as [-> | _]; cbn [orb] in Hrun;
      [left; auto |].
    destruct (String.eqb_spec kind "milestones") as [-> | _];
      [left; auto | right; exact Hrun]. }
  intros [Hrun | [Hrun | Hrun]];
    [unfold apiCallCreate in Hrun | unfold apiCallUpdate in Hrun
     | unfold apiCallDelete in Hrun];
    apply Hpre in Hrun as [[Hkind Hrun] | Hrun]; try discriminate;
    cbn [negb] in Hrun;
    apply (write_prefix_throw_inv _ _ _ _ _ _ Hkind) in Hrun
      as [Hrun | (li & o & Hshape & Hrun)]; try exact Hrun; exfalso;
    cbv zeta in Hrun.
  - unfold fetchCreate in Hrun. rewrite bind_assoc in Hrun.
    rewrite (bind_Return _ _ _ _ _ (stringify_packed node kind o w Hshape))
      in Hrun.
    rewrite (bind_Return _ _ _ _ _ (fetch_spec _ _)) in Hrun.
    cbn [network withHeap] in Hrun.
    destruct (network w) as [|[r|m] rest]; discriminate.
  - unfold fetchUpdate in Hrun. rewrite bind_assoc in Hrun.
    rewrite (bind_Return _ _ _ _ _ (stringify_packed node kind o w Hshape))
      in Hrun.
    rewrite (bind_Return _ _ _ _ _ (fetch_spec _ _)) in Hrun.
    cbn [network withHeap] in Hrun.
    destruct (network w) as [|[r|m] rest]; discriminate.
  - unfold fetchDelete in Hrun.
    rewrite (bind_Return _ _ _ _ _ (fetch_spec _ _)) in Hrun.
    cbn [network withHeap] in Hrun.
    destruct (network w) as [|[r|m] rest]; discriminate.
Qed.

Lemma write_operations_throw_cleanly_witness :
  let node := mkEntryNode [] [control "name" "bug" []] in
  let w := sampleWorld 0 [okPage []] in
  (apiCallUpdate node "labels" w).2 = w.
Proof.
  intros node w.
  apply (write_operations_throw_cleanly node "labels" w
           (TypeError "Cannot read properties of null")).
  right. left. reflexivity.
Defined.

(** ** Numbers in and out of text *)

Lemma append_nil_right (a : string) : a +:+ "" = a.
Proof. induction a as [|x a IH]; simpl; [reflexivity | now rewrite IH]. Qed.

Lemma rev_app_rev_app (s t u : string) :
  String.rev_app (String.rev_app s t) u = String.rev_app t (s +:+ u).
Proof.
  revert t u. induction s as [|c s IH]; intros t u; simpl; [reflexivity |].
  rewrite IH. reflexivity.
Qed.

Lemma rev_involutive (s : string) : String.rev (String.rev s) = s.
Proof.
  unfold String.rev. rewrite rev_app_rev_app. simpl. apply append_nil_right.
Qed.

Lemma noWhiteSpace_rev_app (s t : string) :
  noWhiteSpace (String.rev_app s t) = noWhiteSpace s && noWhiteSpace t.
Proof.
  revert t. induction s as [|c s IH]; intros t; simpl; [reflexivity |].
  rewrite IH. simpl. destruct (negb _), (noWhiteSpace s); reflexivity.
Qed.

Lemma trimStart_noWhiteSpace (s : string) :
  noWhiteSpace s = true -> Num.trimStart s = s.
Proof.
  destruct s as [|c s]; [reflexivity |]. simpl.
  destruct (Num.isWhiteSpace c); [discriminate | reflexivity].
Qed.

Lemma trim_noWhiteSpace (s : string) :
  noWhiteSpace s = true -> Num.trim s = s.
Proof.
  intros Hs. unfold Num.trim.
  rewrite (trimStart_noWhiteSpace s Hs).
  rewrite trimStart_noWhiteSpace; [apply rev_involutive |].
  unfold String.rev. rewrite noWhiteSpace_rev_app, Hs. reflexivity.
Qed.

Lemma noWhiteSpace_uint (u : Decimal.uint) :
  noWhiteSpace (NilEmpty.string_of_uint u) = true.
Proof. induction u; simpl; auto. Qed.

Ltac read_digit :=
  match goal with
  | |- context [Num.digitValue ?c] =>
      let v := eval vm_compute in (Num.digitValue c) in
      change (Num.digitValue c) with v; cbv iota beta
  end.

Lemma digitsValue_uint_acc (u : Decimal.uint) :
  forall acc : positive,
    Num.digitsValue (Z.pos acc) (NilEmpty.string_of_uint u)
    = Some (Z.pos (Pos.of_uint_acc u acc)).
Proof.
  induction u; intros acc;
    cbn [NilEmpty.string_of_uint Num.digitsValue Pos.of_uint_acc];
    [reflexivity | ..];
    (read_digit;
     match goal with
     | |- Num.digitsValue ?z _ = Some (Z.pos (Pos.of_uint_acc _ ?q)) =>
         replace z with (Z.pos q) by lia
     end;
     apply IHu).
Qed.

Lemma digitsValue_uint (u : Decimal.uint) :
  Num.digitsValue 0 (NilEmpty.string_of_uint u) = Some (Z.of_N (Pos.of_uint u)).
Proof.
  induction u; cbn [NilEmpty.string_of_uint Num.digitsValue Pos.of_uint];
    [reflexivity | read_digit; exact IHu | ..];
    (read_digit; cbn [Z.of_N];
     match goal with
     | |- Num.digitsValue ?z _ = Some (Z.pos (Pos.of_uint_acc _ ?q)) =>
         replace z with (Z.pos q) by reflexivity
     end;
     apply digitsValue_uint_acc).
Qed.

Lemma unsignedValue_pos (q : positive) :
  Num.unsignedValue (NilEmpty.string_of_uint (Pos.to_uint q)) = Some (Z.pos q).
Proof.
  unfold Num.unsignedValue.
  destruct (NilEmpty.string_of_uint (Pos.to_uint q)) eqn:Hs.
  - destruct (Pos.to_uint q) eqn:Hu; try discriminate.
    now destruct (DecimalPos.Unsigned.to_uint_nonnil q).
  - rewrite <- Hs, digitsValue_uint, DecimalPos.Unsigned.of_to. reflexivity.
Qed.

(** Reading back the decimal text of an integer gives the integer. *)
Lemma stringToNumber_numberToString (z : Z) :
  Num.stringToNumber (numberToString z) = Some z.
Proof.
  unfold Num.stringToNumber, numberToString, NilZero.string_of_int.
  destruct z as [|q|q]; [reflexivity | |]; cbn [Z.to_int].
  - assert (Hnil : Pos.to_uint q <> Decimal.Nil)
      by apply DecimalPos.Unsigned.to_uint_nonnil.
    unfold NilZero.string_of_uint.
    destruct (Pos.to_uint q) eqn:Hu; [congruence | ..];
      rewrite trim_noWhiteSpace by apply noWhiteSpace_uint;
      rewrite <- Hu;
      (transitivity (Num.unsignedValue
                       (NilEmpty.string_of_uint (Pos.to_uint q)));
       [rewrite Hu; reflexivity | apply unsignedValue_pos]).
  - assert (Hnil : Pos.to_uint q <> Decimal.Nil)
      by apply DecimalPos.Unsigned.to_uint_nonnil.
    assert (Hs : NilZero.string_of_uint (Pos.to_uint q)
                 = NilEmpty.string_of_uint (Pos.to_uint q))
      by (unfold NilZero.string_of_uint; destruct (Pos.to_uint q); congruence).
    rewrite Hs, trim_noWhiteSpace
      by (simpl; apply noWhiteSpace_uint).
    cbn [option_map]. rewrite unsignedValue_pos. reflexivity.
Qed.

(** ** What the codec needs and what it yields *)

Lemma formatDate_empty el w :
  value el = "" -> formatDate (Some el) w = (Return VNull, w).
Proof. intros H. unfold formatDate. rewrite H. reflexivity. Qed.

Lemma truthy_nonempty s : s <> "" -> truthy (VString s) = true.
Proof. intros H. simpl. now destruct (String.eqb_spec s ""). Qed.

(** X10. [serializeEntry] returns for a label row exactly when the row
    has its name, color and description controls, and for a milestone
    row exactly when it has its title, state, description and due-date
    controls and the due date formats; in every other case it throws. *)
Theorem serializeEntry_returns_iff node w :
  ((exists v w', serializeEntry node "labels" w = (Return v, w'))
   <-> is_Some (querySelectorByName node "name")
       /\ is_Some (querySelectorByName node "color")
       /\ is_Some (querySelectorByName node "description"))
  /\ ((exists v w', serializeEntry node "milestones" w = (Return v, w'))
      <-> is_Some (querySelectorByName node "title")
          /\ is_Some (querySelectorByName node "state")
          /\ is_Some (querySelectorByName node "description")
          /\ exists dueEl due,
               querySelectorByName node "due-date" = Some dueEl
               /\ formatDate (Some dueEl) w = (Return due, w)).
Proof.
  split; split.
  - intros (v & w' & Hrun).
    apply (serializeEntry_inv _ _ _ _ _ (or_introl eq_refl)) in Hrun
      as (o & Hshape & _).
    inversion Hshape; subst. eauto.
  - intros ([nameEl Hn] & [colorEl Hc] & [descEl Hd]).
    unfold serializeEntry.
    erewrite bind_Return by reflexivity. cbn [negb String.eqb Ascii.eqb Bool.eqb].
    erewrite bind_Return by (apply controlProperty_found; eassumption).
    erewrite bind_Return by (apply controlAttribute_found; eassumption).
    erewrite bind_Return by (apply controlProperty_found; eassumption).
    erewrite bind_Return by (apply controlProperty_found; eassumption).
    unfold alloc. eauto.
  - intros (v & w' & Hrun). unfold serializeEntry in Hrun.
    apply bind_inv in Hrun as (valid & w1 & Hvalid & Hrun).
    injection Hvalid as <- <-.
    cbn [negb String.eqb Ascii.eqb Bool.eqb] in Hrun.
    destruct (bool_decide _) in Hrun; cbn [negb] in Hrun.
    + apply bind_inv in Hrun as (dueDate & w1 & Hc & Hrun).
      apply controlProperty_inv in Hc as (-> & dueEl & Hdue & ->).
      cbn [String.eqb Ascii.eqb Bool.eqb] in Hrun.
      destruct (bool_decide _) eqn:Hempty in Hrun; cbn [negb] in Hrun.
      * apply bool_decide_eq_true in Hempty. injection Hempty as Hempty.
        invert_run Hrun.
        repeat split; eauto.
        exists dueEl, VNull. split; [assumption |]. now apply formatDate_empty.
      * apply bind_inv in Hrun as (? & ? & Hc & Hrun).
        apply controlProperty_inv in Hc as (-> & ? & ? & ->).
        apply bind_inv in Hrun as (? & ? & Hc & Hrun).
        apply controlProperty_inv in Hc as (-> & ? & ? & ->).
        apply bind_inv in Hrun as (? & ? & Hc & Hrun).
        apply controlProperty_inv in Hc as (-> & ? & ? & ->).
        apply bind_inv in Hrun as (due & w2 & Hf & Hrun).
        rewrite Hdue in Hf.
        pose proof (formatDate_inv _ _ _ _ Hf) as [-> _].
        repeat split; eauto.
    + apply bind_inv in Hrun as (? & ? & Hc & Hrun).
      apply controlProperty_inv in Hc as (-> & ? & ? & ->).
      apply bind_inv in Hrun as (? & ? & Hc & Hrun).
      apply controlAttribute_inv in Hc as (-> & ? & ? & ->).
      apply bind_inv in Hrun as (? & ? & Hc & Hrun).
      apply controlProperty_inv in Hc as (-> & ? & ? & ->).
      apply bind_inv in Hrun as (? & ? & Hc & Hrun).
      apply controlProperty_inv in Hc as (-> & ? & ? & ->).
      apply bind_inv in Hrun as (due & w2 & Hf & Hrun).
      pose proof (formatDate_inv _ _ _ _ Hf) as [-> _].
      destruct (querySelectorByName node "due-date") as [dueEl|] eqn:Hdue;
        [| discriminate].
      repeat split; eauto.
  - intros ([titleEl Ht] & [stateEl Hs] & [descEl Hd]
            & dueEl & due & Hdue & Hf).
    unfold serializeEntry.
    erewrite bind_Return by reflexivity. cbn [negb String.eqb Ascii.eqb Bool.eqb].
    destruct (bool_decide _); cbn [negb].
    + erewrite bind_Return by (apply controlProperty_found; eassumption).
      cbn [String.eqb Ascii.eqb Bool.eqb].
      destruct (bool_decide _); cbn [negb].
      * erewrite bind_Return by (apply controlProperty_found; eassumption).
        erewrite bind_Return by (apply controlProperty_found; eassumption).
        erewrite bind_Return by (apply controlProperty_found; eassumption).
        unfold alloc. eauto.
      * erewrite bind_Return by (apply controlProperty_found; eassumption).
        erewrite bind_Return by (apply controlProperty_found; eassumption).
        erewrite bind_Return by (apply controlProperty_found; eassumption).
        erewrite bind_Return by (rewrite Hdue; eassumption).
        unfold alloc. eauto.
    + erewrite bind_Return by (apply controlProperty_found; eassumption).
      erewrite bind_Return by (apply controlAttribute_found; eassumption).
      erewrite bind_Return by (apply controlProperty_found; eassumption).
      erewrite bind_Return by (apply controlProperty_found; eassumption).
      erewrite bind_Return by (rewrite Hdue; eassumption).
      unfold alloc. eauto.
Qed.

Lemma serializeEntry_returns_iff_witness :
  exists v w',
    serializeEntry sampleLabelNode "labels" (sampleWorld 0 []) = (Return v, w').
Proof.
  apply (proj1 (serializeEntry_returns_iff sampleLabelNode (sampleWorld 0 []))).
  repeat split; eexists; reflexivity.
Defined.

(** X11. For a kind that validation rejects, [serializeEntry] writes the
    error to the console, alerts it and returns [undefined]; and
    [packEntry] on [undefined] throws a [TypeError] without touching the
    world, whatever the kind. *)
Theorem serializeEntry_rejected_kind node kind w err :
  validateKind kind w = (Throw err, w) ->
  serializeEntry node kind w
  = (Return VUndefined,
     mkWorld (heap w) (network w) (requests w) (logPane w)
             (alerts w ++ [toString err]) (consoleErrors w ++ [err])
             (localTZA w) (loginInfo w))
  /\ forall kind' w1,
       exists message,
         packEntry VUndefined kind' w1 = (Throw (TypeError message), w1).
Proof.
  intros Hv. split.
  - unfold serializeEntry, tryCatch. unfold bind at 1 2. rewrite Hv.
    reflexivity.
  - intros kind' w1. unfold packEntry.
    destruct (String.eqb kind' "labels"); eexists; reflexivity.
Qed.

Lemma serializeEntry_rejected_kind_witness :
  (serializeEntry sampleLabelNode "issues" (sampleWorld 0 [])).1
  = Return VUndefined.
Proof.
  rewrite (proj1 (serializeEntry_rejected_kind sampleLabelNode "issues"
                    (sampleWorld 0 []) (VError "ValidationError" "issues")
                    eq_refl)).
  reflexivity.
Defined.

Lemma urlForUpdate_create li kind sign :
  urlForUpdate li kind sign = urlForCreate li kind +:+ "/" +:+ toString sign.
Proof. unfold urlForUpdate, urlForCreate. now rewrite !append_assoc. Qed.

Lemma requests_written req logged errs body w :
  requests (written req logged errs body w) = requests w ++ [req].
Proof. reflexivity. Qed.

(** What [apiCallUpdate] has sent when it returns. *)
Lemma apiCallUpdate_sends node kind w res w' :
  kind = "labels" \/ kind = "milestones" ->
  apiCallUpdate node kind w = (Return res, w') ->
  exists li o logged errs,
    loginInfo w = Return li
    /\ Serialized node kind o
    /\ w' = written
              (mkRequest (urlForUpdate li kind (getProp (signKey kind) o))
                         "PATCH" (authHeaders li)
                         (Some (jsonObject (deleteProp (identityKey kind) o))))
              logged errs (deleteProp (identityKey kind) o) w.
Proof.
  intros Hkind Hrun. unfold apiCallUpdate in Hrun.
  rewrite (bind_Return _ _ _ _ _ (kindAccepted_valid kind w Hkind)) in Hrun.
  cbn [negb] in Hrun.
  apply (write_prefix_inv _ _ _ _ _ _ Hkind) in Hrun
    as (li & o & Hli & Hshape & Hrun).
  cbv zeta in Hrun. unfold fetchUpdate in Hrun.
  rewrite bind_assoc in Hrun.
  rewrite (bind_Return _ _ _ _ _ (stringify_packed node kind o w Hshape)) in Hrun.
  rewrite (bind_Return _ _ _ _ _ (fetch_spec _ _)) in Hrun.
  cbn [network withHeap] in Hrun.
  exists li, o.
  destruct (network w) as [|[r|m] rest] eqn:Hnet; cbn in Hrun;
    injection Hrun as <- <-;
    [eexists [], [] | eexists [_], [] | eexists [_], [_]];
    (split; [exact Hli |]; split; [exact Hshape |]);
    unfold written; rewrite Hnet; cbn; rewrite ?app_nil_r; reflexivity.
Qed.

(** X12. Updating a label addresses it by the name it was loaded with,
    the [data-orig-val] of its name control, while the edited name, the
    color without its first character and the description travel in the
    body; a name control without [data-orig-val] is addressed as
    [null]. *)
Theorem apiCallUpdate_label_request node w res w' :
  apiCallUpdate node "labels" w = (Return res, w') ->
  exists li nameEl colorEl descriptionEl,
    loginInfo w = Return li
    /\ querySelectorByName node "name" = Some nameEl
    /\ querySelectorByName node "color" = Some colorEl
    /\ querySelectorByName node "description" = Some descriptionEl
    /\ requests w'
       = requests w ++
         [mkRequest
            (urlForCreate li "labels" +:+ "/"
             +:+ match lookupAttribute "data-orig-val" (attributes nameEl) with
                 | Some original => original
                 | None => "null"
                 end)
            "PATCH" (authHeaders li)
            (Some ("{" +:+ JSON.joinComma
                             [member "name" (VString (value nameEl));
                              member "color"
                                     (VString (Str.slice1 (value colorEl)));
                              member "description"
                                     (VString (value descriptionEl))]
                   +:+ "}"))].
Proof.
  intros Hrun.
  apply (apiCallUpdate_sends _ _ _ _ _ (or_introl eq_refl)) in Hrun
    as (li & o & logged & errs & Hli & Hshape & ->).
  inversion Hshape as [nameEl colorEl descEl Hn Hc Hd | | | ]; subst.
  exists li, nameEl, colorEl, descEl.
  repeat (split; [assumption |]).
  rewrite requests_written, urlForUpdate_create.
  unfold attributeValue. cbn.
  destruct (lookupAttribute "data-orig-val" (attributes nameEl)); reflexivity.
Qed.

Lemma apiCallUpdate_label_request_witness :
  url <$> requests (apiCallUpdate sampleLabelNode "labels"
                      (sampleWorld 0 [okPage []])).2
  = ["https://api.github.com/repos/octocat/hello-world/labels/bug"].
Proof.
  destruct (apiCallUpdate_label_request sampleLabelNode
              (sampleWorld 0 [okPage []])
              (ReturnedPromise (Some (Resolved VUndefined)))
              (apiCallUpdate sampleLabelNode "labels"
                 (sampleWorld 0 [okPage []])).2 eq_refl)
    as (li & nameEl & colorEl & descEl & Hli & Hn & Hc & Hd & Hreq).
  injection Hli as <-. injection Hn as <-.
  rewrite Hreq. reflexivity.
Defined.

Lemma numberToString_not_null (n : Z) : numberToString n <> "null".
Proof.
  intros H. pose proof (stringToNumber_numberToString n) as Hn.
  rewrite H in Hn. discriminate.
Qed.

(** X13. The path segment of a milestone is read off its [data-number]:
    a row that is new ([null]) is addressed as [undefined], a row
    without the attribute as 0, and a row that carries the decimal text
    of an integer of magnitude at most 2^53, which a JavaScript number
    holds exactly, is addressed by that same text. *)
Theorem milestone_path_segment node w v w1 pkg w2 li :
  serializeEntry node "milestones" w = (Return v, w1) ->
  packEntry v "milestones" w1 = (Return pkg, w2) ->
  let attr := attributeValue "data-number" (nodeAttributes node) in
  let sign := apiCallSign (names pkg) in
  (attr = VString "null" ->
   sign = VUndefined
   /\ urlForDelete li "milestones" sign
      = urlForCreate li "milestones" +:+ "/undefined")
  /\ (attr = VNull ->
      sign = VNumber 0
      /\ urlForDelete li "milestones" sign
         = urlForCreate li "milestones" +:+ "/0")
  /\ (forall n, exactInteger n -> attr = VString (numberToString n) ->
      sign = VNumber n
      /\ urlForDelete li "milestones" sign
         = urlForCreate li "milestones" +:+ "/" +:+ numberToString n).
Proof.
  intros Hser Hpack attr sign.
  apply (serializeEntry_inv _ _ _ _ _ (or_intror eq_refl)) in Hser
    as (o & Hshape & -> & ->).
  rewrite (packEntry_object _ _ o) in Hpack by apply lookup_fresh.
  injection Hpack as <- _. subst sign. cbn [names apiCallSign].
  change (urlForDelete li "milestones") with (urlForUpdate li "milestones").
  rewrite urlForUpdate_create.
  change (signKey "milestones") with "number".
  assert (Hsign : (attr = VString "null" -> getProp "number" o = VUndefined)
                  /\ (attr <> VString "null" ->
                      getProp "number" o = Num.unaryPlus attr)).
  { inversion Hshape; subst; split; intros Hattr;
      try reflexivity; contradiction. }
  destruct Hsign as [Hnew Hold]. split; [| split].
  - intros Hattr. rewrite (Hnew Hattr). split; reflexivity.
  - intros Hattr. rewrite Hold by (rewrite Hattr; discriminate).
    rewrite Hattr. split; reflexivity.
  - intros n _ Hattr.
    rewrite Hold
      by (rewrite Hattr; intros [= Hn];
          now apply numberToString_not_null in Hn).
    rewrite Hattr. unfold Num.unaryPlus. cbn [Num.toNumber].
    rewrite stringToNumber_numberToString. split; reflexivity.
Qed.

Lemma milestone_path_segment_witness :
  urlForDelete sampleLogin "milestones"
    (apiCallSign (names (packageOf "milestones" 0%nat sampleMilestoneEntry)))
  = urlForCreate sampleLogin "milestones" +:+ "/" +:+ numberToString 7.
Proof.
  apply (milestone_path_segment sampleExistingMilestone (sampleWorld 0 [])
           (VObject 0%nat)
           (serializeEntry sampleExistingMilestone "milestones"
              (sampleWorld 0 [])).2
           (packageOf "milestones" 0%nat sampleMilestoneEntry)
           (packEntry (VObject 0%nat) "milestones"
              (serializeEntry sampleExistingMilestone "milestones"
                 (sampleWorld 0 [])).2).2
           sampleLogin eq_refl eq_refl).
  - unfold exactInteger. lia.
  - reflexivity.
Defined.

(** ** Date formatting on every input *)

(** X14. [formatDate] answers [null] exactly for a control without a
    date; for any other control it answers a string or throws, and it
    never changes the world. *)
Theorem formatDate_null_iff el w :
  (formatDate (Some el) w = (Return VNull, w) <-> value el = "")
  /\ (value el <> "" ->
      (exists iso, formatDate (Some el) w = (Return (VString iso), w))
      \/ formatDate (Some el) w
         = (Throw (RangeError "Invalid time value"), w)).
Proof.
  assert (Hdate : value el <> "" ->
            (exists iso, formatDate (Some el) w = (Return (VString iso), w))
            \/ formatDate (Some el) w
               = (Throw (RangeError "Invalid time value"), w)).
  { intros Hne. unfold formatDate.
    rewrite (truthy_nonempty _ Hne). cbn [negb].
    unfold JsDate.toISOString.
    destruct (JsDate.construct _ _ _ _ _ _ _) as [t|]; [| now right].
    destruct (JsDate.civilFromDays _) as [[y m] d]. left. eauto. }
  split; [split |]; [| apply formatDate_empty | exact Hdate].
  intros Hnull. destruct (String.eqb_spec (value el) "") as [|Hne]; [assumption |].
  destruct (Hdate Hne) as [[iso Hiso] | Hthrow]; congruence.
Qed.

Lemma formatDate_null_iff_witness :
  formatDate (Some (control "due-date" "" [])) (sampleWorld 0 [])
  = (Return VNull, sampleWorld 0 []).
Proof.
  apply (proj1 (formatDate_null_iff (control "due-date" "" [])
                  (sampleWorld 0 []))).
  reflexivity.
Defined.

Lemma construct_midnight tza y m d :
  JsDate.construct tza y m d (VString "00") (VString "00") (VString "00")
  = JsDate.construct tza y m d (VNumber 0) (VNumber 0) (VNumber 0).
Proof. reflexivity. Qed.

(** X15. On every host and for every date, a control without a
    [data-orig-time] attribute, or with an empty one, formats as the same
    control with time 00:00:00. *)
Theorem formatDate_defaults_to_midnight el w :
  lookupAttribute "data-orig-time" (attributes el) = None
  \/ lookupAttribute "data-orig-time" (attributes el) = Some "" ->
  formatDate (Some el) w
  = formatDate
      (Some (mkElement [("data-orig-time", "00:00:00")] (value el))) w.
Proof.
  intros Htime. unfold formatDate. cbn [value attributes].
  destruct (negb (truthy (VString (value el)))); [reflexivity |].
  unfold attributeValue.
  destruct Htime as [-> | ->]; cbn [lookupAttribute String.eqb Ascii.eqb Bool.eqb];
    reflexivity.
Qed.

Lemma formatDate_defaults_to_midnight_witness :
  formatDate (Some (control "due-date" "2024-03-05" [])) (sampleWorld 3600000 [])
  = formatDate (Some (mkElement [("data-orig-time", "00:00:00")] "2024-03-05"))
               (sampleWorld 3600000 []).
Proof.
  apply (formatDate_defaults_to_midnight (control "due-date" "2024-03-05" [])).
  left. reflexivity.
Defined.

Lemma construct_without_day tza y m h mi s :
  JsDate.construct tza y m VUndefined h mi s = None.
Proof.
  unfold JsDate.construct.
  destruct (Num.toNumber y), (Num.toNumber m); reflexivity.
Qed.

(** X16. A date with fewer than three components between hyphens is
    not a date: [formatDate] throws the [RangeError] of [toISOString]
    and changes nothing. *)
Theorem formatDate_short_date_throws el w :
  value el <> "" ->
  (List.length (Str.split "-" (value el)) < 3)%nat ->
  formatDate (Some el) w = (Throw (RangeError "Invalid time value"), w).
Proof.
  intros Hne Hlen. unfold formatDate.
  rewrite (truthy_nonempty _ Hne). cbn [negb].
  unfold item at 3.
  rewrite (nth_overflow _ VUndefined) by (rewrite length_map; lia).
  rewrite construct_without_day. reflexivity.
Qed.

Lemma formatDate_short_date_throws_witness :
  formatDate (Some (control "due-date" "2024-03" [])) (sampleWorld 0 [])
  = (Throw (RangeError "Invalid time value"), sampleWorld 0 []).
Proof.
  apply formatDate_short_date_throws; [discriminate | simpl; lia].
Defined.

(** ** The calendar *)

Ltac zdiv := Z.to_euclidean_division_equations; lia.

Lemma month_day_of_year mp d :
  0 <= mp <= 11 -> 1 <= d <= 31 ->
  (mp = 11 -> d <= 29) ->
  (mp = 1 \/ mp = 3 \/ mp = 6 \/ mp = 8 -> d <= 30) ->
  (5 * ((153 * mp + 2) / 5 + d - 1) + 2) / 153 = mp
  /\ ((153 * mp + 2) / 5 + d - 1)
     - (153 * ((5 * ((153 * mp + 2) / 5 + d - 1) + 2) / 153) + 2) / 5 + 1 = d.
Proof.
  intros Hmp Hd H11 H30.
  assert (mp = 0 \/ mp = 1 \/ mp = 2 \/ mp = 3 \/ mp = 4 \/ mp = 5 \/ mp = 6
          \/ mp = 7 \/ mp = 8 \/ mp = 9 \/ mp = 10 \/ mp = 11) as Hc by lia.
  repeat (destruct Hc as [-> | Hc]; [split; zdiv |]).
  subst. split; zdiv.
Qed.

Lemma year_of_era yoe doy :
  0 <= yoe <= 399 -> 0 <= doy <= 365 ->
  (doy = 365 -> yoe mod 4 = 3 /\ (yoe mod 100 <> 99 \/ yoe = 399)) ->
  ((yoe * 365 + yoe / 4 - yoe / 100 + doy)
   - (yoe * 365 + yoe / 4 - yoe / 100 + doy) / 1460
   + (yoe * 365 + yoe / 4 - yoe / 100 + doy) / 36524
   - (yoe * 365 + yoe / 4 - yoe / 100 + doy) / 146096) / 365 = yoe.
Proof. intros Hy Hd Hleap. zdiv. Qed.

(** The day number of a date of the calendar leads back to the date. *)
Lemma civilFromDays_daysFromCivil y m d :
  validDate y m d ->
  JsDate.civilFromDays (JsDate.daysFromCivil y m d) = (y, m, d).
Proof.
  intros [Hm Hd]. unfold JsDate.civilFromDays, JsDate.daysFromCivil.
  set (y' := if m <=? 2 then y - 1 else y).
  set (era := y' / 400).
  set (yoe := y' - era * 400).
  set (mp := (m + 9) mod 12).
  set (doy := (153 * mp + 2) / 5 + d - 1).
  set (doe := yoe * 365 + yoe / 4 - yoe / 100 + doy).
  assert (Hyoe : 0 <= yoe <= 399) by (subst yoe era; zdiv).
  assert (Hmp : 0 <= mp <= 11 /\ (m <= 2 -> mp = m + 9) /\ (3 <= m -> mp = m - 3))
    by (subst mp; zdiv).
  assert (Hdim : d <= 31 /\ (m = 2 -> d <= 29)
                 /\ (m = 4 \/ m = 6 \/ m = 9 \/ m = 11 -> d <= 30)
                 /\ (m = 2 -> d = 29 -> leapYear y = true)).
  { unfold daysInMonth in Hd.
    destruct (Z.eqb_spec m 2) as [-> | Hm2].
    - destruct (leapYear y); repeat split; try lia; try reflexivity.
    - destruct (Z.eqb_spec m 4), (Z.eqb_spec m 6), (Z.eqb_spec m 9),
        (Z.eqb_spec m 11); cbn [orb] in Hd; repeat split; lia. }
  destruct Hdim as (Hd31 & Hd29 & Hd30 & Hleap).
  assert (Hdoy : 0 <= doy <= 365
                 /\ (doy = 365 -> m = 2 /\ d = 29)).
  { subst doy.
    assert (mp = 0 \/ mp = 1 \/ mp = 2 \/ mp = 3 \/ mp = 4 \/ mp = 5 \/ mp = 6
            \/ mp = 7 \/ mp = 8 \/ mp = 9 \/ mp = 10 \/ mp = 11) as Hc by lia.
    repeat (destruct Hc as [Hc | Hc]; [rewrite Hc; zdiv |]).
    rewrite Hc. zdiv. }
  assert (Hyear : doy = 365 ->
                  yoe mod 4 = 3 /\ (yoe mod 100 <> 99 \/ yoe = 399)).
  { intros H365. destruct (proj2 Hdoy H365) as [-> ->].
    specialize (Hleap eq_refl eq_refl). unfold leapYear in Hleap.
    apply andb_true_iff in Hleap as [H4 H100].
    apply Z.eqb_eq in H4.
    assert (y mod 100 <> 0 \/ y mod 400 = 0) as Hc.
    { apply orb_true_iff in H100 as [H100 | H400].
      - left. now apply negb_true_iff, Z.eqb_neq in H100.
      - right. now apply Z.eqb_eq. }
    subst yoe era y'. change (2 <=? 2) with true. cbv iota. zdiv. }
  replace (era * 146097 + doe - 719468 + 719468) with (era * 146097 + doe)
    by lia.
  assert (Hdoe : 0 <= doe <= 146096) by (subst doe; zdiv).
  replace ((era * 146097 + doe) / 146097) with era by zdiv.
  replace (era * 146097 + doe - era * 146097) with doe by lia.
  subst doe. rewrite (year_of_era yoe doy Hyoe (proj1 Hdoy) Hyear).
  replace (yoe * 365 + yoe / 4 - yoe / 100 + doy
           - (365 * yoe + yoe / 4 - yoe / 100)) with doy by lia.
  subst doy.
  destruct (month_day_of_year mp d) as [Hmonth Hday]; try lia.
  rewrite Hday, Hmonth.
  destruct (Z.leb_spec m 2) as [Hle | Hgt].
  - destruct Hmp as (_ & Hmp & _). rewrite (Hmp Hle).
    destruct (Z.ltb_spec (m + 9) 10); [lia |].
    replace (m + 9 - 9) with m by lia.
    destruct (Z.leb_spec m 2); [| lia].
    subst yoe. f_equal. f_equal. lia.
  - destruct Hmp as (_ & _ & Hmp). rewrite Hmp by lia.
    destruct (Z.ltb_spec (m - 3) 10); [| lia].
    replace (m - 3 + 3) with m by lia.
    destruct (Z.leb_spec m 2); [lia |].
    subst yoe. f_equal. f_equal. lia.
Qed.

(** ** Dates that format to themselves *)

Lemma digit_not_white c v :
  Num.digitValue c = Some v -> Num.isWhiteSpace c = false.
Proof.
  destruct c as [[] [] [] [] [] [] [] []]; intros H; try discriminate H;
    reflexivity.
Qed.

Lemma allDigits_noWhiteSpace s : allDigits s = true -> noWhiteSpace s = true.
Proof.
  induction s as [|c s IH]; [reflexivity |]. cbn [allDigits noWhiteSpace].
  destruct (Num.digitValue c) eqn:Hc; [| discriminate].
  intros Hs. rewrite (digit_not_white c _ Hc), (IH Hs). reflexivity.
Qed.

Lemma allDigits_append a b :
  allDigits (a +:+ b) = allDigits a && allDigits b.
Proof.
  induction a as [|c a IH]; [reflexivity |]. cbn [String.append allDigits].
  destruct (Num.digitValue c); [exact IH | reflexivity].
Qed.

Lemma allDigits_uint u : allDigits (NilEmpty.string_of_uint u) = true.
Proof. induction u; simpl; auto. Qed.

Lemma allDigits_zeros k : allDigits (JsDate.zeros k) = true.
Proof. induction k; simpl; auto. Qed.

(** The decimal text of a natural number: digits, at least one. *)
Lemma numberToString_digits n :
  0 <= n ->
  allDigits (numberToString n) = true
  /\ numberToString n <> ""
  /\ Num.digitsValue 0 (numberToString n) = Some n.
Proof.
  intros Hn. destruct n as [|q|q]; [repeat split; discriminate | | lia].
  unfold numberToString, NilZero.string_of_int. cbn [Z.to_int].
  assert (Hs : NilZero.string_of_uint (Pos.to_uint q)
               = NilEmpty.string_of_uint (Pos.to_uint q)).
  { unfold NilZero.string_of_uint. destruct (Pos.to_uint q) eqn:Hu; try reflexivity.
    now destruct (DecimalPos.Unsigned.to_uint_nonnil q). }
  rewrite Hs. split; [apply allDigits_uint |]. split.
  - intros He. pose proof (unsignedValue_pos q) as Hv. rewrite He in Hv.
    discriminate.
  - rewrite digitsValue_uint, DecimalPos.Unsigned.of_to. reflexivity.
Qed.

Lemma digitsValue_zeros k s :
  Num.digitsValue 0 (JsDate.zeros k +:+ s) = Num.digitsValue 0 s.
Proof. induction k; [reflexivity | exact IHk]. Qed.

Lemma padStart_digits width n :
  0 <= n ->
  allDigits (JsDate.padStart width n) = true
  /\ JsDate.padStart width n <> ""
  /\ Num.digitsValue 0 (JsDate.padStart width n) = Some n.
Proof.
  intros Hn. destruct (numberToString_digits n Hn) as (Hd & Hne & Hv).
  unfold JsDate.padStart. split; [| split].
  - now rewrite allDigits_append, allDigits_zeros, Hd.
  - destruct (JsDate.zeros _); [exact Hne | discriminate].
  - now rewrite digitsValue_zeros.
Qed.

(** [ToNumber] on a run of digits reads the run. *)
Lemma stringToNumber_digits s :
  allDigits s = true -> s <> "" ->
  Num.stringToNumber s = Num.digitsValue 0 s.
Proof.
  intros Hd Hne. unfold Num.stringToNumber.
  rewrite trim_noWhiteSpace by now apply allDigits_noWhiteSpace.
  destruct s as [|c s]; [congruence |].
  cbn [allDigits] in Hd.
  destruct c as [[] [] [] [] [] [] [] []]; try discriminate Hd; reflexivity.
Qed.

Lemma toNumber_padStart width n :
  0 <= n -> Num.toNumber (VString (JsDate.padStart width n)) = Some n.
Proof.
  intros Hn. destruct (padStart_digits width n Hn) as (Hd & Hne & Hv).
  cbn [Num.toNumber]. now rewrite stringToNumber_digits.
Qed.

Lemma digit_not_separator c sep v :
  Num.digitValue c = Some v -> Num.digitValue sep = None ->
  Ascii.eqb c sep = false.
Proof.
  intros Hc Hsep. destruct (Ascii.eqb_spec c sep) as [-> |]; congruence.
Qed.

Lemma split_digits sep a :
  allDigits a = true -> Num.digitValue sep = None ->
  Str.split sep a = [a].
Proof.
  intros Ha Hsep. induction a as [|c a IH]; [reflexivity |].
  cbn [allDigits] in Ha. destruct (Num.digitValue c) eqn:Hc; [| discriminate].
  cbn [Str.split]. rewrite (digit_not_separator c sep _ Hc Hsep), (IH Ha).
  reflexivity.
Qed.

Lemma split_digits_cons sep a rest :
  allDigits a = true -> Num.digitValue sep = None ->
  Str.split sep (a +:+ String sep rest) = a :: Str.split sep rest.
Proof.
  intros Ha Hsep. induction a as [|c a IH].
  - cbn [String.append Str.split]. now rewrite Ascii.eqb_refl.
  - cbn [allDigits] in Ha.
    destruct (Num.digitValue c) eqn:Hc; [| discriminate].
    cbn [String.append Str.split].
    rewrite (digit_not_separator c sep _ Hc Hsep), (IH Ha). reflexivity.
Qed.

Lemma replace_unfold pat by_ s :
  Str.replace pat by_ s
  = if String.prefix pat s
    then by_ +:+ String.substring (String.length pat)
                                  (String.length s - String.length pat) s
    else match s with
         | EmptyString => EmptyString
         | String c rest => String c (Str.replace pat by_ rest)
         end.
Proof. destruct s; reflexivity. Qed.

Lemma replace_skip_char c rest :
  c <> "."%char ->
  Str.replace ".000Z" "Z" (String c rest)
  = String c (Str.replace ".000Z" "Z" rest).
Proof.
  intros Hc. rewrite replace_unfold. cbn [String.prefix].
  destruct (ascii_dec "." c); [congruence | reflexivity].
Qed.

Lemma replace_skip_digits a rest :
  allDigits a = true ->
  Str.replace ".000Z" "Z" (a +:+ rest) = a +:+ Str.replace ".000Z" "Z" rest.
Proof.
  intros Ha. induction a as [|c a IH]; [reflexivity |].
  cbn [allDigits] in Ha. destruct (Num.digitValue c) eqn:Hc; [| discriminate].
  cbn [String.append]. rewrite replace_skip_char, (IH Ha); [reflexivity |].
  intros ->. discriminate Hc.
Qed.

Lemma daysFromCivil_day y m d :
  JsDate.daysFromCivil y m 1 + d - 1 = JsDate.daysFromCivil y m d.
Proof. unfold JsDate.daysFromCivil. lia. Qed.

Lemma daysInMonth_bound y m : daysInMonth y m <= 31.
Proof.
  unfold daysInMonth.
  destruct (m =? 2); [destruct (leapYear y); lia |].
  destruct (_ || _); lia.
Qed.

Lemma daysFromCivil_bound y m d :
  0 <= y <= 9999 -> 1 <= m <= 12 -> 1 <= d <= 31 ->
  -1000000 <= JsDate.daysFromCivil y m d <= 4000000.
Proof.
  intros Hy Hm Hd. unfold JsDate.daysFromCivil.
  destruct (m <=? 2); zdiv.
Qed.

(** The time value that the constructor builds on a host in UTC, and its
    ISO text. *)
Lemma toISOString_valid y m d h mi s :
  0 <= y <= 9999 -> validDate y m d -> validTime h mi s ->
  JsDate.toISOString
    (Some (JsDate.MakeDate (JsDate.daysFromCivil y m d)
                           (JsDate.MakeTime h mi s 0)))
  = Return (JsDate.padStart 4 y +:+ "-" +:+ JsDate.padStart 2 m
            +:+ "-" +:+ JsDate.padStart 2 d
            +:+ "T" +:+ JsDate.padStart 2 h
            +:+ ":" +:+ JsDate.padStart 2 mi
            +:+ ":" +:+ JsDate.padStart 2 s
            +:+ "." +:+ "000" +:+ "Z").
Proof.
  intros Hy Hdate (Hh & Hmi & Hs).
  unfold JsDate.toISOString, JsDate.MakeDate, JsDate.MakeTime,
    JsDate.msPerDay, JsDate.msPerHour, JsDate.msPerMinute, JsDate.msPerSecond.
  set (days := JsDate.daysFromCivil y m d).
  replace ((days * 86400000 + (h * 3600000 + mi * 60000 + s * 1000 + 0))
           / 86400000) with days by zdiv.
  subst days. rewrite (civilFromDays_daysFromCivil y m d Hdate).
  set (days := JsDate.daysFromCivil y m d).
  replace ((days * 86400000 + (h * 3600000 + mi * 60000 + s * 1000 + 0))
           mod 86400000) with (h * 3600000 + mi * 60000 + s * 1000) by zdiv.
  replace ((h * 3600000 + mi * 60000 + s * 1000) / 3600000) with h by zdiv.
  replace (((h * 3600000 + mi * 60000 + s * 1000) / 60000) mod 60) with mi
    by zdiv.
  replace (((h * 3600000 + mi * 60000 + s * 1000) / 1000) mod 60) with s
    by zdiv.
  replace ((h * 3600000 + mi * 60000 + s * 1000) mod 1000) with 0 by zdiv.
  unfold JsDate.isoYear.
  destruct (Z.leb_spec 0 y); [| lia]. destruct (Z.leb_spec y 9999); [| lia].
  reflexivity.
Qed.

Lemma append_nonempty a b : a <> "" -> a +:+ b <> "".
Proof. destruct a; [congruence | discriminate]. Qed.

Lemma construct_valid tza y m d h mi s :
  (forall t, tza t = 0) ->
  100 <= y <= 9999 -> validDate y m d -> validTime h mi s ->
  JsDate.construct tza (VNumber y) (Num.minusOne (VNumber m)) (VNumber d)
    (VString (JsDate.padStart 2 h)) (VString (JsDate.padStart 2 mi))
    (VString (JsDate.padStart 2 s))
  = Some (JsDate.MakeDate (JsDate.daysFromCivil y m d)
                          (JsDate.MakeTime h mi s 0)).
Proof.
  intros Hutc Hy [Hm Hd] (Hh & Hmi & Hs). unfold JsDate.construct.
  rewrite !toNumber_padStart by lia.
  cbn [Num.minusOne Num.toNumber Num.ofNumber fmap option_fmap option_map
       mbind option_bind].
  rewrite Hutc.
  assert (Hfull : JsDate.MakeFullYear y = y).
  { unfold JsDate.MakeFullYear. destruct (Z.leb_spec y 99); [lia |].
    now rewrite andb_false_r. }
  assert (Hday : JsDate.MakeDay y (m - 1) d = JsDate.daysFromCivil y m d).
  { unfold JsDate.MakeDay.
    replace (y + (m - 1) / 12) with y by zdiv.
    replace ((m - 1) mod 12 + 1) with m by zdiv.
    apply daysFromCivil_day. }
  rewrite Hfull, Hday, Z.sub_0_r.
  unfold JsDate.TimeClip.
  pose proof (daysInMonth_bound y m) as Hdim.
  pose proof (daysFromCivil_bound y m d) as Hb.
  destruct (Z.leb_spec (Z.abs (JsDate.MakeDate (JsDate.daysFromCivil y m d)
                                 (JsDate.MakeTime h mi s 0)))
                       8640000000000000) as [_ | Hbig]; [reflexivity |].
  unfold JsDate.MakeDate, JsDate.MakeTime, JsDate.msPerDay, JsDate.msPerHour,
    JsDate.msPerMinute, JsDate.msPerSecond in Hbig.
  lia.
Qed.

Lemma append_char c x : String c "" +:+ x = String c x.
Proof. reflexivity. Qed.

Lemma append_cons c x y : String c x +:+ y = String c (x +:+ y).
Proof. reflexivity. Qed.

Lemma dateText_split y m d :
  0 <= y -> 0 <= m -> 0 <= d ->
  Str.split "-" (dateText y m d)
  = [JsDate.padStart 4 y; JsDate.padStart 2 m; JsDate.padStart 2 d].
Proof.
  intros Hy Hm Hd. unfold dateText. rewrite !append_char.
  rewrite !split_digits_cons, split_digits;
    try reflexivity; now apply padStart_digits.
Qed.

Lemma timeText_split h mi s :
  0 <= h -> 0 <= mi -> 0 <= s ->
  Str.split ":" (timeText h mi s)
  = [JsDate.padStart 2 h; JsDate.padStart 2 mi; JsDate.padStart 2 s].
Proof.
  intros Hh Hm Hs. unfold timeText. rewrite !append_char.
  rewrite !split_digits_cons, split_digits;
    try reflexivity; now apply padStart_digits.
Qed.

(** X17. On a host in UTC, every date of the calendar from year 100 to
    9999 and every time of day come back from [formatDate] as they went
    in: the date, [T], the time and [Z]. *)
Theorem formatDate_valid_utc w y m d h mi s :
  (forall t, localTZA w t = 0) ->
  100 <= y <= 9999 -> validDate y m d -> validTime h mi s ->
  formatDate
    (Some (mkElement [("data-orig-time", timeText h mi s)] (dateText y m d))) w
  = (Return (VString (dateText y m d +:+ "T" +:+ timeText h mi s +:+ "Z")), w).
Proof.
  intros Hutc Hy Hdate Htime.
  pose proof Hdate as [Hm Hd]. pose proof Htime as (Hh & Hmi & Hs).
  unfold formatDate. cbn [value attributes].
  assert (Hdt : dateText y m d <> "")
    by (apply append_nonempty, padStart_digits; lia).
  assert (Htt : timeText h mi s <> "")
    by (apply append_nonempty, padStart_digits; lia).
  rewrite (truthy_nonempty _ Hdt). cbn [negb].
  change (attributeValue "data-orig-time"
            [("data-orig-time", timeText h mi s)])
    with (VString (timeText h mi s)).
  rewrite (truthy_nonempty _ Htt). cbn [toString].
  rewrite dateText_split, timeText_split by lia.
  cbn [map item nth]. unfold Num.unaryPlus.
  rewrite !toNumber_padStart by lia. cbn [Num.ofNumber].
  rewrite (construct_valid _ y m d h mi s Hutc Hy Hdate Htime).
  rewrite toISOString_valid by (try assumption; lia).
  do 2 f_equal. unfold dateText, timeText. rewrite !append_char.
  repeat first
    [ rewrite replace_skip_digits by (apply padStart_digits; lia)
    | rewrite replace_skip_char by discriminate ].
  change (Str.replace ".000Z" "Z" (String "." ("000" +:+ "Z"))) with "Z".
  repeat first [rewrite append_assoc | rewrite append_cons].
  reflexivity.
Qed.

Lemma formatDate_valid_utc_witness :
  formatDate
    (Some (mkElement [("data-orig-time", timeText 23 59 59)]
                     (dateText 2024 2 29)))
    (sampleWorld 0 [])
  = (Return (VString (dateText 2024 2 29 +:+ "T" +:+ timeText 23 59 59 +:+ "Z")),
     sampleWorld 0 []).
Proof.
  apply formatDate_valid_utc.
  - reflexivity.
  - lia.
  - split; [lia |]. vm_compute. split; discriminate.
  - unfold validTime. lia.
Defined.

(** ** The examples of the specification on every host *)

(** The constructor on a host that is [east] minutes east of UTC at the
    local time it is given: the time value is that much earlier than the
    local reading. *)
Lemma construct_offset tza y m d hv miv sv h mi s east :
  Num.toNumber hv = Some h -> Num.toNumber miv = Some mi ->
  Num.toNumber sv = Some s ->
  100 <= y <= 9999 -> validDate y m d -> validTime h mi s ->
  -1440 < east < 1440 ->
  tza (JsDate.MakeDate (JsDate.daysFromCivil y m d) (JsDate.MakeTime h mi s 0))
  = east * JsDate.msPerMinute ->
  JsDate.construct tza (VNumber y) (Num.minusOne (VNumber m)) (VNumber d)
    hv miv sv
  = Some (JsDate.MakeDate (JsDate.daysFromCivil y m d)
                          (JsDate.MakeTime h mi s 0)
          - east * JsDate.msPerMinute).
Proof.
  intros Hh Hmi Hs Hy [Hm Hd] (Hhr & Hmir & Hsr) Heast Htza.
  unfold JsDate.construct. rewrite Hh, Hmi, Hs.
  cbn [Num.minusOne Num.toNumber Num.ofNumber fmap option_fmap option_map
       mbind option_bind].
  assert (Hfull : JsDate.MakeFullYear y = y).
  { unfold JsDate.MakeFullYear. destruct (Z.leb_spec y 99); [lia |].
    now rewrite andb_false_r. }
  assert (Hday : JsDate.MakeDay y (m - 1) d = JsDate.daysFromCivil y m d).
  { unfold JsDate.MakeDay.
    replace (y + (m - 1) / 12) with y by zdiv.
    replace ((m - 1) mod 12 + 1) with m by zdiv.
    apply daysFromCivil_day. }
  rewrite Hfull, Hday, Htza.
  unfold JsDate.TimeClip.
  pose proof (daysInMonth_bound y m) as Hdim.
  pose proof (daysFromCivil_bound y m d) as Hb.
  destruct (Z.leb_spec
              (Z.abs (JsDate.MakeDate (JsDate.daysFromCivil y m d)
                                      (JsDate.MakeTime h mi s 0)
                      - east * JsDate.msPerMinute))
              8640000000000000) as [_ | Hbig]; [reflexivity |].
  unfold JsDate.MakeDate, JsDate.MakeTime, JsDate.msPerDay, JsDate.msPerHour,
    JsDate.msPerMinute, JsDate.msPerSecond in Hbig.
  lia.
Qed.

(** The ISO text of a whole minute near a day, with the zero
    milliseconds dropped as [formatDate] drops them. *)
Lemma toISOString_minute y m d minute :
  0 <= y <= 9999 -> 1 <= m <= 12 ->
  1 <= d + minute / 1440 <= daysInMonth y m ->
  exists iso,
    JsDate.toISOString
      (Some (JsDate.MakeDate (JsDate.daysFromCivil y m d) 0
             + minute * JsDate.msPerMinute))
    = Return iso
    /\ Str.replace ".000Z" "Z" iso = utcMinute y m d minute.
Proof.
  intros Hy Hm Hd.
  set (q := minute / 1440) in *.
  set (hh := minute mod 1440 / 60). set (mm := minute mod 60).
  assert (Hhh : 0 <= hh <= 23) by (subst hh; zdiv).
  assert (Hmm : 0 <= mm <= 59) by (subst mm; zdiv).
  assert (Hshift : JsDate.daysFromCivil y m (d + q)
                   = JsDate.daysFromCivil y m d + q)
    by (unfold JsDate.daysFromCivil; lia).
  replace (JsDate.MakeDate (JsDate.daysFromCivil y m d) 0
           + minute * JsDate.msPerMinute)
    with (JsDate.MakeDate (JsDate.daysFromCivil y m (d + q))
                          (JsDate.MakeTime hh mm 0 0)).
  2:{ rewrite Hshift.
      unfold JsDate.MakeDate, JsDate.MakeTime, JsDate.msPerDay,
        JsDate.msPerHour, JsDate.msPerMinute, JsDate.msPerSecond.
      subst q hh mm. zdiv. }
  rewrite toISOString_valid
    by (try assumption; try split; unfold validTime; lia).
  eexists. split; [reflexivity |].
  unfold utcMinute, dateText, timeText. fold q hh mm.
  rewrite !append_char.
  repeat first
    [ rewrite replace_skip_digits by (apply padStart_digits; lia)
    | rewrite replace_skip_char by discriminate ].
  change (Str.replace ".000Z" "Z" (String "." ("000" +:+ "Z"))) with "Z".
  repeat first [rewrite append_assoc | rewrite append_cons].
  reflexivity.
Qed.

(** [formatDate] of 2024-03-05 at [h]:[mi]:00 local time, on a host
    that is [east] minutes east of UTC that day. *)
Lemma formatDate_march5 w attrs hv miv sv h mi east :
  (let time := attributeValue "data-orig-time" (("name", "due-date") :: attrs) in
   if truthy time then map VString (Str.split ":" (toString time))
   else [VNumber 0; VNumber 0; VNumber 0]) = [hv; miv; sv] ->
  Num.toNumber hv = Some h -> Num.toNumber miv = Some mi ->
  Num.toNumber sv = Some 0 ->
  0 <= h <= 23 -> 0 <= mi <= 59 ->
  offsetOn w 2024 3 5 east -> -1440 < east < 1440 ->
  formatDate (Some (control "due-date" "2024-03-05" attrs)) w
  = (Return (VString (utcMinute 2024 3 5 (h * 60 + mi - east))), w).
Proof.
  intros Hhms Hh Hmi Hs Hhr Hmir Hoff Heast.
  unfold formatDate. cbn [value attributes control].
  change (truthy (VString "2024-03-05")) with true. cbn [negb].
  change (Str.split "-" "2024-03-05") with ["2024"; "03"; "05"].
  cbn [map item nth].
  change (Num.unaryPlus (VString "2024")) with (VNumber 2024).
  change (Num.unaryPlus (VString "03")) with (VNumber 3).
  change (Num.unaryPlus (VString "05")) with (VNumber 5).
  cbv zeta in Hhms. rewrite Hhms. cbn [item nth].
  assert (Hdate : validDate 2024 3 5)
    by (split; [lia | vm_compute; split; discriminate]).
  rewrite (construct_offset (localTZA w) 2024 3 5 hv miv sv h mi 0 east)
    by (try assumption; try lia; try (unfold validTime; lia);
        apply Hoff; unfold JsDate.MakeDate, JsDate.MakeTime, JsDate.msPerDay,
          JsDate.msPerHour, JsDate.msPerMinute, JsDate.msPerSecond; lia).
  replace (JsDate.MakeDate (JsDate.daysFromCivil 2024 3 5)
                           (JsDate.MakeTime h mi 0 0)
           - east * JsDate.msPerMinute)
    with (JsDate.MakeDate (JsDate.daysFromCivil 2024 3 5) 0
          + (h * 60 + mi - east) * JsDate.msPerMinute)
    by (unfold JsDate.MakeDate, JsDate.MakeTime, JsDate.msPerDay,
          JsDate.msPerHour, JsDate.msPerMinute, JsDate.msPerSecond; lia).
  destruct (toISOString_minute 2024 3 5 (h * 60 + mi - east))
    as (iso & -> & ->); [lia | lia | | reflexivity].
  change (daysInMonth 2024 3) with 31. zdiv.
Qed.

(** C4 (amended).  [formatDate] reads the date and the time as local
    time and prints the instant in UTC.  On a host that is [east]
    minutes east of UTC on 2024-03-05, the date 2024-03-05 with time
    14:30:00 comes back as the UTC text of the minute [east] minutes
    before 14:30, and the date alone as the UTC text of the minute
    [east] minutes before midnight, which may fall on the 4th or the
    6th.  On a host in UTC these are [2024-03-05T14:30:00Z] and
    [2024-03-05T00:00:00Z].  On any host, no date gives [null].  The
    world is left as it was. *)
Theorem formatDate_examples w east :
  offsetOn w 2024 3 5 east ->
  -1440 < east < 1440 ->
  formatDate (Some (control "due-date" "2024-03-05"
                            [("data-orig-time", "14:30:00")])) w
  = (Return (VString (utcMinute 2024 3 5 (14 * 60 + 30 - east))), w)
  /\ formatDate (Some (control "due-date" "2024-03-05" [])) w
     = (Return (VString (utcMinute 2024 3 5 (0 - east))), w)
  /\ (east = 0 ->
      formatDate (Some (control "due-date" "2024-03-05"
                                [("data-orig-time", "14:30:00")])) w
      = (Return (VString "2024-03-05T14:30:00Z"), w)
      /\ formatDate (Some (control "due-date" "2024-03-05" [])) w
         = (Return (VString "2024-03-05T00:00:00Z"), w))
  /\ (forall attrs w0,
        formatDate (Some (mkElement attrs "")) w0 = (Return VNull, w0)).
Proof.
  intros Hoff Heast.
  assert (Htimed :
    formatDate (Some (control "due-date" "2024-03-05"
                              [("data-orig-time", "14:30:00")])) w
    = (Return (VString (utcMinute 2024 3 5 (14 * 60 + 30 - east))), w)).
  { apply (formatDate_march5 w _ (VString "14") (VString "30") (VString "00"));
      try reflexivity; try assumption; lia. }
  assert (Hplain :
    formatDate (Some (control "due-date" "2024-03-05" [])) w
    = (Return (VString (utcMinute 2024 3 5 (0 - east))), w)).
  { apply (formatDate_march5 w [] (VNumber 0) (VNumber 0) (VNumber 0) 0 0);
      try reflexivity; try assumption; lia. }
  split; [exact Htimed |]. split; [exact Hplain |]. split.
  - intros ->. rewrite Htimed, Hplain. split; reflexivity.
  - reflexivity.
Qed.

(** The first example on a host in UTC and on a host one hour east of
    it. *)
Lemma formatDate_examples_witness :
  formatDate (Some (control "due-date" "2024-03-05"
                            [("data-orig-time", "14:30:00")]))
             (sampleWorld 0 [])
  = (Return (VString "2024-03-05T14:30:00Z"), sampleWorld 0 [])
  /\ formatDate (Some (control "due-date" "2024-03-05"
                               [("data-orig-time", "14:30:00")]))
                (sampleWorld 3600000 [])
     = (Return (VString "2024-03-05T13:30:00Z"), sampleWorld 3600000 []).
Proof.
  split.
  - apply (formatDate_examples (sampleWorld 0 []) 0);
      [intros t _; reflexivity | lia | reflexivity].
  - apply (formatDate_examples (sampleWorld 3600000 []) 60);
      [intros t _; reflexivity | lia].
Defined.

(** C4 as stated fails on a host that is not in UTC: the components are
    read as local time.  One hour east of UTC, 14:30:00 on 2024-03-05
    comes out as 13:30:00Z; five hours west, a date alone comes out as
    05:00:00Z. *)
Lemma formatDate_examples_counterexample :
  (formatDate (Some (control "due-date" "2024-03-05"
                             [("data-orig-time", "14:30:00")]))
              (sampleWorld 3600000 [])).1
  = Return (VString "2024-03-05T13:30:00Z")
  /\ (formatDate (Some (control "due-date" "2024-03-05" []))
                 (sampleWorld (-18000000) [])).1
     = Return (VString "2024-03-05T05:00:00Z")
  /\ (formatDate (Some (control "due-date" "2024-03-05"
                                [("data-orig-time", "14:30:00")]))
                 (sampleWorld 3600000 [])).1
     <> Return (VString "2024-03-05T14:30:00Z").
Proof. repeat split; vm_compute; discriminate. Qed.

(** ** Packing again *)

Lemma getProp_deleteProp_same k o : getProp k (deleteProp k o) = VUndefined.
Proof.
  induction o as [|[k' v] o IH]; [reflexivity |].
  unfold deleteProp in *. simpl.
  destruct (String.eqb k k') eqn:E; simpl; [exact IH |].
  now rewrite E.
Qed.

Lemma deleteProp_idempotent k o : deleteProp k (deleteProp k o) = deleteProp k o.
Proof.
  induction o as [|[k' v] o IH]; [reflexivity |].
  unfold deleteProp in *. simpl.
  destruct (String.eqb k k') eqn:E; simpl; [exact IH |].
  rewrite E. simpl. now rewrite IH.
Qed.

Lemma alter_fixed (f : Props -> Props) (h : Heap) l o :
  h !! l = Some o -> f o = o -> alter f l h = h.
Proof.
  intros Hl Hf. apply list_eq. intros i. rewrite list_lookup_alter.
  destruct (decide (l = i)) as [<- |]; [| reflexivity].
  unfold Props in *. rewrite Hl. simpl. now rewrite Hf.
Qed.

(** X18. Packing is not repeatable: after an entry has been packed once,
    packing the same entry again finds the original name gone, so the
    second package has [originalName] undefined (and, for a label,
    [apiCallSign] too), while the new name and a milestone's number are
    still read; the second packing changes nothing more. *)
Theorem packEntry_twice w l o kind pkg1 w1 pkg2 w2 :
  heap w !! l = Some o ->
  packEntry (VObject l) kind w = (Return pkg1, w1) ->
  packEntry (VObject l) kind w1 = (Return pkg2, w2) ->
  originalName (names pkg2) = VUndefined
  /\ newName (names pkg2) = newName (names pkg1)
  /\ (kind = "labels" -> apiCallSign (names pkg2) = VUndefined)
  /\ (kind <> "labels" ->
      apiCallSign (names pkg2) = apiCallSign (names pkg1))
  /\ entryBody pkg2 = entryBody pkg1
  /\ w2 = w1.
Proof.
  intros Hl H1 H2.
  rewrite (packEntry_object _ _ o) in H1 by assumption.
  injection H1 as <- <-.
  assert (Hl1 : heap (withHeap (alter (deleteProp (identityKey kind)) l (heap w)) w)
                !! l = Some (deleteProp (identityKey kind) o)).
  { rewrite heap_withHeap, list_lookup_alter_eq.
    unfold Props in *. now rewrite Hl. }
  rewrite (packEntry_object _ _ _ _ Hl1) in H2.
  injection H2 as <- <-. cbn [names originalName newName apiCallSign entryBody].
  split; [apply getProp_deleteProp_same |].
  split.
  { apply getProp_deleteProp_other. unfold identityKey, nameKey.
    destruct (String.eqb kind "labels"); discriminate. }
  split.
  { intros ->. apply getProp_deleteProp_same. }
  split.
  { intros Hk. apply getProp_deleteProp_other. unfold identityKey, signKey.
    destruct (String.eqb_spec kind "labels"); [contradiction | discriminate]. }
  split; [reflexivity |].
  rewrite ?heap_withHeap.
  rewrite (alter_fixed _ _ l (deleteProp (identityKey kind) o));
    [reflexivity | | apply deleteProp_idempotent].
  rewrite list_lookup_alter_eq. unfold Props in *. now rewrite Hl.
Qed.

Lemma packEntry_twice_witness :
  let w := withHeap [sampleLabelEntry] (sampleWorld 0 []) in
  apiCallSign
    (names (mkEntryPackage (VObject 0%nat)
              (mkNames VUndefined (VString "bug") VUndefined)))
  = VUndefined.
Proof.
  intros w.
  apply (packEntry_twice w 0%nat sampleLabelEntry "labels"
           (packageOf "labels" 0%nat sampleLabelEntry)
           (packEntry (VObject 0%nat) "labels" w).2
           (mkEntryPackage (VObject 0%nat)
              (mkNames VUndefined (VString "bug") VUndefined))
           (packEntry (VObject 0%nat) "labels" w).2
           eq_refl eq_refl eq_refl).
  reflexivity.
Defined.
